(** * Fractal RPG bot: character sheets, fact indexing and dialog workflows

    A shallow embedding of the two implementations found in the repository:
    - [Core] follows [rpg_core.py] (schema version 2, driven by [bot.py]);
    - [Main] follows [main.py] (the older free-form schema).

    Python values are modelled as follows: [int] is [Z]; [str] is [string]
    (one [ascii] stands for one character of the text); a [list] is a [list];
    the JSON document on disk is a [gmap] from the key [str(user_id)] to the
    character record; dictionary keys read with [.get(key, default)] are
    optional record fields.  Effects (the file, the clock, the session table,
    what is sent to and received from the chat platform) are threaded through
    a state-and-exception monad over a [World]. *)

From Stdlib Require Import ZArith Ascii String DecimalString DecimalPos.
From stdpp Require Import base option list gmap strings.

Local Open Scope Z_scope.

(** ** Python primitives *)

Module Py.

Inductive Exn := ValueError | IndexError | KeyError | TimeoutError.

#[global] Instance Exn_eq_dec : EqDecision Exn.
Proof. solve_decision. Defined.

(** The outcome of a call that may raise. *)
Inductive Res (A : Type) : Type :=
| Ok (a : A)
| Raise (e : Exn).
Arguments Ok {A} a.
Arguments Raise {A} e.

Definition res_bind {A B} (r : Res A) (k : A → Res B) : Res B :=
  match r with
  | Ok a => k a
  | Raise e => Raise e
  end.

Definition len {A} (l : list A) : Z := Z.of_nat (length l).

(** [l[i]]: negative indices count from the end, out of range raises. *)
Definition norm_index {A} (l : list A) (i : Z) : option nat :=
  if bool_decide (0 ≤ i < len l) then Some (Z.to_nat i)
  else if bool_decide (- len l ≤ i < 0) then Some (Z.to_nat (len l + i))
  else None.

Definition getitem {A} (l : list A) (i : Z) : Res A :=
  match norm_index l i ≫= λ n, l !! n with
  | Some x => Ok x
  | None => Raise IndexError
  end.

(** [l[i] = x] *)
Definition setitem {A} (l : list A) (i : Z) (x : A) : Res (list A) :=
  match norm_index l i with
  | Some n => Ok (<[n:=x]> l)
  | None => Raise IndexError
  end.

(** [s[:n]] on text. *)
Fixpoint str_take (n : nat) (s : string) : string :=
  match n, s with
  | S n', String c s' => String c (str_take n' s')
  | _, _ => EmptyString
  end.

Definition str_len (s : string) : Z := Z.of_nat (String.length s).

(** Truthiness of a text: only the empty text is falsy. *)
Definition truthy (s : string) : bool :=
  match s with
  | EmptyString => false
  | _ => true
  end.

(** Characters removed by [str.strip()] and skipped by [int()]. *)
Definition is_space (c : ascii) : bool :=
  let n := nat_of_ascii c in
  ((9 <=? n) && (n <=? 13) || (28 <=? n) && (n <=? 32))%nat.

Fixpoint lstrip (s : string) : string :=
  match s with
  | String c s' => if is_space c then lstrip s' else s
  | EmptyString => EmptyString
  end.

Fixpoint rstrip (s : string) : string :=
  match s with
  | EmptyString => EmptyString
  | String c s' =>
      match rstrip s' with
      | EmptyString => if is_space c then EmptyString else String c EmptyString
      | r => String c r
      end
  end.

Definition strip (s : string) : string := rstrip (lstrip s).

(** [str(n)] for an integer. *)
Definition str (n : Z) : string := NilZero.string_of_int (Z.to_int n).

Definition digit_of_ascii (c : ascii) : option (Decimal.uint → Decimal.uint) :=
  match c with
  | "0"%char => Some Decimal.D0
  | "1"%char => Some Decimal.D1
  | "2"%char => Some Decimal.D2
  | "3"%char => Some Decimal.D3
  | "4"%char => Some Decimal.D4
  | "5"%char => Some Decimal.D5
  | "6"%char => Some Decimal.D6
  | "7"%char => Some Decimal.D7
  | "8"%char => Some Decimal.D8
  | "9"%char => Some Decimal.D9
  | _ => None
  end.

(** The digits of an integer literal: at least one digit, single
    underscores allowed between digits only. [prev] tells whether the
    previous character was a digit. *)
Fixpoint digits (prev : bool) (s : string) : option Decimal.uint :=
  match s with
  | EmptyString => if prev then Some Decimal.Nil else None
  | String c s' =>
      if Ascii.eqb c "_" then
        if prev then digits false s' else None
      else
        match digit_of_ascii c, digits true s' with
        | Some f, Some d => Some (f d)
        | _, _ => None
        end
  end.

(** [int(s)] for a text: surrounding blanks, an optional sign, digits. *)
Definition int (s : string) : Res Z :=
  let body :=
    match strip s with
    | String "-" s' => (λ d, - Z.of_uint d) <$> digits false s'
    | String "+" s' => Z.of_uint <$> digits false s'
    | s' => Z.of_uint <$> digits false s'
    end in
  match body with
  | Some z => Ok z
  | None => Raise ValueError
  end.

(** [s.lower()] and [s.upper()] on the letters A to Z. *)
Definition lower_char (c : ascii) : ascii :=
  let n := nat_of_ascii c in
  if ((65 <=? n) && (n <=? 90))%nat then ascii_of_nat (n + 32) else c.

Definition upper_char (c : ascii) : ascii :=
  let n := nat_of_ascii c in
  if ((97 <=? n) && (n <=? 122))%nat then ascii_of_nat (n - 32) else c.

Fixpoint str_map (f : ascii → ascii) (s : string) : string :=
  match s with
  | EmptyString => EmptyString
  | String c s' => String (f c) (str_map f s')
  end.

Definition lower (s : string) : string := str_map lower_char s.
Definition upper (s : string) : string := str_map upper_char s.

End Py.

Import Py.

(** ** The world the handlers run in *)

Module Sys.

(** One entry of a select menu ([discord.SelectOption]). *)
Record SelectOption := {
  label : string;
  description : option string;
  value : string;
}.

Record SelectMenu := {
  placeholder : string;
  options : list SelectOption;
}.

(** The two modal forms of [main.py]. *)
Inductive Modal :=
| NovoFatoModal (requester_id : Z) (target_user_id : string) (timeline : string)
| EditarFatoModal (requester_id : Z) (target_user_id : string)
    (fact_index : Z) (current_text : string).

(** What a handler sends to the platform. *)
Inductive Output :=
| DmSend (content : string) (view : option SelectMenu)
| Respond (content : string) (view : option SelectMenu)
| RespondModal (modal : Modal)
| EditMessage (content : string).

(** A user picking entry [choice] of a menu. *)
Record Click := {
  by_user : Z;
  choice : nat;
}.

(** The state a handler reads and writes; [C] is the type of a stored
    character record.
    - [w_file]: the document [data/personagens.json], keyed by [str(user_id)]
      (no file is the empty document);
    - [w_sessions]: the table [active_sessions];
    - [w_clock], [w_tick]: the successive readings of [utc_now_iso()];
    - [w_replies]: what comes next on the private channel of the user: a
      message ([Some content]) or the timeout of the current wait ([None]);
      nothing left is a timeout as well;
    - [w_clicks]: for each menu sent, the clicks it receives before it times
      out;
    - [w_out]: everything sent so far, oldest first. *)
Record World (C : Type) := {
  w_file : gmap string C;
  w_sessions : gmap Z bool;
  w_clock : nat → string;
  w_tick : nat;
  w_replies : list (option string);
  w_clicks : list (list Click);
  w_out : list Output;
}.
Arguments w_file {C} _.
Arguments w_sessions {C} _.
Arguments w_clock {C} _.
Arguments w_tick {C} _.
Arguments w_replies {C} _.
Arguments w_clicks {C} _.
Arguments w_out {C} _.

(** A computation over the world that returns or raises. *)
Definition M (C A : Type) : Type := World C → Res A * World C.

Definition ret {C A} (a : A) : M C A := λ w, (Ok a, w).

Definition bind {C A B} (m : M C A) (k : A → M C B) : M C B :=
  λ w, match m w with
       | (Ok a, w') => k a w'
       | (Raise e, w') => (Raise e, w')
       end.

Definition raise {C A} (e : Exn) : M C A := λ w, (Raise e, w).

(** A pure call that may raise, run inside a handler. *)
Definition lift {C A} (r : Res A) : M C A := λ w, (r, w).

(** [try: body finally: cleanup] *)
Definition try_finally {C A} (body : M C A) (cleanup : M C unit) : M C A :=
  λ w, match body w with
       | (r, w') =>
           match cleanup w' with
           | (Ok _, w'') => (r, w'')
           | (Raise e, w'') => (Raise e, w'')
           end
       end.

(** [try: body except exn: handler] *)
Definition try_except {C A} (body : M C A) (exn : Exn) (handler : M C A) : M C A :=
  λ w, match body w with
       | (Raise e, w') => if bool_decide (e = exn) then handler w' else (Raise e, w')
       | ok => ok
       end.

Definition load_data {C} : M C (gmap string C) := λ w, (Ok (w_file w), w).

Definition save_data {C} (data : gmap string C) : M C unit :=
  λ w, (Ok tt,
        {| w_file := data; w_sessions := w_sessions w; w_clock := w_clock w;
           w_tick := w_tick w; w_replies := w_replies w;
           w_clicks := w_clicks w; w_out := w_out w |}).

Definition utc_now_iso {C} : M C string :=
  λ w, (Ok (w_clock w (w_tick w)),
        {| w_file := w_file w; w_sessions := w_sessions w; w_clock := w_clock w;
           w_tick := S (w_tick w); w_replies := w_replies w;
           w_clicks := w_clicks w; w_out := w_out w |}).

Definition send {C} (o : Output) : M C unit :=
  λ w, (Ok tt,
        {| w_file := w_file w; w_sessions := w_sessions w; w_clock := w_clock w;
           w_tick := w_tick w; w_replies := w_replies w;
           w_clicks := w_clicks w; w_out := w_out w ++ [o] |}).

(** The messages of the user on the private channel are tried in turn
    against [check]; the first accepted one is the result, the ones before
    it are passed over.  Returns what is left to come as well. *)
Fixpoint first_accepted (check : string → bool) (incoming : list (option string))
  : option string * list (option string) :=
  match incoming with
  | [] => (None, [])
  | None :: rest => (None, rest)
  | Some content :: rest =>
      if check content then (Some content, rest) else first_accepted check rest
  end.

(** [client.wait_for("message", check, timeout)]: the content of the first
    message accepted by [check], or [None] on timeout. *)
Definition wait_message {C} (check : string → bool) : M C (option string) :=
  λ w, let '(r, rest) := first_accepted check (w_replies w) in
       (Ok r,
        {| w_file := w_file w; w_sessions := w_sessions w;
           w_clock := w_clock w; w_tick := w_tick w; w_replies := rest;
           w_clicks := w_clicks w; w_out := w_out w |}).

(** The clicks a menu just sent receives until its timeout. *)
Definition wait_clicks {C} : M C (list Click) :=
  λ w, match w_clicks w with
       | cs :: rest =>
           (Ok cs,
            {| w_file := w_file w; w_sessions := w_sessions w;
               w_clock := w_clock w; w_tick := w_tick w;
               w_replies := w_replies w; w_clicks := rest; w_out := w_out w |})
       | [] => (Ok [], w)
       end.

Definition session_get {C} (user : Z) : M C bool :=
  λ w, (Ok (default false (w_sessions w !! user)), w).

Definition session_set {C} (user : Z) : M C unit :=
  λ w, (Ok tt,
        {| w_file := w_file w; w_sessions := <[user:=true]> (w_sessions w);
           w_clock := w_clock w; w_tick := w_tick w; w_replies := w_replies w;
           w_clicks := w_clicks w; w_out := w_out w |}).

(** [active_sessions.pop(user, None)] *)
Definition session_pop {C} (user : Z) : M C unit :=
  λ w, (Ok tt,
        {| w_file := w_file w; w_sessions := delete user (w_sessions w);
           w_clock := w_clock w; w_tick := w_tick w; w_replies := w_replies w;
           w_clicks := w_clicks w; w_out := w_out w |}).

(** What sending messages leaves of the world: only the outbox grows. *)
Definition same_but_out {C} (w w' : World C) : Prop :=
  w_file w' = w_file w ∧ w_sessions w' = w_sessions w ∧ w_clock w' = w_clock w
  ∧ w_tick w' = w_tick w ∧ w_replies w' = w_replies w ∧ w_clicks w' = w_clicks w.

(** What a single-choice prompt leaves of the world: the outbox grows and
    the clicks of its menu are used up. *)
Definition after_menu {C} (w w' : World C) : Prop :=
  w_file w' = w_file w ∧ w_sessions w' = w_sessions w ∧ w_clock w' = w_clock w
  ∧ w_tick w' = w_tick w ∧ w_replies w' = w_replies w
  ∧ w_clicks w' = tail (w_clicks w).

(** What outlives a conversation: the file and the session table. *)
Definition stored {C} (w : World C) : gmap string C * gmap Z bool :=
  (w_file w, w_sessions w).

(** [Post m Q]: whenever [m] returns, what it returns satisfies [Q]. *)
Definition Post {C A} (m : M C A) (Q : A → Prop) : Prop :=
  ∀ w a w', m w = (Ok a, w') → Q a.

(** A computation keeps the part [f] of the world when [f] reads the same
    after every run of it. *)
Definition Keeps {C X A} (f : World C → X) (m : M C A) : Prop :=
  ∀ w, f (m w).2 = f w.

End Sys.

Import Sys.

#[global] Instance M_ret {C} : MRet (M C) := @ret C.
#[global] Instance M_bind {C} : MBind (M C) := λ A B k m, bind m k.

Definition nl : string := String "010" EmptyString.

(** [if not answer]: a timeout and an empty text both count as no answer. *)
Definition nonempty (answer : option string) : option string :=
  answer ≫= λ s, if Py.truthy s then Some s else None.

(** [text if len(text) <= 80 else text[:77] + "..."] *)
Definition shorten (f : string) : string :=
  if bool_decide (Py.str_len f ≤ 80) then f else Py.str_take 77 f +:+ "...".

(** The invariant of the data model: every ruptured text is the text of
    some fact. *)
Definition consistent (ruptured facts : list string) : Prop :=
  ∀ x, x ∈ ruptured → x ∈ facts.

(** ** [rpg_core.py] and [bot.py] *)

Module Core.

Definition DEFAULT_DESTINY_MAX : Z := 2.
Definition XP_COST_NEW_FACT : Z := 3.

Definition RACES : list (string * string) :=
  [ ("Humano", "Versátil e adaptável.");
    ("Anão", "Resiliente, tradição e forja.");
    ("Elfo", "Longevidade, precisão e magia.");
    ("Halfling", "Sortudo, discreto e ágil.") ].

Definition CLASSES : list (string * string) :=
  [ ("Guerreiro", "Combate direto e resistência.");
    ("Ladino", "Furtividade, perícia, truques.");
    ("Clérigo", "Fé, cura e suporte.");
    ("Mago", "Magias e conhecimento arcano.") ].

Record Archetype := {
  a_label : string;
  a_pv : Z;
  a_pm : Z;
  dano_fisico_base : Z;
  bonus_magico : Z;
}.

Definition ARCHETYPES : gmap string Archetype :=
  list_to_map
    [ ("linha_de_frente", {| a_label := "Linha de frente"; a_pv := 8; a_pm := 3;
                             dano_fisico_base := 2; bonus_magico := 0 |});
      ("combatente", {| a_label := "Combatente"; a_pv := 7; a_pm := 3;
                        dano_fisico_base := 3; bonus_magico := 0 |});
      ("especialista", {| a_label := "Especialista"; a_pv := 6; a_pm := 4;
                          dano_fisico_base := 2; bonus_magico := 0 |});
      ("utilitario", {| a_label := "Utilitário"; a_pv := 5; a_pm := 4;
                        dano_fisico_base := 2; bonus_magico := 0 |});
      ("conjurador", {| a_label := "Conjurador"; a_pv := 4; a_pm := 5;
                        dano_fisico_base := 1; bonus_magico := 1 |}) ].

Definition ARCHETYPE_ORDER : list string :=
  ["linha_de_frente"; "combatente"; "especialista"; "utilitario"; "conjurador"].

(** [ARCHETYPES[key]] *)
Definition archetype_of (key : string) : Res Archetype :=
  match ARCHETYPES !! key with
  | Some a => Ok a
  | None => Raise KeyError
  end.

(** *** The record (schema version 2) *)

Inductive Kind := Past | Present | Future.

Record Gauge := {
  current : Z;
  vmax : Z;
}.

Record Reserves := {
  pv : Gauge;
  pm : Gauge;
  destiny : Gauge;
}.

Record Damage := {
  physical : Z;
  magic_bonus : Z;
}.

Record Facts := {
  past : list string;
  present : list string;
  future : list string;
}.

(** [ruptured_facts] and [xp] are read with [.get(key, default)] throughout,
    the other keys with [char[key]]. *)
Record Character := {
  schema_version : Z;
  owner_id : Z;
  name : string;
  race : string;
  class_ : string;
  archetype : string;
  reserves : Reserves;
  damage_base : Damage;
  facts : Facts;
  difficulty : string;
  ruptured_facts : option (list string);
  xp : option Z;
  created_at : string;
  updated_at : string;
}.

Definition with_name (c : Character) (v : string) : Character :=
  {| schema_version := schema_version c; owner_id := owner_id c; name := v;
     race := race c; class_ := class_ c; archetype := archetype c;
     reserves := reserves c; damage_base := damage_base c; facts := facts c;
     difficulty := difficulty c; ruptured_facts := ruptured_facts c;
     xp := xp c; created_at := created_at c; updated_at := updated_at c |}.

Definition with_race (c : Character) (v : string) : Character :=
  {| schema_version := schema_version c; owner_id := owner_id c; name := name c;
     race := v; class_ := class_ c; archetype := archetype c;
     reserves := reserves c; damage_base := damage_base c; facts := facts c;
     difficulty := difficulty c; ruptured_facts := ruptured_facts c;
     xp := xp c; created_at := created_at c; updated_at := updated_at c |}.

Definition with_class (c : Character) (v : string) : Character :=
  {| schema_version := schema_version c; owner_id := owner_id c; name := name c;
     race := race c; class_ := v; archetype := archetype c;
     reserves := reserves c; damage_base := damage_base c; facts := facts c;
     difficulty := difficulty c; ruptured_facts := ruptured_facts c;
     xp := xp c; created_at := created_at c; updated_at := updated_at c |}.

Definition with_archetype (c : Character) (v : string) : Character :=
  {| schema_version := schema_version c; owner_id := owner_id c; name := name c;
     race := race c; class_ := class_ c; archetype := v;
     reserves := reserves c; damage_base := damage_base c; facts := facts c;
     difficulty := difficulty c; ruptured_facts := ruptured_facts c;
     xp := xp c; created_at := created_at c; updated_at := updated_at c |}.

Definition with_reserves (c : Character) (v : Reserves) : Character :=
  {| schema_version := schema_version c; owner_id := owner_id c; name := name c;
     race := race c; class_ := class_ c; archetype := archetype c;
     reserves := v; damage_base := damage_base c; facts := facts c;
     difficulty := difficulty c; ruptured_facts := ruptured_facts c;
     xp := xp c; created_at := created_at c; updated_at := updated_at c |}.

Definition with_damage_base (c : Character) (v : Damage) : Character :=
  {| schema_version := schema_version c; owner_id := owner_id c; name := name c;
     race := race c; class_ := class_ c; archetype := archetype c;
     reserves := reserves c; damage_base := v; facts := facts c;
     difficulty := difficulty c; ruptured_facts := ruptured_facts c;
     xp := xp c; created_at := created_at c; updated_at := updated_at c |}.

Definition with_facts (c : Character) (v : Facts) : Character :=
  {| schema_version := schema_version c; owner_id := owner_id c; name := name c;
     race := race c; class_ := class_ c; archetype := archetype c;
     reserves := reserves c; damage_base := damage_base c; facts := v;
     difficulty := difficulty c; ruptured_facts := ruptured_facts c;
     xp := xp c; created_at := created_at c; updated_at := updated_at c |}.

Definition with_difficulty (c : Character) (v : string) : Character :=
  {| schema_version := schema_version c; owner_id := owner_id c; name := name c;
     race := race c; class_ := class_ c; archetype := archetype c;
     reserves := reserves c; damage_base := damage_base c; facts := facts c;
     difficulty := v; ruptured_facts := ruptured_facts c;
     xp := xp c; created_at := created_at c; updated_at := updated_at c |}.

Definition with_ruptured_facts (c : Character) (v : list string) : Character :=
  {| schema_version := schema_version c; owner_id := owner_id c; name := name c;
     race := race c; class_ := class_ c; archetype := archetype c;
     reserves := reserves c; damage_base := damage_base c; facts := facts c;
     difficulty := difficulty c; ruptured_facts := Some v;
     xp := xp c; created_at := created_at c; updated_at := updated_at c |}.

Definition with_xp (c : Character) (v : Z) : Character :=
  {| schema_version := schema_version c; owner_id := owner_id c; name := name c;
     race := race c; class_ := class_ c; archetype := archetype c;
     reserves := reserves c; damage_base := damage_base c; facts := facts c;
     difficulty := difficulty c; ruptured_facts := ruptured_facts c;
     xp := Some v; created_at := created_at c; updated_at := updated_at c |}.

Definition with_updated_at (c : Character) (v : string) : Character :=
  {| schema_version := schema_version c; owner_id := owner_id c; name := name c;
     race := race c; class_ := class_ c; archetype := archetype c;
     reserves := reserves c; damage_base := damage_base c; facts := facts c;
     difficulty := difficulty c; ruptured_facts := ruptured_facts c;
     xp := xp c; created_at := created_at c; updated_at := v |}.

(** [char["facts"][kind]] *)
Definition bucket (c : Character) (kind : Kind) : list string :=
  match kind with
  | Past => past (facts c)
  | Present => present (facts c)
  | Future => future (facts c)
  end.

(** [char["facts"][kind] = arr] *)
Definition with_bucket (c : Character) (kind : Kind) (arr : list string) : Character :=
  with_facts c
    match kind with
    | Past => {| past := arr; present := present (facts c); future := future (facts c) |}
    | Present => {| past := past (facts c); present := arr; future := future (facts c) |}
    | Future => {| past := past (facts c); present := present (facts c); future := arr |}
    end.

(** [char.get("ruptured_facts", [])] and [int(char.get("xp", 0))] *)
Definition get_ruptured_facts (c : Character) : list string :=
  default [] (ruptured_facts c).

Definition get_xp (c : Character) : Z := default 0 (xp c).

Definition make_new_character_schema (user_id : Z) : M Character Character :=
  created ← utc_now_iso;
  updated ← utc_now_iso;
  mret {| schema_version := 2; owner_id := user_id; name := ""; race := "";
          class_ := ""; archetype := "";
          reserves :=
            {| pv := {| current := 0; vmax := 0 |};
               pm := {| current := 0; vmax := 0 |};
               destiny := {| current := DEFAULT_DESTINY_MAX;
                             vmax := DEFAULT_DESTINY_MAX |} |};
          damage_base := {| physical := 0; magic_bonus := 0 |};
          facts := {| past := []; present := []; future := [] |};
          difficulty := ""; ruptured_facts := Some []; xp := Some 0;
          created_at := created; updated_at := updated |}.

Definition apply_archetype (character : Character) (archetype_key : string)
  : Res Character :=
  Py.res_bind (archetype_of archetype_key) (λ arch,
    let character := with_archetype character archetype_key in
    let character :=
      with_reserves character
        {| pv := {| current := a_pv arch; vmax := a_pv arch |};
           pm := {| current := a_pm arch; vmax := a_pm arch |};
           destiny := {| current := DEFAULT_DESTINY_MAX;
                         vmax := DEFAULT_DESTINY_MAX |} |} in
    Ok (with_damage_base character
          {| physical := dano_fisico_base arch;
             magic_bonus := bonus_magico arch |})).

Definition fmt (items : list string) : string :=
  match items with
  | [] => "—"
  | _ => String.concat nl ((λ x, "- " +:+ x) <$> items)
  end.

Definition fmt_rupt (items : list string) : string :=
  match items with
  | [] => "—"
  | _ => String.concat nl ((λ x, "- ~~" +:+ x +:+ "~~") <$> items)
  end.

Definition render_character (character : Character) : string :=
  let arch_key := archetype character in
  let arch_label :=
    if Py.truthy arch_key then default "—" (a_label <$> ARCHETYPES !! arch_key)
    else "—" in
  let pv := pv (reserves character) in
  let pm := pm (reserves character) in
  let destiny := destiny (reserves character) in
  let dmg := damage_base character in
  "**Nome:** " +:+ name character +:+ nl
  +:+ "**Raça:** " +:+ race character +:+ nl
  +:+ "**Classe:** " +:+ class_ character +:+ nl
  +:+ "**Arquétipo:** " +:+ arch_label +:+ nl
  +:+ "**Reservas:** PV " +:+ Py.str (current pv) +:+ "/" +:+ Py.str (vmax pv)
  +:+ " | PM " +:+ Py.str (current pm) +:+ "/" +:+ Py.str (vmax pm) +:+ " | "
  +:+ "Destino " +:+ Py.str (current destiny) +:+ "/" +:+ Py.str (vmax destiny) +:+ nl
  +:+ "**Dano Base:** Físico " +:+ Py.str (physical dmg)
  +:+ " | Bônus mágico +" +:+ Py.str (magic_bonus dmg) +:+ nl
  +:+ "**XP:** " +:+ Py.str (get_xp character) +:+ nl +:+ nl
  +:+ "**Fatos — Passado** (base 3)" +:+ nl +:+ fmt (past (facts character)) +:+ nl +:+ nl
  +:+ "**Fatos — Presente** (base 3)" +:+ nl +:+ fmt (present (facts character)) +:+ nl +:+ nl
  +:+ "**Fatos — Futuro** (base 1)" +:+ nl +:+ fmt (future (facts character)) +:+ nl +:+ nl
  +:+ "**Dificuldade (1)**" +:+ nl +:+ "- "
  +:+ (if Py.truthy (difficulty character) then difficulty character else "—")
  +:+ nl +:+ nl
  +:+ "**Fatos Rompidos**" +:+ nl +:+ fmt_rupt (get_ruptured_facts character).

(** *** Private-message helpers *)

Definition dm_ask_text (prompt : string) : M Character (option string) :=
  send (DmSend prompt None);;
  msg ← wait_message (λ _, true);
  mret (Py.strip <$> msg).

(** The callback attached to a menu, run on each click until one resolves
    it: a click by someone else is answered and ignored; the owner's click
    stores [select.values[0]], the value of the entry picked.  [confirm]
    builds the text the message is edited to. *)
Fixpoint select_callback (user : Z) (confirm : string → Res string)
    (menu : list SelectOption) (clicks : list Click) : M Character (option string) :=
  match clicks with
  | [] => mret None
  | c :: rest =>
      if bool_decide (by_user c ≠ user) then
        send (Respond "Esse menu não é seu." None);;
        select_callback user confirm menu rest
      else
        match menu !! choice c with
        | Some o =>
            content ← lift (confirm (value o));
            send (EditMessage content);;
            mret (Some (value o))
        | None => select_callback user confirm menu rest
        end
  end.

(** The entries [dm_select_one] builds from [option_tuples[:25]]: the label
    is also the value of the entry, the second component its description. *)
Definition select_options (option_tuples : list (string * string)) : list SelectOption :=
  (λ '(label, desc),
     {| label := label;
        description := if Py.truthy desc then Some (Py.str_take 100 desc) else None;
        value := label |}) <$> take 25 option_tuples.

(** [option_tuples: [(label, description)]], returns the label picked. *)
Definition dm_select_one (user : Z) (title placeholder : string)
    (option_tuples : list (string * string)) : M Character (option string) :=
  let options := select_options option_tuples in
  send (DmSend ("**" +:+ title +:+ "**")
          (Some {| placeholder := placeholder; options := options |}));;
  clicks ← wait_clicks;
  select_callback user (λ v, Ok ("✅ Selecionado: **" +:+ v +:+ "**")) options clicks.

Definition dm_select_archetype (user : Z) : M Character (option string) :=
  options ← lift (foldr (λ key acc,
      Py.res_bind (archetype_of key) (λ a,
        Py.res_bind acc (λ rest,
          let desc :=
            "PV " +:+ Py.str (a_pv a) +:+ " / PM " +:+ Py.str (a_pm a)
            +:+ " / Dano " +:+ Py.str (dano_fisico_base a)
            +:+ (if bool_decide (bonus_magico a ≠ 0)
                 then " / Magia +" +:+ Py.str (bonus_magico a) else "") in
          Ok ({| label := a_label a; description := Some (Py.str_take 100 desc);
                 value := key |} :: rest))))
    (Ok []) ARCHETYPE_ORDER);
  send (DmSend "**Selecione seu Arquétipo**"
          (Some {| placeholder := "Escolha seu Arquétipo"; options := options |}));;
  clicks ← wait_clicks;
  select_callback user
    (λ v, Py.res_bind (archetype_of v) (λ a, Ok ("✅ Arquétipo: **" +:+ a_label a +:+ "**")))
    options clicks.

(** *** Facts *)

Definition KINDS : list Kind := [Past; Present; Future].

(** The list of [(kind, fact_text, global_index)], built with a running
    index over the three buckets in order. *)
Definition _all_facts_with_index (char : Character) : list (Kind * string * Z) :=
  fst (foldl (λ '(out, idx) kind,
               foldl (λ '(out, idx) f, (out ++ [(kind, f, idx)], idx + 1))
                 (out, idx) (bucket char kind))
         ([], 0) KINDS).

Definition kind_label (kind : Kind) : string :=
  match kind with
  | Past => "Passado"
  | Present => "Presente"
  | Future => "Futuro"
  end.

Definition fact_option (kind_label : string) (f : string) (idx : Z) : string * string :=
  (kind_label +:+ ": " +:+ shorten f, Py.str idx).

Definition _options_all_facts (char : Character) : list (string * string) :=
  foldl (λ opts '(kind, f, idx), opts ++ [fact_option (kind_label kind) f idx])
    [] (_all_facts_with_index char).

Definition _options_non_ruptured_facts (char : Character) : list (string * string) :=
  let rupt := get_ruptured_facts char in
  foldl (λ opts '(kind, f, idx),
           if bool_decide (f ∈ rupt) then opts
           else opts ++ [fact_option (kind_label kind) f idx])
    [] (_all_facts_with_index char).

(** The loop of [_set_fact_by_global_index] over the remaining buckets,
    [idx] being the number of facts in the buckets already passed. *)
Fixpoint set_fact_loop (kinds : list Kind) (idx : Z) (char : Character)
    (global_index : Z) (new_text : string) : Res (option string * Character) :=
  match kinds with
  | [] => Ok (None, char)
  | kind :: rest =>
      let arr := bucket char kind in
      if bool_decide (global_index < idx + Py.len arr) then
        let local := global_index - idx in
        Py.res_bind (Py.getitem arr local) (λ old,
          Py.res_bind (Py.setitem arr local new_text) (λ arr,
            Ok (Some old, with_bucket char kind arr)))
      else set_fact_loop rest (idx + Py.len arr) char global_index new_text
  end.

(** Returns the old text, or [None] when the index is invalid, together
    with the record as the call leaves it. *)
Definition _set_fact_by_global_index (char : Character) (global_index : Z)
    (new_text : string) : Res (option string * Character) :=
  set_fact_loop KINDS 0 char global_index new_text.

(** The facts of a record, each with its bucket, in the order of the
    global index: past, then present, then future.  This is the sequence the
    properties below compare the index-carrying functions with. *)
Definition all_facts (char : Character) : list (Kind * string) :=
  ((λ f, (Past, f)) <$> past (facts char))
  ++ ((λ f, (Present, f)) <$> present (facts char))
  ++ ((λ f, (Future, f)) <$> future (facts char)).

Definition total_facts (char : Character) : Z :=
  Py.len (past (facts char)) + Py.len (present (facts char))
  + Py.len (future (facts char)).

(** The texts of [all_facts]. *)
Definition fact_texts (char : Character) : list string :=
  past (facts char) ++ present (facts char) ++ future (facts char).

(** *** Creation wizard *)

(** One of the [for i in range(1, 4)] loops of the wizard: each prompt in
    turn, the answer appended to the bucket; no answer ends the wizard. *)
Fixpoint ask_facts (kind : Kind) (prompts : list string) (char : Character)
  : M Character (option Character) :=
  match prompts with
  | [] => mret (Some char)
  | prompt :: rest =>
      txt ← dm_ask_text prompt;
      match nonempty txt with
      | None => mret None
      | Some txt => ask_facts kind rest (with_bucket char kind (bucket char kind ++ [txt]))
      end
  end.

Definition wizard_body (user : Z) : M Character (option Character) :=
  char ← make_new_character_schema user;
  name ← dm_ask_text
    ("📜 Vamos criar sua ficha (regras novas)." +:+ nl +:+ nl
     +:+ "**Qual o nome do personagem?**");
  match nonempty name with
  | None => mret None
  | Some name =>
  let char := with_name char name in
  race ← dm_select_one user "Selecione sua Raça" "Escolha a raça" RACES;
  match nonempty race with
  | None => mret None
  | Some race =>
  let char := with_race char race in
  clazz ← dm_select_one user "Selecione sua Classe" "Escolha a classe" CLASSES;
  match nonempty clazz with
  | None => mret None
  | Some clazz =>
  let char := with_class char clazz in
  archetype_key ← dm_select_archetype user;
  match nonempty archetype_key with
  | None => mret None
  | Some archetype_key =>
  char ← lift (apply_archetype char archetype_key);
  send (DmSend
    ("🧩 Agora vamos definir seus **7 Fatos**: **3 Passado**, **3 Presente**, **1 Futuro**."
     +:+ nl +:+ "Escreva frases curtas e jogáveis.") None);;
  char ← ask_facts Past
    ((λ i, "**Passado " +:+ Py.str i +:+ "/3** — Escreva um fato do seu passado:")
       <$> [1; 2; 3]) char;
  match char with
  | None => mret None
  | Some char =>
  char ← ask_facts Present
    ((λ i, "**Presente " +:+ Py.str i +:+ "/3** — Escreva um fato do seu presente:")
       <$> [1; 2; 3]) char;
  match char with
  | None => mret None
  | Some char =>
  txt ← dm_ask_text
    "**Futuro 1/1** — Escreva um fato do seu futuro (presságio/destino/promessa):";
  match nonempty txt with
  | None => mret None
  | Some txt =>
  let char := with_bucket char Future (bucket char Future ++ [txt]) in
  diff ← dm_ask_text
    "⚠️ **Dificuldade (1)** — Qual é a sua dificuldade (fraqueza/problema/risco)?";
  match nonempty diff with
  | None => mret None
  | Some diff =>
  let char := with_difficulty char diff in
  now ← utc_now_iso;
  let char := with_updated_at char now in
  send (DmSend ("✅ **Ficha criada!**" +:+ nl +:+ nl +:+ render_character char) None);;
  mret (Some char)
  end end end end end end end end.

Definition run_character_wizard (user : Z) : M Character (option Character) :=
  active ← session_get user;
  if (active : bool) then ret None
  else
    session_set user;;
    try_finally (wizard_body user) (session_pop user).

(** *** Sheet operations *)

Definition get_character (owner_id : Z) : M Character (option Character) :=
  data ← load_data;
  mret (data !! Py.str owner_id).

Definition save_character (owner_id : Z) (char : Character) : M Character unit :=
  data ← load_data;
  save_data (<[Py.str owner_id := char]> data).

Definition NO_SHEET : string := "Você não tem ficha. Use `/criar_personagem`.".
Definition CANCELLED : string := "Ação cancelada/expirada.".

(** [{"Passado": "past", "Presente": "present", "Futuro": "future"}[kind]] *)
Definition kind_of_label (kind : string) : Res Kind :=
  if bool_decide (kind = "Passado") then Ok Past
  else if bool_decide (kind = "Presente") then Ok Present
  else if bool_decide (kind = "Futuro") then Ok Future
  else Raise KeyError.

Definition add_fact_with_xp (user : Z) : M Character (bool * string) :=
  data ← load_data;
  match data !! Py.str user with
  | None => mret (false, NO_SHEET)
  | Some char =>
      let xp := get_xp char in
      if bool_decide (xp < XP_COST_NEW_FACT) then
        mret (false, "XP insuficiente. Você tem " +:+ Py.str xp +:+ " XP e precisa de "
                     +:+ Py.str XP_COST_NEW_FACT +:+ " XP.")
      else
        kind ← dm_select_one user "Adicionar novo Fato" "Escolha onde entra o fato"
          [ ("Passado", "Um evento/verdade do passado.");
            ("Presente", "Algo verdadeiro agora.");
            ("Futuro", "Presságio/promessa/destino.") ];
        match nonempty kind with
        | None => mret (false, CANCELLED)
        | Some kind =>
            kind_key ← lift (kind_of_label kind);
            txt ← dm_ask_text ("Escreva o **novo fato** (" +:+ kind +:+ "):");
            match nonempty txt with
            | None => mret (false, CANCELLED)
            | Some txt =>
                let char := with_xp char (xp - XP_COST_NEW_FACT) in
                let char := with_bucket char kind_key (bucket char kind_key ++ [txt]) in
                now ← utc_now_iso;
                let char := with_updated_at char now in
                save_data (<[Py.str user := char]> data);;
                mret (true, "Fato adicionado em **" +:+ kind +:+ "** e "
                            +:+ Py.str XP_COST_NEW_FACT
                            +:+ " XP foram gastos. (XP atual: "
                            +:+ Py.str (get_xp char) +:+ ")")
            end
        end
  end.

(** The end of [edit_fact_flow], from the call of
    [_set_fact_by_global_index] on: the index has been read from the menu
    and the new text from the user. *)
Definition edit_fact_apply (data : gmap string Character) (user : Z)
    (char : Character) (idx : Z) (txt : string) : M Character (bool * string) :=
  '(old_text, char) ← lift (_set_fact_by_global_index char idx txt);
  match old_text with
  | None => mret (false, "Índice inválido (erro interno).")
  | Some old_text =>
      let rupt := get_ruptured_facts char in
      let char :=
        if bool_decide (old_text ∈ rupt) then
          with_ruptured_facts char
            (filter (λ x, x ≠ old_text) rupt ++ [txt])
        else char in
      now ← utc_now_iso;
      let char := with_updated_at char now in
      save_data (<[Py.str user := char]> data);;
      mret (true, "Fato atualizado com sucesso.")
  end.

Definition edit_fact_flow (user : Z) : M Character (bool * string) :=
  data ← load_data;
  match data !! Py.str user with
  | None => mret (false, NO_SHEET)
  | Some char =>
      let options := _options_all_facts char in
      match options with
      | [] => mret (false, "Você não tem fatos para editar.")
      | _ =>
          chosen ← dm_select_one user "Editar Fato" "Escolha o fato para editar" options;
          match nonempty chosen with
          | None => mret (false, CANCELLED)
          | Some chosen =>
              idx ← lift (Py.int chosen);
              '(_, old, _) ← lift (Py.getitem (_all_facts_with_index char) idx);
              txt ← dm_ask_text
                ("Digite o **novo texto** para esse fato:" +:+ nl +:+ nl
                 +:+ "Atual: `" +:+ old +:+ "`");
              match nonempty txt with
              | None => mret (false, CANCELLED)
              | Some txt => edit_fact_apply data user char idx txt
              end
          end
      end
  end.

(** The end of [rupture_fact_flow], from the lookup of the chosen fact on. *)
Definition rupture_fact_apply (data : gmap string Character) (user : Z)
    (char : Character) (idx : Z) : M Character (bool * string) :=
  '(_, fact_text, _) ← lift (Py.getitem (_all_facts_with_index char) idx);
  let rupt := get_ruptured_facts char in
  let rupt := if bool_decide (fact_text ∈ rupt) then rupt else rupt ++ [fact_text] in
  let char := with_ruptured_facts char rupt in
  let char := with_xp char (get_xp char + 1) in
  let r := reserves char in
  let char :=
    with_reserves char
      {| pv := {| current := vmax (pv r); vmax := vmax (pv r) |};
         pm := pm r; destiny := destiny r |} in
  let r := reserves char in
  let char :=
    with_reserves char
      {| pv := pv r;
         pm := {| current := vmax (pm r); vmax := vmax (pm r) |};
         destiny := destiny r |} in
  now ← utc_now_iso;
  let char := with_updated_at char now in
  save_data (<[Py.str user := char]> data);;
  mret (true, "Ruptura realizada: fato marcado como rompido, +1 XP e PV/PM restaurados.").

Definition rupture_fact_flow (user : Z) : M Character (bool * string) :=
  data ← load_data;
  match data !! Py.str user with
  | None => mret (false, NO_SHEET)
  | Some char =>
      let options := _options_non_ruptured_facts char in
      match options with
      | [] => mret (false,
                "Não há fatos disponíveis para ruptura (todos já rompidos ou inexistentes).")
      | _ =>
          chosen ← dm_select_one user "Ruptura de Fato" "Escolha um fato para romper" options;
          match nonempty chosen with
          | None => mret (false, CANCELLED)
          | Some chosen =>
              idx ← lift (Py.int chosen);
              rupture_fact_apply data user char idx
          end
      end
  end.

Definition xp_adjust (owner_id : Z) (delta : Z) : M Character (bool * string) :=
  data ← load_data;
  match data !! Py.str owner_id with
  | None => mret (false, "Ficha não encontrada.")
  | Some char =>
      let char := with_xp char (0 `max` (get_xp char + delta)) in
      now ← utc_now_iso;
      let char := with_updated_at char now in
      save_data (<[Py.str owner_id := char]> data);;
      mret (true, "XP agora: " +:+ Py.str (get_xp char) +:+ ".")
  end.

(** *** Reserves *)

Inductive ReserveKey := PV | PM | Destiny.

(** The test [reserve_key not in ("pv", "pm", "destiny")] and the key
    that passes it. *)
Definition reserve_of_key (reserve_key : string) : option ReserveKey :=
  if bool_decide (reserve_key = "pv") then Some PV
  else if bool_decide (reserve_key = "pm") then Some PM
  else if bool_decide (reserve_key = "destiny") then Some Destiny
  else None.

(** [char["reserves"][key]] *)
Definition get_reserve (c : Character) (key : ReserveKey) : Gauge :=
  match key with
  | PV => pv (reserves c)
  | PM => pm (reserves c)
  | Destiny => destiny (reserves c)
  end.

(** [char["reserves"][key]["current"] = v] *)
Definition with_current (c : Character) (key : ReserveKey) (v : Z) : Character :=
  let r := reserves c in
  with_reserves c
    match key with
    | PV => {| pv := {| current := v; vmax := vmax (pv r) |};
               pm := pm r; destiny := destiny r |}
    | PM => {| pv := pv r;
               pm := {| current := v; vmax := vmax (pm r) |};
               destiny := destiny r |}
    | Destiny => {| pv := pv r; pm := pm r;
                    destiny := {| current := v; vmax := vmax (destiny r) |} |}
    end.

Definition set_reserve (owner_id : Z) (reserve_key : string) (new_current_value : Z)
  : M Character (bool * string) :=
  let reserve_key := Py.lower (Py.strip reserve_key) in
  match reserve_of_key reserve_key with
  | None => mret (false, "Tipo inválido. Use: pv, pm ou destiny.")
  | Some key =>
      data ← load_data;
      match data !! Py.str owner_id with
      | None => mret (false, NO_SHEET)
      | Some char =>
          let res := get_reserve char key in
          let vmax := vmax res in
          let vcur := 0 `max` (vmax `min` new_current_value) in
          let char := with_current char key vcur in
          now ← utc_now_iso;
          let char := with_updated_at char now in
          save_data (<[Py.str owner_id := char]> data);;
          mret (true, Py.upper reserve_key +:+ " agora está em " +:+ Py.str vcur
                      +:+ "/" +:+ Py.str vmax +:+ ".")
      end
  end.

Definition rest_character (owner_id : Z) : M Character (bool * string) :=
  data ← load_data;
  match data !! Py.str owner_id with
  | None => mret (false, NO_SHEET)
  | Some char =>
      let char :=
        foldl (λ char k, with_current char k (vmax (get_reserve char k)))
          char [PV; PM; Destiny] in
      now ← utc_now_iso;
      let char := with_updated_at char now in
      save_data (<[Py.str owner_id := char]> data);;
      mret (true, "Você descansou. PV/PM/Destino foram restaurados ao máximo.")
  end.

Definition get_condition_text (owner_id : Z) : M Character (bool * string) :=
  data ← load_data;
  match data !! Py.str owner_id with
  | None => mret (false, NO_SHEET)
  | Some char =>
      let pv := pv (reserves char) in
      let pm := pm (reserves char) in
      let ds := destiny (reserves char) in
      mret (true, "Condição/Reservas: PV " +:+ Py.str (current pv) +:+ "/"
                  +:+ Py.str (vmax pv) +:+ " | PM " +:+ Py.str (current pm) +:+ "/"
                  +:+ Py.str (vmax pm) +:+ " | Destino " +:+ Py.str (current ds)
                  +:+ "/" +:+ Py.str (vmax ds) +:+ ".")
  end.

(** *** Who calls *)

Definition MASTER_ROLE_NAME : string := "Mestre".

(** What [is_master] reads of a server member. *)
Record Member := {
  administrator : bool;
  roles : list string;
}.

Definition is_master (member : Member) : bool :=
  if administrator member then true
  else bool_decide (Exists (λ r, r = MASTER_ROLE_NAME) (roles member)).

(** The user of an interaction: [member] is present when the user object
    is a [discord.Member]. *)
Record Caller := {
  caller_id : Z;
  member : option Member;
}.

Record Interaction := {
  user : Caller;
  guild : bool;
}.

End Core.

(** *** [bot.py]: the slash commands over [rpg_core] *)

Module Bot.
Import Core.

Definition criar_personagem (user : Z) : M Character unit :=
  send (Respond "Te chamei na DM para criar sua ficha. 📩" None);;
  char ← run_character_wizard user;
  match char with
  | None =>
      send (DmSend
        "⏳ Wizard cancelado/expirou. Use `/criar_personagem` de novo quando quiser."
        None)
  | Some char => save_character user char
  end.

(** Shared tail of the commands that report [(ok, msg)] by private message. *)
Definition report (result : bool * string) : M Character unit :=
  let '(ok, msg) := result in
  send (DmSend ((if ok then "✅ " else "❌ ") +:+ msg) None).

Definition personagem_editar_fato (user : Z) : M Character unit :=
  send (Respond "Te chamei na DM para editar um fato. 📩" None);;
  result ← edit_fact_flow user;
  report result.

Definition personagem_novo_fato (user : Z) : M Character unit :=
  send (Respond "Te chamei na DM para adicionar um novo fato. 📩" None);;
  result ← add_fact_with_xp user;
  report result.

Definition personagem_ruptura (user : Z) : M Character unit :=
  send (Respond "Te chamei na DM para fazer uma ruptura. 📩" None);;
  result ← rupture_fact_flow user;
  report result.

(** [("✅ " if ok else "❌ ") + msg] as the answer to the command. *)
Definition answer (result : bool * string) : M Character unit :=
  let '(ok, msg) := result in
  send (Respond ((if ok then "✅ " else "❌ ") +:+ msg) None).

(** The test shared by the commands that name another user: the caller is
    a member of the server the command is run in and is no master. *)
Definition member_not_master (interaction : Interaction) : bool :=
  guild interaction
  && match member (user interaction) with
     | Some m => negb (is_master m)
     | None => false
     end.

Definition ficha (interaction : Interaction) (usuario : option Z) : M Character unit :=
  let target := default (caller_id (user interaction)) usuario in
  if bool_decide (is_Some usuario) && member_not_master interaction then
    send (Respond "Você não tem permissão para ver a ficha de outra pessoa." None)
  else
    char ← get_character target;
    match char with
    | None => send (Respond "Nenhuma ficha encontrada. Use `/criar_personagem`." None)
    | Some char => send (Respond (render_character char) None)
    end.

Definition personagem_descansar (interaction : Interaction) : M Character unit :=
  result ← rest_character (caller_id (user interaction));
  answer result.

Definition personagem_condicao (interaction : Interaction) : M Character unit :=
  result ← get_condition_text (caller_id (user interaction));
  answer result.

Definition personagem_xp (interaction : Interaction) (usuario : option Z)
    (delta : option Z) : M Character unit :=
  let target := default (caller_id (user interaction)) usuario in
  match delta with
  | Some delta =>
      if bool_decide (target ≠ caller_id (user interaction))
         && negb (guild interaction
                  && match member (user interaction) with
                     | Some m => is_master m
                     | None => false
                     end) then
        send (Respond "Você não tem permissão para ajustar XP de outra pessoa." None)
      else
        result ← xp_adjust target delta;
        answer result
  | None =>
      char ← get_character target;
      match char with
      | None => send (Respond "Nenhuma ficha encontrada." None)
      | Some char =>
          send (Respond ("XP de **" +:+ name char +:+ "**: **"
                         +:+ Py.str (get_xp char) +:+ "**") None)
      end
  end.

Definition reset_sessao (interaction : Interaction) (usuario : Z) : M Character unit :=
  if member_not_master interaction then send (Respond "Sem permissão." None)
  else
    session_pop usuario;;
    send (Respond "✅ Sessão resetada." None).

End Bot.

(** ** [main.py] *)

Module Main.

Definition DEFAULT_CONDITION_MAX : Z := 3.
Definition XP_COST_NEW_FACT : Z := 3.

(** *** The record (free-form schema): every key may be missing *)

Record Facts := {
  past : option (list string);
  present : option (list string);
  future : option (list string);
}.

Record Condition := {
  current : Z;
  vmax : Z;
}.

Record Character := {
  user_id : option string;
  name : option string;
  facts : option Facts;
  flaw : option string;
  condition : option Condition;
  xp : option Z;
  ruptured_facts : option (list string);
  created_at : option string;
  updated_at : option string;
}.

Definition with_facts (c : Character) (v : Facts) : Character :=
  {| user_id := user_id c; name := name c; facts := Some v; flaw := flaw c;
     condition := condition c; xp := xp c; ruptured_facts := ruptured_facts c;
     created_at := created_at c; updated_at := updated_at c |}.

Definition with_xp (c : Character) (v : Z) : Character :=
  {| user_id := user_id c; name := name c; facts := facts c; flaw := flaw c;
     condition := condition c; xp := Some v; ruptured_facts := ruptured_facts c;
     created_at := created_at c; updated_at := updated_at c |}.

Definition with_ruptured_facts (c : Character) (v : list string) : Character :=
  {| user_id := user_id c; name := name c; facts := facts c; flaw := flaw c;
     condition := condition c; xp := xp c; ruptured_facts := Some v;
     created_at := created_at c; updated_at := updated_at c |}.

Definition with_updated_at (c : Character) (v : string) : Character :=
  {| user_id := user_id c; name := name c; facts := facts c; flaw := flaw c;
     condition := condition c; xp := xp c; ruptured_facts := ruptured_facts c;
     created_at := created_at c; updated_at := Some v |}.

(** [facts.get("past", []) or []] with [facts = char.get("facts", {})],
    and likewise for the other two buckets. *)
Definition get_past (c : Character) : list string := default [] (facts c ≫= past).
Definition get_present (c : Character) : list string := default [] (facts c ≫= present).
Definition get_future (c : Character) : list string := default [] (facts c ≫= future).

Definition get_ruptured_facts (c : Character) : list string :=
  default [] (ruptured_facts c).

Definition get_xp (c : Character) : Z := default 0 (xp c).

Definition ensure_char_defaults (char : Character) : Character :=
  let facts := default {| past := None; present := None; future := None |} (facts char) in
  {| user_id := user_id char; name := name char;
     facts := Some {| past := Some (default [] (past facts));
                      present := Some (default [] (present facts));
                      future := Some (default [] (future facts)) |};
     flaw := flaw char;
     condition := Some (default {| current := DEFAULT_CONDITION_MAX;
                                   vmax := DEFAULT_CONDITION_MAX |} (condition char));
     xp := Some (default 0 (xp char));
     ruptured_facts := Some (default [] (ruptured_facts char));
     created_at := created_at char; updated_at := updated_at char |}.

Definition flatten_facts (char : Character) : list string :=
  get_past char ++ get_present char ++ get_future char.

(** [total = len(past) + len(present) + len(future)] *)
Definition total_facts (char : Character) : Z :=
  Py.len (get_past char) + Py.len (get_present char) + Py.len (get_future char).

(** [facts[key] = arr] on the dictionary [facts = char.get("facts", {})];
    when the record has no ["facts"] key that dictionary is a fresh one and
    the record does not change. *)
Definition store_bucket (char : Character) (update : Facts → Facts) : Character :=
  match facts char with
  | Some f => with_facts char (update f)
  | None => char
  end.

(** Returns the old text, or [None] when the index is out of range, together
    with the record as the call leaves it. *)
Definition set_fact_by_index (char : Character) (index : Z) (new_text : string)
  : Res (option string * Character) :=
  let past_ := get_past char in
  let present_ := get_present char in
  let future_ := get_future char in
  let total := total_facts char in
  if bool_decide (index < 0 ∨ total ≤ index) then Ok (None, char)
  else if bool_decide (index < Py.len past_) then
    Py.res_bind (Py.getitem past_ index) (λ old,
      Py.res_bind (Py.setitem past_ index new_text) (λ arr,
        Ok (Some old,
            store_bucket char (λ f, {| past := Some arr; present := present f;
                                       future := future f |}))))
  else
    let index := index - Py.len past_ in
    if bool_decide (index < Py.len present_) then
      Py.res_bind (Py.getitem present_ index) (λ old,
        Py.res_bind (Py.setitem present_ index new_text) (λ arr,
          Ok (Some old,
              store_bucket char (λ f, {| past := past f; present := Some arr;
                                         future := future f |}))))
    else
      let index := index - Py.len present_ in
      Py.res_bind (Py.getitem future_ index) (λ old,
        Py.res_bind (Py.setitem future_ index new_text) (λ arr,
          Ok (Some old,
              store_bucket char (λ f, {| past := past f; present := present f;
                                         future := Some arr |})))).

(** The inner function [scan] of the two option builders: [keep] is the
    test a non-empty fact must pass to be listed; the state is the pair of
    the options so far and the running index. *)
Definition scan (keep : string → bool) (kind : string) (arr : list string)
    (st : list (string * string) * Z) : list (string * string) * Z :=
  foldl (λ '(options, idx) fact,
           let current_index := idx in
           let idx := idx + 1 in
           if negb (Py.truthy fact) then (options, idx)
           else if negb (keep fact) then (options, idx)
           else (options ++ [(kind +:+ ": " +:+ shorten fact, Py.str current_index)], idx))
    st arr.

Definition list_fact_options_not_ruptured (char : Character) : list (string * string) :=
  let ruptured := get_ruptured_facts char in
  let keep := λ fact, negb (bool_decide (fact ∈ ruptured)) in
  let st := scan keep "Passado" (get_past char) ([], 0) in
  let st := scan keep "Presente" (get_present char) st in
  let st := scan keep "Futuro" (get_future char) st in
  fst st.

Definition list_all_fact_options (char : Character) : list (string * string) :=
  let keep := λ _, true in
  let st := scan keep "Passado" (get_past char) ([], 0) in
  let st := scan keep "Presente" (get_present char) st in
  let st := scan keep "Futuro" (get_future char) st in
  fst st.

(** The timeline name of the position [i] of [flatten_facts]. *)
Definition timeline_at (char : Character) (i : nat) : string :=
  if bool_decide (i < length (get_past char))%nat then "Passado"
  else if bool_decide (i < length (get_past char) + length (get_present char))%nat
       then "Presente"
       else "Futuro".

(** The options of a run of facts that starts at position [base]: one for
    each non-empty fact accepted by [keep], labelled by [label] of its
    position and carrying that position as its token.  The builders are
    compared with this listing of [flatten_facts]. *)
Fixpoint listing (keep : string → bool) (label : nat → string) (base : nat)
    (arr : list string) : list (string * string) :=
  match arr with
  | [] => []
  | fact :: rest =>
      (if Py.truthy fact && keep fact
       then [(label base +:+ ": " +:+ shorten fact, Py.str (Z.of_nat base))]
       else [])
      ++ listing keep label (S base) rest
  end.

Definition fmt_list (items : list string) : string :=
  match items with
  | [] => "—"
  | _ => String.concat nl ((λ x, "- " +:+ x) <$> items)
  end.

Definition render_character (char : Character) : string :=
  let cond := default {| current := 0; vmax := 0 |} (condition char) in
  "**Nome:** " +:+ default "—" (name char) +:+ nl
  +:+ "**Condição/Vida:** " +:+ Py.str (current cond) +:+ "/" +:+ Py.str (vmax cond) +:+ nl
  +:+ "**XP:** " +:+ Py.str (get_xp char) +:+ nl +:+ nl
  +:+ "**Fatos — Passado**" +:+ nl +:+ fmt_list (get_past char) +:+ nl +:+ nl
  +:+ "**Fatos — Presente**" +:+ nl +:+ fmt_list (get_present char) +:+ nl +:+ nl
  +:+ "**Fatos — Futuro**" +:+ nl +:+ fmt_list (get_future char) +:+ nl +:+ nl
  +:+ "**Defeito:** " +:+ default "—" (flaw char) +:+ nl
  +:+ "**Fatos Rompidos:**" +:+ nl +:+ fmt_list (get_ruptured_facts char) +:+ nl.

(** *** Who calls *)

(** A member of the server; [master] is the outcome of [is_master] on it
    (administrator, or holder of the role "Mestre"). *)
Record Member := {
  id : Z;
  display_name : string;
  master : bool;
}.

Record Interaction := {
  user : Member;
  guild : bool;
}.

Definition respond (content : string) : M Character unit :=
  send (Respond content None).

(** *** Wizard *)

Definition ask_dm (question : string) : M Character string :=
  send (DmSend question None);;
  msg ← wait_message (λ content, negb (String.eqb (Py.strip content) ""));
  match msg with
  | Some content => mret (Py.strip content)
  | None => raise TimeoutError
  end.

Definition personagem_criar (interaction : Interaction) : M Character unit :=
  let user := user interaction in
  active ← session_get (id user);
  if (active : bool) then
    respond "Você já está com um wizard aberto. Responda no DM."
  else
    session_set (id user);;
    respond "Beleza! Vou te mandar as perguntas no seu DM agora. ✅";;
    try_finally
      (try_except
         (name ← ask_dm ("🧾 **Ficha Fractal**" +:+ nl +:+ nl +:+ "1) **Nome?**");
          past1 ← ask_dm "2) **Fato sobre o Passado (1/2)?**";
          past2 ← ask_dm "3) **Fato sobre o Passado (2/2)?**";
          pres1 ← ask_dm "4) **Fato sobre o Presente (1/2)?**";
          pres2 ← ask_dm "5) **Fato sobre o Presente (2/2)?**";
          fut1 ← ask_dm "6) **Fato sobre o Futuro (1/1)?**";
          flaw ← ask_dm "7) Por fim: **Defeito?**";
          data ← load_data;
          let uid := Py.str (id user) in
          now ← utc_now_iso;
          let char := ensure_char_defaults
            {| user_id := Some uid; name := Some name;
               facts := Some {| past := Some [past1; past2];
                                present := Some [pres1; pres2];
                                future := Some [fut1] |};
               flaw := Some flaw;
               condition := Some {| current := DEFAULT_CONDITION_MAX;
                                    vmax := DEFAULT_CONDITION_MAX |};
               xp := Some 0; ruptured_facts := Some [];
               created_at := Some (default now (data !! uid ≫= created_at));
               updated_at := Some now |} in
          save_data (<[uid := char]> data);;
          send (DmSend ("✅ **Ficha criada e salva!**" +:+ nl +:+ nl
                        +:+ render_character char) None))
         TimeoutError
         (send (DmSend "⏱️ Tempo esgotado. Rode `/personagem_criar` de novo." None)))
      (session_pop (id user)).

(** *** Menus and forms *)

(** [[discord.SelectOption(label=label, value=value)
      for label, value in options_pairs[:25]]] *)
Definition discord_options (options_pairs : list (string * string)) : list SelectOption :=
  (λ '(label, value), {| label := label; description := None; value := value |})
    <$> take 25 options_pairs.

Definition RupturaSelect (options_pairs : list (string * string)) : SelectMenu :=
  {| placeholder := "Escolha o fato que vai romper (desabilitar)";
     options := discord_options options_pairs |}.

Definition EditarFatoSelect (options_pairs : list (string * string)) : SelectMenu :=
  {| placeholder := "Escolha o fato que você quer editar";
     options := discord_options options_pairs |}.

Definition TimelineSelect : SelectMenu :=
  {| placeholder := "Escolha onde adicionar o novo fato";
     options :=
       [ {| label := "Passado"; description := None; value := "past" |};
         {| label := "Presente"; description := None; value := "present" |};
         {| label := "Futuro"; description := None; value := "future" |} ] |}.

(** [RupturaSelect.callback]; [values0] is [self.values[0]]. *)
Definition RupturaSelect_callback (requester_id : Z) (target_user_id : string)
    (values0 : string) (interaction : Interaction) : M Character unit :=
  if bool_decide (id (user interaction) ≠ requester_id) then
    respond "Só quem executou o comando pode escolher aqui."
  else
    chosen_index ← lift (Py.int values0);
    data ← load_data;
    match data !! target_user_id with
    | None => respond "Ficha não encontrada."
    | Some char =>
        let char := ensure_char_defaults char in
        let fact := flatten_facts char in
        if bool_decide (chosen_index < 0 ∨ Py.len fact ≤ chosen_index) then
          respond "Não encontrei esse fato. Rode o comando de novo."
        else
          fact_text ← lift (Py.getitem fact chosen_index);
          let ruptured := get_ruptured_facts char in
          if bool_decide (fact_text ∈ ruptured) then
            respond "Esse fato já está rompido."
          else
            let char := with_ruptured_facts char (ruptured ++ [fact_text]) in
            now ← utc_now_iso;
            let char := with_updated_at char now in
            save_data (<[target_user_id := char]> data);;
            respond ("💥 **Ruptura aplicada!**" +:+ nl +:+ "Fato rompido: **"
                     +:+ fact_text +:+ "**")
    end.


(** [EditarFatoModal.on_submit]; [novo_texto] is the text typed in the form. *)
Definition EditarFatoModal_on_submit (requester_id : Z) (target_user_id : string)
    (fact_index : Z) (novo_texto : string) (interaction : Interaction)
  : M Character unit :=
  if bool_decide (id (user interaction) ≠ requester_id) then
    respond "Só quem iniciou pode enviar."
  else
    let new_text := Py.strip novo_texto in
    if negb (Py.truthy new_text) then respond "O fato não pode ficar vazio."
    else
      data ← load_data;
      match data !! target_user_id with
      | None => respond "Ficha não encontrada."
      | Some char =>
          let char := ensure_char_defaults char in
          '(old_text, char) ← lift (set_fact_by_index char fact_index new_text);
          match old_text with
          | None => respond "Não encontrei esse fato. Rode o comando de novo."
          | Some old_text =>
              let ruptured := get_ruptured_facts char in
              let char :=
                if bool_decide (old_text ∈ ruptured) then
                  with_ruptured_facts char
                    ((λ x, if bool_decide (x = old_text) then new_text else x)
                       <$> ruptured)
                else char in
              now ← utc_now_iso;
              let char := with_updated_at char now in
              save_data (<[target_user_id := char]> data);;
              respond ("✅ Fato atualizado!" +:+ nl +:+ nl +:+ "**Antes:** " +:+ old_text
                       +:+ nl +:+ "**Depois:** " +:+ new_text)
          end
      end.

(** *** Commands *)

(** The opening of every command that takes an optional target [usuario]:
    it must be run in a server, and naming a target takes a master.
    Returns the target, or [None] when the command has been turned down. *)
Definition command_target (interaction : Interaction) (usuario : option Member)
    (denied : string) : M Character (option Member) :=
  if negb (guild interaction) then
    respond "Use esse comando dentro de um servidor.";; mret None
  else if bool_decide (is_Some usuario) && negb (master (user interaction)) then
    respond denied;; mret None
  else mret (Some (default (user interaction) usuario)).

Definition NOT_CREATED : string := "Esse usuário ainda não tem ficha criada.".

Definition personagem_xp (interaction : Interaction) (delta : Z)
    (usuario : option Member) : M Character unit :=
  target ← command_target interaction usuario "Só Mestre/Admin pode alterar XP de outros.";
  match target with
  | None => mret tt
  | Some target =>
      data ← load_data;
      let uid := Py.str (id target) in
      match data !! uid with
      | None => respond NOT_CREATED
      | Some char =>
          let char := ensure_char_defaults char in
          let char := with_xp char (get_xp char + delta) in
          now ← utc_now_iso;
          let char := with_updated_at char now in
          save_data (<[uid := char]> data);;
          respond ("✅ XP de **" +:+ display_name target +:+ "** agora é **"
                   +:+ Py.str (get_xp char) +:+ "**.")
      end
  end.

Definition personagem_ruptura (interaction : Interaction) (usuario : option Member)
  : M Character unit :=
  target ← command_target interaction usuario
    "Só Mestre/Admin pode aplicar ruptura em outro usuário.";
  match target with
  | None => mret tt
  | Some target =>
      data ← load_data;
      let uid := Py.str (id target) in
      match data !! uid with
      | None => respond NOT_CREATED
      | Some char =>
          let char := ensure_char_defaults char in
          let options_pairs := list_fact_options_not_ruptured char in
          match options_pairs with
          | [] => respond "Não há fatos disponíveis para romper (ou todos já estão rompidos)."
          | _ =>
              send (Respond ("Escolha qual fato de **" +:+ display_name target
                             +:+ "** vai sofrer **ruptura**:")
                      (Some (RupturaSelect options_pairs)))
          end
      end
  end.

Definition personagem_novo_fato (interaction : Interaction) (usuario : option Member)
  : M Character unit :=
  target ← command_target interaction usuario
    "Só Mestre/Admin pode adicionar fato para outro usuário.";
  match target with
  | None => mret tt
  | Some target =>
      data ← load_data;
      let uid := Py.str (id target) in
      match data !! uid with
      | None => respond NOT_CREATED
      | Some char =>
          let char := ensure_char_defaults char in
          let xp := get_xp char in
          if bool_decide (xp < XP_COST_NEW_FACT) then
            respond ("Você precisa de **3 XP** para criar um novo fato. XP atual de **"
                     +:+ display_name target +:+ "**: **" +:+ Py.str xp +:+ "**.")
          else
            send (Respond ("🎯 **Novo fato** (custa 3 XP). XP atual de **"
                           +:+ display_name target +:+ "**: **" +:+ Py.str xp +:+ "**."
                           +:+ nl +:+ "Escolha onde adicionar:")
                    (Some TimelineSelect))
      end
  end.

Definition personagem_editar_fato (interaction : Interaction) (usuario : option Member)
  : M Character unit :=
  target ← command_target interaction usuario
    "Só Mestre/Admin pode editar fatos de outro usuário.";
  match target with
  | None => mret tt
  | Some target =>
      data ← load_data;
      let uid := Py.str (id target) in
      match data !! uid with
      | None => respond NOT_CREATED
      | Some char =>
          let char := ensure_char_defaults char in
          let options_pairs := list_all_fact_options char in
          match options_pairs with
          | [] => respond "Esse personagem não tem fatos para editar."
          | _ =>
              send (Respond ("✏️ Escolha o fato de **" +:+ display_name target
                             +:+ "** que você quer editar:")
                      (Some (EditarFatoSelect options_pairs)))
          end
      end
  end.

Definition personagem_ver (interaction : Interaction) (usuario : option Member)
  : M Character unit :=
  target ← command_target interaction usuario
    "Você não tem permissão para consultar fichas.";
  match target with
  | None => mret tt
  | Some target =>
      data ← load_data;
      match data !! Py.str (id target) with
      | None => respond NOT_CREATED
      | Some char => respond (render_character (ensure_char_defaults char))
      end
  end.

(** [char["condition"] = cond]; the gauge is a pair of integers, both keys
    present, as in every record this code writes. *)
Definition with_condition (c : Character) (v : Condition) : Character :=
  {| user_id := user_id c; name := name c; facts := facts c; flaw := flaw c;
     condition := Some v; xp := xp c; ruptured_facts := ruptured_facts c;
     created_at := created_at c; updated_at := updated_at c |}.

Definition personagem_condicao (interaction : Interaction) (delta : Z)
    (usuario : option Member) : M Character unit :=
  target ← command_target interaction usuario
    "Só Mestre/Admin pode alterar condição de outros.";
  match target with
  | None => mret tt
  | Some target =>
      data ← load_data;
      let uid := Py.str (id target) in
      match data !! uid with
      | None => respond NOT_CREATED
      | Some char =>
          let char := ensure_char_defaults char in
          let cond := default {| current := 0; vmax := DEFAULT_CONDITION_MAX |}
                        (condition char) in
          let cond :=
            {| current := 0 `max` (vmax cond `min` (current cond + delta));
               vmax := vmax cond |} in
          let char := with_condition char cond in
          now ← utc_now_iso;
          let char := with_updated_at char now in
          save_data (<[uid := char]> data);;
          respond ("✅ Condição de **" +:+ display_name target +:+ "** agora é **"
                   +:+ Py.str (current cond) +:+ "/" +:+ Py.str (vmax cond) +:+ "**.")
      end
  end.

Definition personagem_descansar (interaction : Interaction) (usuario : option Member)
  : M Character unit :=
  target ← command_target interaction usuario
    "Só Mestre/Admin pode dar descanso para outro usuário.";
  match target with
  | None => mret tt
  | Some target =>
      data ← load_data;
      let uid := Py.str (id target) in
      match data !! uid with
      | None => respond NOT_CREATED
      | Some char =>
          let char := ensure_char_defaults char in
          let ruptured := get_ruptured_facts char in
          match ruptured with
          | [] => respond "Nenhum fato estava rompido. ✅"
          | _ =>
              let char := with_ruptured_facts char [] in
              now ← utc_now_iso;
              let char := with_updated_at char now in
              save_data (<[uid := char]> data);;
              respond ("🛌 Descanso aplicado! **" +:+ Py.str (Py.len ruptured)
                       +:+ "** fato(s) recuperado(s) para **" +:+ display_name target
                       +:+ "**.")
          end
      end
  end.

(** [TimelineSelect.callback] *)
Definition TimelineSelect_callback (requester_id : Z) (target_user_id : string)
    (values0 : string) (interaction : Interaction) : M Character unit :=
  if bool_decide (id (user interaction) ≠ requester_id) then
    respond "Só quem executou o comando pode escolher."
  else
    send (RespondModal (NovoFatoModal requester_id target_user_id values0)).



End Main.

(** ** Sample records and worlds *)

Module Samples.

Definition clock (n : nat) : string := "2025-01-01T00:00:0" +:+ Py.str (Z.of_nat n).

(** A version 2 sheet of user 7 with the given facts, ruptures and XP. *)
Definition sheet (past present future ruptured : list string) (xp : Z)
  : Core.Character :=
  {| Core.schema_version := 2; Core.owner_id := 7; Core.name := "Ana";
     Core.race := "Elfo"; Core.class_ := "Mago"; Core.archetype := "conjurador";
     Core.reserves :=
       {| Core.pv := {| Core.current := 1; Core.vmax := 4 |};
          Core.pm := {| Core.current := 2; Core.vmax := 5 |};
          Core.destiny := {| Core.current := 0; Core.vmax := 2 |} |};
     Core.damage_base := {| Core.physical := 1; Core.magic_bonus := 1 |};
     Core.facts := {| Core.past := past; Core.present := present;
                      Core.future := future |};
     Core.difficulty := "Medo de altura";
     Core.ruptured_facts := Some ruptured; Core.xp := Some xp;
     Core.created_at := "2024-06-01T12:00:00+00:00";
     Core.updated_at := "2024-06-01T12:00:00+00:00" |}.

(** [facts.past = ["A", "B"], present = ["C"], future = []] *)
Definition scenario : Core.Character := sheet ["A"; "B"] ["C"] [] [] 0.

Definition one_fact : Core.Character := sheet ["A"] [] [] [] 0.

(** Twenty-six facts, "fato 0" to "fato 25", all in the past. *)
Definition many : list string := (λ n, "fato " +:+ Py.str n) <$> seqZ 0 26.

Definition many_facts : Core.Character := sheet many [] [] [] 0.

(** A sheet of [main.py] for user 7. *)
Definition old_sheet (past present future ruptured : list string) (xp : Z)
  : Main.Character :=
  {| Main.user_id := Some "7"; Main.name := Some "Ana";
     Main.facts := Some {| Main.past := Some past; Main.present := Some present;
                           Main.future := Some future |};
     Main.flaw := Some "Medo de altura";
     Main.condition := Some {| Main.current := 3; Main.vmax := 3 |};
     Main.xp := Some xp; Main.ruptured_facts := Some ruptured;
     Main.created_at := Some "2024-06-01T12:00:00+00:00";
     Main.updated_at := Some "2024-06-01T12:00:00+00:00" |}.

Definition many_facts_old : Main.Character := old_sheet many [] [] [] 0.

(** The fact "B" (index 1) is ruptured; then the only fact "A" is. *)
Definition b_ruptured : Core.Character := sheet ["A"; "B"] ["C"] [] ["B"] 0.
Definition b_ruptured_old : Main.Character := old_sheet ["A"; "B"] ["C"] [] ["B"] 0.
Definition a_ruptured : Core.Character := sheet ["A"] [] [] ["A"] 0.
Definition a_ruptured_old : Main.Character := old_sheet ["A"] [] [] ["A"] 0.

(** A world of [rpg_core.py] where the file holds [char] for user 7. *)
Definition world (char : Core.Character) (replies : list (option string))
    (clicks : list (list Click)) : World Core.Character :=
  {| w_file := {[ "7" := char ]}; w_sessions := ∅; w_clock := clock; w_tick := 0;
     w_replies := replies; w_clicks := clicks; w_out := [] |}.

(** The same for [main.py]. *)
Definition old_world (char : Main.Character) (replies : list (option string))
  : World Main.Character :=
  {| w_file := {[ "7" := char ]}; w_sessions := ∅; w_clock := clock; w_tick := 0;
     w_replies := replies; w_clicks := []; w_out := [] |}.

Definition ana : Main.Member :=
  {| Main.id := 7; Main.display_name := "Ana"; Main.master := false |}.

(** Ana running a command in the server. *)
Definition by_ana : Main.Interaction := {| Main.user := ana; Main.guild := true |}.

(** User 7 picking entry [n] of the menu. *)
Definition pick (n : nat) : Click := {| by_user := 7; choice := n |}.

(** User 7, who has the sheet [scenario] on file since June 2024, goes
    through the creation wizard of [rpg_core.py] again: the name, a race, a
    class and an archetype picked from the menus, seven facts, the
    difficulty. *)
Definition wizard_again : World Core.Character :=
  world scenario
    [ Some "Bia"; Some "p1"; Some "p2"; Some "p3"; Some "q1"; Some "q2";
      Some "q3"; Some "f1"; Some "Orgulho" ]
    [ [pick 2]; [pick 3]; [pick 4] ].

(** The sheet that run of the wizard returns. *)
Definition bia : Core.Character :=
  {| Core.schema_version := 2; Core.owner_id := 7; Core.name := "Bia";
     Core.race := "Elfo"; Core.class_ := "Mago"; Core.archetype := "conjurador";
     Core.reserves :=
       {| Core.pv := {| Core.current := 4; Core.vmax := 4 |};
          Core.pm := {| Core.current := 5; Core.vmax := 5 |};
          Core.destiny := {| Core.current := 2; Core.vmax := 2 |} |};
     Core.damage_base := {| Core.physical := 1; Core.magic_bonus := 1 |};
     Core.facts := {| Core.past := ["p1"; "p2"; "p3"];
                      Core.present := ["q1"; "q2"; "q3"];
                      Core.future := ["f1"] |};
     Core.difficulty := "Orgulho";
     Core.ruptured_facts := Some []; Core.xp := Some 0;
     Core.created_at := "2025-01-01T00:00:00";
     Core.updated_at := "2025-01-01T00:00:02" |}.

(** The same user going through the wizard of [main.py] again. *)
Definition old_wizard_again : World Main.Character :=
  old_world (old_sheet ["A"; "B"] ["C"] [] [] 0)
    [ Some "Bia"; Some "p1"; Some "p2"; Some "q1"; Some "q2"; Some "f1";
      Some "Orgulho" ].

End Samples.

(** * Properties *)

(** Unfolds the glue of the handler monad. *)
Ltac flow :=
  cbv [mbind M_bind Sys.bind mret M_ret Sys.ret Sys.lift Sys.raise load_data].

(** ** Python primitives *)

Section PyFacts.
Import Py.

Example str_examples :
  Py.str 0 = "0" ∧ Py.str 25 = "25" ∧ Py.str (-7) = "-7".
Proof. by vm_compute. Qed.

Example int_examples :
  Py.int "12" = Ok 12 ∧ Py.int " -3 " = Ok (-3) ∧ Py.int "1_000" = Ok 1000
  ∧ Py.int "" = Raise ValueError ∧ Py.int "1__0" = Raise ValueError
  ∧ Py.int "Passado: 3" = Raise ValueError.
Proof. by vm_compute. Qed.

Lemma rstrip_keep c s :
  is_space c = false → rstrip s = s → rstrip (String c s) = String c s.
Proof.
  intros Hc Hs. cbn [rstrip]. rewrite Hs, Hc. by destruct s.
Qed.

Lemma rstrip_cons c s :
  is_space c = false → ∃ r, rstrip (String c s) = String c r.
Proof.
  intros Hc. cbn [rstrip]. rewrite Hc. destruct (rstrip s); eauto.
Qed.

Lemma rstrip_uint d :
  rstrip (NilEmpty.string_of_uint d) = NilEmpty.string_of_uint d.
Proof.
  induction d; cbn [NilEmpty.string_of_uint]; first done;
    by apply rstrip_keep.
Qed.

Lemma strip_uint d :
  strip (NilEmpty.string_of_uint d) = NilEmpty.string_of_uint d.
Proof.
  unfold strip.
  replace (lstrip (NilEmpty.string_of_uint d)) with (NilEmpty.string_of_uint d)
    by (by destruct d).
  apply rstrip_uint.
Qed.

Lemma digits_uint d prev :
  d ≠ Decimal.Nil ∨ prev = true →
  digits prev (NilEmpty.string_of_uint d) = Some d.
Proof.
  revert prev. induction d; intros prev Hprev;
    cbn [NilEmpty.string_of_uint digits].
  { destruct Hprev as [Hnil | Hp]; [done | by rewrite Hp]. }
  all: change (Ascii.eqb _ "_") with false; cbv iota;
    cbn [digit_of_ascii]; rewrite IHd by (by right); done.
Qed.

Lemma int_uint d :
  d ≠ Decimal.Nil → Py.int (NilEmpty.string_of_uint d) = Ok (Z.of_uint d).
Proof.
  intros Hd. unfold Py.int. rewrite strip_uint.
  pose proof (digits_uint d false (or_introl Hd)) as Hdigits.
  destruct d; first done;
    cbn [NilEmpty.string_of_uint] in *; cbv beta iota; by rewrite Hdigits.
Qed.

Lemma int_neg_uint d :
  d ≠ Decimal.Nil →
  Py.int (String "-" (NilEmpty.string_of_uint d)) = Ok (- Z.of_uint d).
Proof.
  intros Hd. unfold Py.int, strip. cbn [lstrip].
  change (is_space "-") with false. cbv iota.
  rewrite rstrip_keep by (done || apply rstrip_uint).
  cbv beta iota. by rewrite digits_uint by (by left).
Qed.

(** [int(str(n)) == n]: a token written with [str] is read back by [int]. *)
Lemma int_str n : Py.int (Py.str n) = Ok n.
Proof.
  unfold Py.str.
  destruct n as [|p|p]; cbn [Z.to_int NilZero.string_of_int]; first done.
  all: pose proof (Unsigned.to_uint_nonnil p) as Hnil;
    pose proof (Unsigned.of_to p) as Hp;
    replace (NilZero.string_of_uint (Pos.to_uint p))
      with (NilEmpty.string_of_uint (Pos.to_uint p))
      by (by destruct (Pos.to_uint p)).
  - rewrite int_uint by done. unfold Z.of_uint. by rewrite Hp.
  - rewrite int_neg_uint by done. unfold Z.of_uint. by rewrite Hp.
Qed.

Lemma str_inj n m : Py.str n = Py.str m → n = m.
Proof.
  intros H. apply (f_equal Py.int) in H. rewrite !int_str in H. congruence.
Qed.

(** A text that starts with the letter P or F is no integer literal. *)
Lemma int_P s : Py.int (String "P" s) = Raise ValueError.
Proof.
  unfold Py.int, strip. cbn [lstrip]. change (is_space "P") with false. cbv iota.
  destruct (rstrip_cons "P" s eq_refl) as [r ->]. done.
Qed.

Lemma int_F s : Py.int (String "F" s) = Raise ValueError.
Proof.
  unfold Py.int, strip. cbn [lstrip]. change (is_space "F") with false. cbv iota.
  destruct (rstrip_cons "F" s eq_refl) as [r ->]. done.
Qed.

Lemma len_nonneg {A} (l : list A) : 0 ≤ len l.
Proof. unfold len. lia. Qed.

Lemma len_app {A} (l k : list A) : len (l ++ k) = len l + len k.
Proof. unfold len. rewrite length_app. lia. Qed.

(** Within range, [l[i]] and [l[i] = x] are the lookup and the update at
    position [i]. *)
Lemma getitem_in_range {A} (l : list A) i :
  0 ≤ i < len l → ∃ x, l !! Z.to_nat i = Some x ∧ getitem l i = Ok x.
Proof.
  intros Hi. unfold getitem, norm_index. rewrite bool_decide_eq_true_2 by done.
  destruct (lookup_lt_is_Some_2 l (Z.to_nat i)) as [x Hx].
  { unfold len in Hi. lia. }
  exists x. cbn. by rewrite Hx.
Qed.

Lemma setitem_in_range {A} (l : list A) i x :
  0 ≤ i < len l → setitem l i x = Ok (<[Z.to_nat i := x]> l).
Proof.
  intros Hi. unfold setitem, norm_index. by rewrite bool_decide_eq_true_2.
Qed.

End PyFacts.

(** ** Facts and their global index in [rpg_core.py] *)

Section CoreFacts.
Import Core.

Lemma index_bucket_loop (kind : Kind) (arr : list string)
    (out : list (Kind * string * Z)) (idx : Z) :
  foldl (λ '(out, idx) f, (out ++ [(kind, f, idx)], idx + 1)) (out, idx) arr
  = (out ++ imap (λ i f, (kind, f, idx + Z.of_nat i)) arr, idx + len arr).
Proof.
  revert out idx. induction arr as [|f arr IH]; intros out idx.
  - cbn. rewrite app_nil_r. f_equal. unfold len. cbn. lia.
  - cbn [foldl]. rewrite IH. rewrite imap_cons. f_equal.
    + rewrite <- app_assoc. cbn [app]. apply (f_equal (app out)).
      rewrite Z.add_0_r. apply (f_equal (cons _)).
      apply imap_ext. intros i x _. cbn. f_equal. lia.
    + unfold len. cbn [length]. lia.
Qed.

Lemma all_facts_with_index_eq char :
  _all_facts_with_index char
  = imap (λ i '(kind, f), (kind, f, Z.of_nat i)) (all_facts char).
Proof.
  unfold _all_facts_with_index, all_facts, KINDS. cbn [foldl bucket].
  rewrite !index_bucket_loop. cbn [fst app].
  rewrite !imap_app, !imap_fmap, !length_fmap, <- app_assoc.
  repeat apply (f_equal2 app); apply imap_ext; intros i x _; cbn;
    f_equal; unfold len; lia.
Qed.

Lemma length_all_facts char : len (all_facts char) = total_facts char.
Proof.
  unfold all_facts, total_facts, len. rewrite !length_app, !length_fmap. lia.
Qed.

Lemma lookup_all_facts_with_index char (n : nat) :
  _all_facts_with_index char !! n
  = (λ '(kind, f), (kind, f, Z.of_nat n)) <$> all_facts char !! n.
Proof. rewrite all_facts_with_index_eq. apply list_lookup_imap. Qed.

Lemma length_all_facts_with_index char :
  len (_all_facts_with_index char) = total_facts char.
Proof.
  rewrite all_facts_with_index_eq, <- length_all_facts. unfold len.
  by rewrite length_imap.
Qed.

Lemma lookup_all_facts_lt char (n : nat) :
  (n < length (all_facts char))%nat ↔ 0 ≤ Z.of_nat n < total_facts char.
Proof. rewrite <- length_all_facts. unfold len. lia. Qed.

(** What [_set_fact_by_global_index] does at an index within range, on the
    sequence of all facts. *)
Lemma set_fact_in_range char i t :
  0 ≤ i < total_facts char →
  ∃ kind old m,
    let char' := with_bucket char kind (<[m := t]> (bucket char kind)) in
    all_facts char !! Z.to_nat i = Some (kind, old)
    ∧ _set_fact_by_global_index char i t = Ok (Some old, char')
    ∧ all_facts char' = <[Z.to_nat i := (kind, t)]> (all_facts char).
Proof.
  unfold total_facts, _set_fact_by_global_index, KINDS. intros Hi.
  pose proof (len_nonneg (past (facts char))) as Hp.
  pose proof (len_nonneg (present (facts char))) as Hq.
  cbn [set_fact_loop bucket].
  case_bool_decide as H1.
  { destruct (getitem_in_range (past (facts char)) (i - 0)) as (old & Hold & ->);
      first lia.
    rewrite setitem_in_range by lia. cbn [res_bind].
    replace (i - 0) with i in * by lia.
    exists Past, old, (Z.to_nat i).
    unfold all_facts. cbn [with_bucket with_facts facts past present future bucket].
    split_and!; [|done|].
    - rewrite lookup_app_l by (rewrite length_fmap; unfold len in *; lia).
      by rewrite list_lookup_fmap, Hold.
    - rewrite list_fmap_insert, insert_app_l; first done.
      rewrite length_fmap. unfold len in *. lia. }
  case_bool_decide as H2.
  { destruct (getitem_in_range (present (facts char)) (i - (0 + len (past (facts char)))))
      as (old & Hold & ->); first lia.
    rewrite setitem_in_range by lia. cbn [res_bind].
    replace (Z.to_nat (i - (0 + len (past (facts char)))))
      with (Z.to_nat i - length (past (facts char)))%nat in * by (unfold len; lia).
    exists Present, old, (Z.to_nat i - length (past (facts char)))%nat.
    unfold all_facts. cbn [with_bucket with_facts facts past present future bucket].
    split_and!; [|done|].
    - rewrite lookup_app_r by (rewrite length_fmap; unfold len in *; lia).
      rewrite length_fmap.
      rewrite lookup_app_l by (rewrite length_fmap; unfold len in *; lia).
      by rewrite list_lookup_fmap, Hold.
    - rewrite list_fmap_insert.
      rewrite insert_app_r_alt by (rewrite length_fmap; unfold len in *; lia).
      rewrite length_fmap, insert_app_l; first done.
      rewrite length_fmap. unfold len in *. lia. }
  case_bool_decide as H3; last lia.
  destruct (getitem_in_range (future (facts char))
              (i - (0 + len (past (facts char)) + len (present (facts char)))))
    as (old & Hold & ->); first lia.
  rewrite setitem_in_range by lia. cbn [res_bind].
  replace (Z.to_nat (i - (0 + len (past (facts char)) + len (present (facts char)))))
    with (Z.to_nat i - length (past (facts char)) - length (present (facts char)))%nat
    in * by (unfold len; lia).
  exists Future, old,
    (Z.to_nat i - length (past (facts char)) - length (present (facts char)))%nat.
  unfold all_facts. cbn [with_bucket with_facts facts past present future bucket].
  split_and!; [|done|].
  - rewrite lookup_app_r by (rewrite length_fmap; unfold len in *; lia).
    rewrite length_fmap.
    rewrite lookup_app_r by (rewrite length_fmap; unfold len in *; lia).
    rewrite length_fmap.
    by rewrite list_lookup_fmap, Hold.
  - rewrite list_fmap_insert.
    rewrite insert_app_r_alt by (rewrite length_fmap; unfold len in *; lia).
    rewrite length_fmap.
    rewrite insert_app_r_alt by (rewrite length_fmap; unfold len in *; lia).
    by rewrite length_fmap.
Qed.

(** At or beyond the number of facts the call returns [None] and changes
    nothing. *)
Lemma set_fact_beyond char i t :
  total_facts char ≤ i → _set_fact_by_global_index char i t = Ok (None, char).
Proof.
  unfold total_facts, _set_fact_by_global_index, KINDS. intros Hi.
  pose proof (len_nonneg (past (facts char))) as Hp.
  pose proof (len_nonneg (present (facts char))) as Hq.
  pose proof (len_nonneg (future (facts char))) as Hr.
  cbn [set_fact_loop bucket].
  rewrite !bool_decide_eq_false_2 by lia. done.
Qed.

End CoreFacts.

(** ** Editing a fact by its global index *)

Section SetFact.
Import Core.

(** C4. For every record, every valid global index [i] and every text [t]:
    [_set_fact_by_global_index] returns the text that was at [i]; afterwards
    the fact read at [i] is [t], in the same bucket; the fact at every other
    global index is unchanged; and no bucket changes length. *)
Theorem set_fact_then_read (char : Character) (i : Z) (t : string) :
  0 ≤ i < total_facts char →
  ∃ kind old char',
    _set_fact_by_global_index char i t = Ok (Some old, char')
    ∧ Py.getitem (_all_facts_with_index char) i = Ok (kind, old, i)
    ∧ Py.getitem (_all_facts_with_index char') i = Ok (kind, t, i)
    ∧ (∀ j : nat, j ≠ Z.to_nat i →
         _all_facts_with_index char' !! j = _all_facts_with_index char !! j)
    ∧ (∀ k, length (bucket char' k) = length (bucket char k)).
Proof.
  intros Hi.
  destruct (set_fact_in_range char i t Hi) as (kind & old & m & Hold & Hset & Hall).
  cbv zeta in *.
  set (char' := with_bucket char kind (<[m := t]> (bucket char kind))) in *.
  assert (Hlen : ∀ k, length (bucket char' k) = length (bucket char k)).
  { intros k. subst char'. destruct kind, k; cbn; by rewrite ?length_insert. }
  assert (Htotal : total_facts char' = total_facts char).
  { unfold total_facts, len.
    pose proof (Hlen Past) as H1. pose proof (Hlen Present) as H2.
    pose proof (Hlen Future) as H3. cbn [bucket] in H1, H2, H3. lia. }
  assert (Hn : (Z.to_nat i < length (all_facts char))%nat).
  { apply lookup_all_facts_lt. lia. }
  exists kind, old, char'. split_and!; [done| | | |done].
  - destruct (getitem_in_range (_all_facts_with_index char) i) as (x & Hx & ->).
    { by rewrite length_all_facts_with_index. }
    rewrite lookup_all_facts_with_index, Hold in Hx. cbn in Hx.
    rewrite Z2Nat.id in Hx by lia. congruence.
  - destruct (getitem_in_range (_all_facts_with_index char') i) as (x & Hx & ->).
    { rewrite length_all_facts_with_index. lia. }
    rewrite lookup_all_facts_with_index, Hall in Hx.
    rewrite list_lookup_insert_eq in Hx by done. cbn in Hx.
    rewrite Z2Nat.id in Hx by lia. congruence.
  - intros j Hj. rewrite !lookup_all_facts_with_index, Hall.
    by rewrite list_lookup_insert_ne.
Qed.

Lemma set_fact_then_read_witness :
  ∃ kind old char',
    _set_fact_by_global_index Samples.scenario 2 "C2" = Ok (Some old, char')
    ∧ Py.getitem (_all_facts_with_index Samples.scenario) 2 = Ok (kind, old, 2)
    ∧ Py.getitem (_all_facts_with_index char') 2 = Ok (kind, "C2", 2)
    ∧ (∀ j : nat, j ≠ Z.to_nat 2 →
         _all_facts_with_index char' !! j
         = _all_facts_with_index Samples.scenario !! j)
    ∧ (∀ k, length (bucket char' k) = length (bucket Samples.scenario k)).
Proof. apply (set_fact_then_read Samples.scenario 2 "C2"). vm_compute. split; congruence. Defined.

(** The scenario of the specification: setting index 2 to "C2" returns "C"
    and leaves [present == ["C2"]]. *)
Example set_fact_scenario :
  ∃ char',
    _set_fact_by_global_index Samples.scenario 2 "C2" = Ok (Some "C", char')
    ∧ past (facts char') = ["A"; "B"]
    ∧ present (facts char') = ["C2"]
    ∧ future (facts char') = [].
Proof. eexists. by vm_compute. Qed.

(** C2. With the single fact "A" in the past, index [-1] is not refused:
    Python's negative indexing makes the call overwrite the last fact of the
    bucket and return its old text. *)
Theorem set_fact_negative_index_edits :
  _set_fact_by_global_index Samples.one_fact (-1) "X"
  = Ok (Some "A", with_bucket Samples.one_fact Past ["X"]).
Proof. by vm_compute. Qed.

(** Further below the bucket the call raises instead of returning [None]. *)
Example set_fact_negative_index_raises :
  _set_fact_by_global_index Samples.one_fact (-2) "X" = Raise IndexError.
Proof. by vm_compute. Qed.

End SetFact.

Section MainSetFact.
Import Main.

(** [set_fact_by_index] of [main.py] refuses every index that is negative
    or not below the number of facts, and changes nothing then. *)
Lemma set_fact_by_index_out_of_range char index new_text :
  index < 0 ∨ Main.total_facts char ≤ index →
  set_fact_by_index char index new_text = Ok (None, char).
Proof.
  intros Hi. unfold set_fact_by_index. by rewrite bool_decide_eq_true_2.
Qed.
End MainSetFact.

(** ** The option builders of [main.py] *)

Section MainOptions.
Import Main.

Lemma truthy_nonempty s : Py.truthy s = true ↔ s ≠ "".
Proof. destruct s; cbn; split; congruence. Qed.

Lemma scan_listing keep kind arr options (base : nat) :
  scan keep kind arr (options, Z.of_nat base)
  = (options ++ listing keep (λ _, kind) base arr,
     Z.of_nat (base + length arr)).
Proof.
  unfold scan. revert options base.
  induction arr as [|fact arr IH]; intros options base.
  - cbn. rewrite app_nil_r. do 2 f_equal. lia.
  - cbn [foldl listing length]. cbv zeta.
    replace (Z.of_nat base + 1) with (Z.of_nat (S base)) by lia.
    destruct (Py.truthy fact); cbn [negb andb]; [destruct (keep fact)|];
      cbn [negb]; rewrite IH; cbn [app]; rewrite <- ?app_assoc; cbn [app];
      do 2 f_equal; lia.
Qed.

Lemma listing_app keep label base l1 l2 :
  listing keep label base (l1 ++ l2)
  = listing keep label base l1 ++ listing keep label (base + length l1) l2.
Proof.
  revert base. induction l1 as [|f l1 IH]; intros base; cbn [listing app length].
  - by rewrite Nat.add_0_r.
  - rewrite IH, <- app_assoc. do 3 f_equal. lia.
Qed.

Lemma listing_ext keep label label' base arr :
  (∀ i, (i < length arr)%nat → label (base + i)%nat = label' (base + i)%nat) →
  listing keep label base arr = listing keep label' base arr.
Proof.
  revert base. induction arr as [|f arr IH]; intros base Hext; first done.
  cbn [listing]. rewrite (IH (S base)).
  - specialize (Hext 0%nat). rewrite Nat.add_0_r in Hext.
    rewrite Hext; [done | cbn; lia].
  - intros i Hi. replace (S base + i)%nat with (base + S i)%nat by lia.
    apply Hext. cbn. lia.
Qed.

Lemma elem_of_listing keep label base arr lab tok :
  (lab, tok) ∈ listing keep label base arr ↔
  ∃ (i : nat) fact,
    arr !! i = Some fact ∧ fact ≠ "" ∧ keep fact = true
    ∧ tok = Py.str (Z.of_nat (base + i))
    ∧ lab = label (base + i)%nat +:+ ": " +:+ shorten fact.
Proof.
  revert base. induction arr as [|f arr IH]; intros base; cbn [listing].
  { split; [by intros ?%elem_of_nil | by intros (i & fact & ? & _)]. }
  rewrite elem_of_app, IH. split.
  - intros [Hhere | (i & fact & Hi & Hne & Hk & -> & ->)].
    + destruct (Py.truthy f) eqn:Ht; [destruct (keep f) eqn:Hk|]; cbn in Hhere;
        try by apply elem_of_nil in Hhere.
      apply list_elem_of_singleton in Hhere. injection Hhere as -> ->.
      exists 0%nat, f. rewrite Nat.add_0_r. by rewrite <- truthy_nonempty.
    + exists (S i), fact. replace (base + S i)%nat with (S base + i)%nat by lia. done.
  - intros (i & fact & Hi & Hne & Hk & -> & ->). destruct i as [|i].
    + left. cbn in Hi. injection Hi as ->. apply truthy_nonempty in Hne.
      rewrite Hne, Hk, Nat.add_0_r. cbn. by apply list_elem_of_singleton.
    + right. exists i, fact. replace (base + S i)%nat with (S base + i)%nat by lia. done.
Qed.

(** Both builders of [main.py] return the listing of the flattened facts. *)
Lemma scan_all keep char :
  fst (scan keep "Futuro" (get_future char)
         (scan keep "Presente" (get_present char)
            (scan keep "Passado" (get_past char) ([], 0))))
  = listing keep (timeline_at char) 0 (flatten_facts char).
Proof.
  unfold flatten_facts.
  change 0 with (Z.of_nat 0). rewrite !scan_listing. cbn [fst app].
  rewrite !listing_app, <- app_assoc. cbn [Nat.add].
  repeat apply (f_equal2 app); apply listing_ext; intros i Hi; unfold timeline_at;
    cbn [Nat.add].
  - by rewrite bool_decide_eq_true_2.
  - rewrite bool_decide_eq_false_2 by lia. by rewrite bool_decide_eq_true_2 by lia.
  - rewrite !bool_decide_eq_false_2 by lia. done.
Qed.

Lemma list_all_fact_options_listing char :
  list_all_fact_options char
  = listing (λ _, true) (timeline_at char) 0 (flatten_facts char).
Proof. apply scan_all. Qed.

Lemma list_fact_options_not_ruptured_listing char :
  list_fact_options_not_ruptured char
  = listing (λ fact, negb (bool_decide (fact ∈ get_ruptured_facts char)))
      (timeline_at char) 0 (flatten_facts char).
Proof. apply scan_all. Qed.

(** C10. In both builders of [main.py] the options are exactly the non-empty
    facts (for the rupture menu: the non-empty facts that are not ruptured),
    and the token of each is the position of its fact in the flattened
    sequence past + present + future, which [int] reads back: an empty fact
    is left out, yet the facts after it keep their positions. *)
Theorem option_tokens_are_positions (char : Character) :
  (∀ label tok,
     (label, tok) ∈ list_all_fact_options char ↔
     ∃ (i : nat) fact,
       flatten_facts char !! i = Some fact ∧ fact ≠ ""
       ∧ tok = Py.str (Z.of_nat i) ∧ Py.int tok = Ok (Z.of_nat i)
       ∧ label = timeline_at char i +:+ ": " +:+ shorten fact)
  ∧ (∀ label tok,
       (label, tok) ∈ list_fact_options_not_ruptured char ↔
       ∃ (i : nat) fact,
         flatten_facts char !! i = Some fact ∧ fact ≠ ""
         ∧ (fact ∉ get_ruptured_facts char)
         ∧ tok = Py.str (Z.of_nat i) ∧ Py.int tok = Ok (Z.of_nat i)
         ∧ label = timeline_at char i +:+ ": " +:+ shorten fact).
Proof.
  split; intros label tok.
  - rewrite list_all_fact_options_listing, elem_of_listing. cbn [Nat.add].
    split.
    + intros (i & fact & Hi & Hne & _ & -> & ->). exists i, fact.
      by rewrite int_str.
    + intros (i & fact & Hi & Hne & -> & _ & ->). by exists i, fact.
  - rewrite list_fact_options_not_ruptured_listing, elem_of_listing. cbn [Nat.add].
    split.
    + intros (i & fact & Hi & Hne & Hk & -> & ->). exists i, fact.
      rewrite int_str. split_and!; try done.
      apply negb_true_iff in Hk. by apply bool_decide_eq_false in Hk.
    + intros (i & fact & Hi & Hne & Hk & -> & _ & ->). exists i, fact.
      split_and!; try done. apply negb_true_iff. by apply bool_decide_eq_false.
Qed.

(** Example: the blank second fact is not listed and the third keeps token 2. *)
Example options_skip_blank :
  list_all_fact_options
    {| user_id := None; name := None;
       facts := Some {| past := Some ["A"; ""; "B"]; present := Some ["C"];
                        future := None |};
       flaw := None; condition := None; xp := None; ruptured_facts := None;
       created_at := None; updated_at := None |}
  = [("Passado: A", "0"); ("Passado: B", "2"); ("Presente: C", "3")].
Proof. by vm_compute. Qed.

End MainOptions.

(** ** The option builders of [rpg_core.py] and the cap of 25 *)

Section CoreOptions.
Import Core.

Lemma options_loop (acc : list (string * string)) (l : list (Kind * string * Z)) :
  foldl (λ opts '(kind, f, idx), opts ++ [fact_option (kind_label kind) f idx]) acc l
  = acc ++ ((λ '(kind, f, idx), fact_option (kind_label kind) f idx) <$> l).
Proof.
  revert acc. induction l as [|[[kind f] idx] l IH]; intros acc; cbn [foldl].
  - by rewrite app_nil_r.
  - rewrite IH, fmap_cons, <- app_assoc. done.
Qed.

Lemma options_non_ruptured_loop (rupt : list string) (acc : list (string * string))
    (l : list (Kind * string * Z)) :
  foldl (λ opts '(kind, f, idx),
           if bool_decide (f ∈ rupt) then opts
           else opts ++ [fact_option (kind_label kind) f idx]) acc l
  = acc ++ ((λ '(kind, f, idx), fact_option (kind_label kind) f idx)
              <$> filter (λ '(kind, f, idx), f ∉ rupt) l).
Proof.
  revert acc. induction l as [|[[kind f] idx] l IH]; intros acc; cbn [foldl].
  - by rewrite app_nil_r.
  - rewrite IH. rewrite filter_cons. case_bool_decide; case_decide; try done.
    rewrite fmap_cons, <- app_assoc. done.
Qed.

Lemma options_all_facts_eq char :
  _options_all_facts char
  = (λ '(kind, f, idx), fact_option (kind_label kind) f idx)
      <$> _all_facts_with_index char.
Proof. unfold _options_all_facts. by rewrite options_loop. Qed.

Lemma options_non_ruptured_facts_eq char :
  _options_non_ruptured_facts char
  = (λ '(kind, f, idx), fact_option (kind_label kind) f idx)
      <$> filter (λ '(kind, f, idx), f ∉ get_ruptured_facts char)
            (_all_facts_with_index char).
Proof.
  unfold _options_non_ruptured_facts. cbv zeta.
  by rewrite options_non_ruptured_loop.
Qed.

(** The builders of [rpg_core.py] are not capped: one option per fact. *)
Lemma length_options_all_facts char :
  Py.len (_options_all_facts char) = total_facts char.
Proof.
  rewrite options_all_facts_eq. unfold len. rewrite length_fmap.
  apply length_all_facts_with_index.
Qed.

Lemma length_select_options option_tuples :
  (length (select_options option_tuples) ≤ 25)%nat.
Proof. unfold select_options. rewrite length_fmap, length_take. lia. Qed.

Lemma length_discord_options options_pairs :
  (length (Main.discord_options options_pairs) ≤ 25)%nat.
Proof. unfold Main.discord_options. rewrite length_fmap, length_take. lia. Qed.

(** C9, as the code has it. The builders return one option per listed fact,
    without a cap; the cap sits where the menu is made: [dm_select_one] and
    the two select classes of [main.py] keep the first 25 entries of the
    list they are given, so no menu holds more than 25 options. *)
Theorem menu_never_exceeds_25 (char : Core.Character) (old : Main.Character) :
  (length (select_options (_options_all_facts char)) ≤ 25)%nat
  ∧ (length (select_options (_options_non_ruptured_facts char)) ≤ 25)%nat
  ∧ (length (options (Main.EditarFatoSelect (Main.list_all_fact_options old))) ≤ 25)%nat
  ∧ (length (options (Main.RupturaSelect (Main.list_fact_options_not_ruptured old))) ≤ 25)%nat
  ∧ select_options (_options_all_facts char)
    = select_options (take 25 (_options_all_facts char))
  ∧ Py.len (_options_all_facts char) = total_facts char.
Proof.
  split_and!; try apply length_select_options; try apply length_discord_options.
  - unfold select_options. by rewrite take_take.
  - apply length_options_all_facts.
Qed.

(** The builders are not where the cap is: with twenty-six facts each of
    them returns twenty-six options. *)
Lemma builders_return_26_options :
  length (_options_all_facts Samples.many_facts) = 26%nat
  ∧ length (_options_non_ruptured_facts Samples.many_facts) = 26%nat
  ∧ length (Main.list_all_fact_options Samples.many_facts_old) = 26%nat
  ∧ length (Main.list_fact_options_not_ruptured Samples.many_facts_old) = 26%nat
  ∧ ¬ (length (_options_all_facts Samples.many_facts) ≤ 25)%nat.
Proof. vm_compute. split_and!; try done. lia. Qed.

End CoreOptions.

(** ** XP: the cost of a new fact and the direct adjustment *)

Section XP.

Lemma main_get_xp_defaults char :
  Main.get_xp (Main.ensure_char_defaults char) = Main.get_xp char.
Proof. done. Qed.

(** C7. A record with less XP than the cost of a new fact makes the new-fact
    workflow end at once with the insufficient-XP answer: in [rpg_core.py]
    the world is left exactly as it was (nothing sent, nothing awaited,
    nothing saved); in [main.py] the command does nothing but send one plain
    reply, without the timeline menu, and saves nothing. *)
Theorem new_fact_needs_xp
    (w : World Core.Character) (user : Z) (char : Core.Character)
    (wo : World Main.Character) (interaction : Main.Interaction)
    (usuario : option Main.Member) (old : Main.Character) :
  w_file w !! Py.str user = Some char →
  Core.get_xp char < Core.XP_COST_NEW_FACT →
  Main.guild interaction = true →
  (is_Some usuario → Main.master (Main.user interaction) = true) →
  w_file wo !! Py.str (Main.id (default (Main.user interaction) usuario)) = Some old →
  Main.get_xp old < Main.XP_COST_NEW_FACT →
  Core.add_fact_with_xp user w
  = (Ok (false,
         "XP insuficiente. Você tem " +:+ Py.str (Core.get_xp char)
         +:+ " XP e precisa de 3 XP."), w)
  ∧ Main.personagem_novo_fato interaction usuario wo
    = Main.respond
        ("Você precisa de **3 XP** para criar um novo fato. XP atual de **"
         +:+ Main.display_name (default (Main.user interaction) usuario)
         +:+ "**: **" +:+ Py.str (Main.get_xp old) +:+ "**.") wo
  ∧ w_file (Main.personagem_novo_fato interaction usuario wo).2 = w_file wo.
Proof.
  intros Hfile Hxp Hguild Hmaster Hold Hxpo.
  assert (Hcmd : Main.command_target interaction usuario
                   "Só Mestre/Admin pode adicionar fato para outro usuário." wo
                 = (Ok (Some (default (Main.user interaction) usuario)), wo)).
  { unfold Main.command_target. rewrite Hguild. cbn [negb].
    destruct usuario as [m|]; cbn [default]; last done.
    rewrite Hmaster by eauto. by rewrite andb_false_r. }
  split_and!.
  - unfold Core.add_fact_with_xp. flow. rewrite Hfile.
    by rewrite bool_decide_eq_true_2.
  - unfold Main.personagem_novo_fato. flow. rewrite Hcmd, Hold.
    rewrite main_get_xp_defaults. by rewrite bool_decide_eq_true_2.
  - unfold Main.personagem_novo_fato. flow. rewrite Hcmd, Hold.
    rewrite main_get_xp_defaults. by rewrite bool_decide_eq_true_2.
Qed.

Lemma new_fact_needs_xp_witness :
  Core.add_fact_with_xp 7 (Samples.world (Samples.sheet ["A"] [] [] [] 2) [] [])
  = (Ok (false, "XP insuficiente. Você tem 2 XP e precisa de 3 XP."),
     Samples.world (Samples.sheet ["A"] [] [] [] 2) [] [])
  ∧ Main.personagem_novo_fato Samples.by_ana None
      (Samples.old_world (Samples.old_sheet ["A"] [] [] [] 2) [])
    = Main.respond
        "Você precisa de **3 XP** para criar um novo fato. XP atual de **Ana**: **2**."
        (Samples.old_world (Samples.old_sheet ["A"] [] [] [] 2) [])
  ∧ w_file (Main.personagem_novo_fato Samples.by_ana None
              (Samples.old_world (Samples.old_sheet ["A"] [] [] [] 2) [])).2
    = w_file (Samples.old_world (Samples.old_sheet ["A"] [] [] [] 2) []).
Proof.
  apply (new_fact_needs_xp
           (Samples.world (Samples.sheet ["A"] [] [] [] 2) [] []) 7
           (Samples.sheet ["A"] [] [] [] 2)
           (Samples.old_world (Samples.old_sheet ["A"] [] [] [] 2) [])
           Samples.by_ana None (Samples.old_sheet ["A"] [] [] [] 2)).
  - by vm_compute.
  - by vm_compute.
  - reflexivity.
  - intros [m Hm]. discriminate Hm.
  - by vm_compute.
  - by vm_compute.
Defined.

(** [xp_adjust] of [rpg_core.py] clamps the result at zero. *)
Lemma xp_adjust_clamps (w : World Core.Character) (owner_id delta x : Z)
    (char : Core.Character) :
  w_file w !! Py.str owner_id = Some char →
  Core.xp char = Some x →
  ∃ msg w' char',
    Core.xp_adjust owner_id delta w = (Ok (true, msg), w')
    ∧ w_file w' = <[Py.str owner_id := char']> (w_file w)
    ∧ Core.xp char' = Some (0 `max` (x + delta))
    ∧ 0 ≤ Core.get_xp char'
    ∧ Core.facts char' = Core.facts char
    ∧ Core.ruptured_facts char' = Core.ruptured_facts char
    ∧ Core.reserves char' = Core.reserves char.
Proof.
  intros Hfile Hx. unfold Core.xp_adjust. flow. rewrite Hfile.
  unfold utc_now_iso, save_data. cbn [w_file].
  do 3 eexists. split; first done.
  split; first done. unfold Core.get_xp. rewrite Hx. cbn. split_and!; try done. lia.
Qed.

(** C3. In [main.py] the command [personagem_xp] adds the delta without a
    floor: from 0 XP, a delta of -1 stores -1. *)
Theorem personagem_xp_goes_negative :
  ∃ char',
    w_file (Main.personagem_xp Samples.by_ana (-1) None
              (Samples.old_world (Samples.old_sheet ["A"] [] [] [] 0) [])).2
      !! "7" = Some char'
    ∧ Main.xp char' = Some (-1)
    ∧ Main.xp char' ≠ Some (0 `max` (0 + -1)).
Proof. eexists. by vm_compute. Qed.

End XP.

(** ** Renaming a fact and its rupture *)

Section Rename.

(** Replacing the text at one position keeps every other text and brings
    in the new one. *)
Lemma insert_keeps_others (l : list string) (n : nat) (old new x : string) :
  l !! n = Some old → x ∈ l → x ≠ old → x ∈ <[n := new]> l.
Proof.
  intros Hn Hx Hne. apply list_elem_of_lookup in Hx as [j Hj].
  apply list_elem_of_lookup. exists j. rewrite list_lookup_insert_ne; first done.
  intros ->. congruence.
Qed.

Lemma insert_has_new (l : list string) (n : nat) (old new : string) :
  l !! n = Some old → new ∈ <[n := new]> l.
Proof.
  intros Hn. apply list_elem_of_lookup. exists n.
  apply list_lookup_insert_eq. by eapply lookup_lt_Some.
Qed.

(** The two ways the code carries a rupture over to the new text, and what
    both guarantee. *)
Lemma replace_follows (rupt facts : list string) (n : nat) (old new : string) :
  let rupt' := (λ x, if bool_decide (x = old) then new else x) <$> rupt in
  facts !! n = Some old → old ∈ rupt →
  new ∈ rupt' ∧ (new ≠ old → old ∉ rupt')
  ∧ (consistent rupt facts → consistent rupt' (<[n := new]> facts)).
Proof.
  intros rupt' Hn Hold. subst rupt'. split_and!.
  - apply list_elem_of_fmap. exists old. by rewrite bool_decide_eq_true_2.
  - intros Hne (y & Hy & _)%list_elem_of_fmap. case_bool_decide; congruence.
  - intros Hc x (y & -> & Hy)%list_elem_of_fmap. case_bool_decide.
    + by eapply insert_has_new.
    + eapply insert_keeps_others; eauto.
Qed.

Lemma remove_append_follows (rupt facts : list string) (n : nat) (old new : string) :
  let rupt' := filter (λ x, x ≠ old) rupt ++ [new] in
  facts !! n = Some old → old ∈ rupt →
  new ∈ rupt' ∧ (new ≠ old → old ∉ rupt')
  ∧ (consistent rupt facts → consistent rupt' (<[n := new]> facts)).
Proof.
  intros rupt' Hn Hold. subst rupt'. split_and!.
  - apply elem_of_app. right. by apply list_elem_of_singleton.
  - intros Hne [Hin | Hin]%elem_of_app.
    + by apply list_elem_of_filter in Hin as [? _].
    + apply list_elem_of_singleton in Hin. congruence.
  - intros Hc x [Hin | Hin]%elem_of_app.
    + apply list_elem_of_filter in Hin as [Hne Hin].
      eapply insert_keeps_others; eauto.
    + apply list_elem_of_singleton in Hin as ->. by eapply insert_has_new.
Qed.

(** Without a rupture of the old text the list is left alone and stays
    consistent. *)
Lemma untouched_stays_consistent (rupt facts : list string) (n : nat)
    (old new : string) :
  facts !! n = Some old → old ∉ rupt →
  consistent rupt facts → consistent rupt (<[n := new]> facts).
Proof.
  intros Hn Hold Hc x Hx. eapply insert_keeps_others; eauto. intros ->. done.
Qed.

End Rename.

Section MainEdit.
Import Main.

Lemma main_set_fact_in_range char index new_text :
  0 ≤ index < total_facts char →
  ∃ old char',
    flatten_facts char !! Z.to_nat index = Some old
    ∧ set_fact_by_index char index new_text = Ok (Some old, char')
    ∧ flatten_facts char' = <[Z.to_nat index := new_text]> (flatten_facts char)
    ∧ ruptured_facts char' = ruptured_facts char
    ∧ xp char' = xp char
    ∧ created_at char' = created_at char.
Proof.
  unfold set_fact_by_index, flatten_facts. intros Hi. cbv zeta.
  unfold total_facts in *.
  pose proof (len_nonneg (get_past char)) as Hp.
  pose proof (len_nonneg (get_present char)) as Hq.
  rewrite bool_decide_eq_false_2 by lia.
  destruct (facts char) as [f|] eqn:Hf; last first.
  { unfold get_past, get_present, get_future, len in Hi. rewrite Hf in Hi.
    cbn in Hi. lia. }
  assert (Hgp : get_past char = default [] (past f))
    by (unfold get_past; by rewrite Hf).
  assert (Hgq : get_present char = default [] (present f))
    by (unfold get_present; by rewrite Hf).
  assert (Hgr : get_future char = default [] (future f))
    by (unfold get_future; by rewrite Hf).
  assert (Hwith : ∀ F,
    get_past (with_facts char F) ++ get_present (with_facts char F)
      ++ get_future (with_facts char F)
    = default [] (past F) ++ default [] (present F) ++ default [] (future F))
    by reflexivity.
  unfold store_bucket. rewrite Hf.
  case_bool_decide as H1.
  { destruct (getitem_in_range (get_past char) index) as (old & Hold & ->);
      first lia.
    rewrite setitem_in_range by lia. cbn [res_bind].
    eexists old, _. split_and!; [|done| |done..].
    - rewrite lookup_app_l by (unfold len in *; lia). done.
    - rewrite insert_app_l by (unfold len in *; lia).
      rewrite Hwith. cbn [past present future default]. by rewrite Hgq, Hgr. }
  case_bool_decide as H2.
  { destruct (getitem_in_range (get_present char) (index - len (get_past char)))
      as (old & Hold & ->); first lia.
    rewrite setitem_in_range by lia. cbn [res_bind].
    replace (Z.to_nat (index - len (get_past char)))
      with (Z.to_nat index - length (get_past char))%nat in *
      by (unfold len; lia).
    eexists old, _. split_and!; [|done| |done..].
    - rewrite lookup_app_r by (unfold len in *; lia).
      rewrite lookup_app_l by (unfold len in *; lia). done.
    - rewrite insert_app_r_alt by (unfold len in *; lia).
      rewrite insert_app_l by (unfold len in *; lia).
      rewrite Hwith. cbn [past present future default]. by rewrite <- Hgp, <- Hgr. }
  destruct (getitem_in_range (get_future char)
              (index - len (get_past char) - len (get_present char)))
    as (old & Hold & ->); first lia.
  rewrite setitem_in_range by lia. cbn [res_bind].
  replace (Z.to_nat (index - len (get_past char) - len (get_present char)))
    with (Z.to_nat index - length (get_past char) - length (get_present char))%nat
    in * by (unfold len; lia).
  eexists old, _. split_and!; [|done| |done..].
  - rewrite lookup_app_r by (unfold len in *; lia).
    rewrite lookup_app_r by (unfold len in *; lia). done.
  - rewrite insert_app_r_alt by (unfold len in *; lia).
    rewrite insert_app_r_alt by (unfold len in *; lia).
    rewrite Hwith. cbn [past present future default]. by rewrite <- Hgp, <- Hgq.
Qed.

Lemma flatten_facts_defaults char :
  flatten_facts (ensure_char_defaults char) = flatten_facts char.
Proof.
  destruct char as [u n fs fl c x r ca ua].
  by destruct fs as [[[p|] [q|] [s|]]|].
Qed.

Lemma total_facts_defaults char :
  total_facts (ensure_char_defaults char) = total_facts char.
Proof.
  destruct char as [u n fs fl c x r ca ua].
  by destruct fs as [[[p|] [q|] [s|]]|].
Qed.

Lemma ruptured_facts_defaults char :
  get_ruptured_facts (ensure_char_defaults char) = get_ruptured_facts char.
Proof. by destruct char as [u n fs fl c x [r|] ca ua]. Qed.

End MainEdit.

(** ** The fact-edit workflow *)

Section EditFlow.

Lemma truthy_true s : s ≠ "" → Py.truthy s = true.
Proof. by destruct s. Qed.

Lemma on_submit_edit (w : World Main.Character) requester_id target_user_id
    fact_index novo_texto interaction (char : Main.Character) :
  Main.id (Main.user interaction) = requester_id →
  Py.strip novo_texto ≠ "" →
  w_file w !! target_user_id = Some char →
  0 ≤ fact_index < Main.total_facts char →
  ∃ old char' w',
    Main.EditarFatoModal_on_submit requester_id target_user_id fact_index
      novo_texto interaction w = (Ok tt, w')
    ∧ w_file w' = <[target_user_id := char']> (w_file w)
    ∧ Main.flatten_facts char !! Z.to_nat fact_index = Some old
    ∧ Main.flatten_facts char'
      = <[Z.to_nat fact_index := Py.strip novo_texto]> (Main.flatten_facts char)
    ∧ (old ∈ Main.get_ruptured_facts char →
       Py.strip novo_texto ∈ Main.get_ruptured_facts char'
       ∧ (Py.strip novo_texto ≠ old → old ∉ Main.get_ruptured_facts char'))
    ∧ (old ∉ Main.get_ruptured_facts char →
       Main.get_ruptured_facts char' = Main.get_ruptured_facts char)
    ∧ (consistent (Main.get_ruptured_facts char) (Main.flatten_facts char) →
       consistent (Main.get_ruptured_facts char') (Main.flatten_facts char')).
Proof.
  intros Hreq Hnew Hfile Hidx.
  destruct (main_set_fact_in_range (Main.ensure_char_defaults char) fact_index
              (Py.strip novo_texto))
    as (old & char1 & Hold & Hset & Hflat & Hrupt & _).
  { by rewrite total_facts_defaults. }
  rewrite flatten_facts_defaults in Hold, Hflat.
  assert (Hr1 : Main.get_ruptured_facts char1 = Main.get_ruptured_facts char).
  { unfold Main.get_ruptured_facts at 1. rewrite Hrupt.
    apply ruptured_facts_defaults. }
  unfold Main.EditarFatoModal_on_submit.
  rewrite bool_decide_eq_false_2 by (intros ?; congruence).
  rewrite truthy_true by done. cbn [negb]. flow. rewrite Hfile, Hset.
  unfold utc_now_iso, save_data, Main.respond, send. cbn [w_file].
  eexists old, _, _. split; first reflexivity. split; first reflexivity.
  split; first done. rewrite Hr1.
  case_bool_decide as Hin.
  - change (Main.flatten_facts (Main.with_updated_at
              (Main.with_ruptured_facts char1 ?r) ?n))
      with (Main.flatten_facts char1).
    change (Main.get_ruptured_facts (Main.with_updated_at
              (Main.with_ruptured_facts char1 ?r) ?n)) with r.
    rewrite Hflat.
    destruct (replace_follows (Main.get_ruptured_facts char)
                (Main.flatten_facts char) (Z.to_nat fact_index) old
                (Py.strip novo_texto) Hold Hin) as (H1 & H2 & H3).
    split_and!; done.
  - change (Main.flatten_facts (Main.with_updated_at char1 ?n))
      with (Main.flatten_facts char1).
    change (Main.get_ruptured_facts (Main.with_updated_at char1 ?n))
      with (Main.get_ruptured_facts char1).
    rewrite Hflat, Hr1. split_and!; try done.
    by apply (untouched_stays_consistent _ _ _ old).
Qed.

Lemma fact_texts_all_facts char : Core.fact_texts char = (Core.all_facts char).*2.
Proof.
  unfold Core.fact_texts, Core.all_facts.
  rewrite !fmap_app, <- !list_fmap_compose.
  by rewrite !list_fmap_id.
Qed.

Lemma edit_fact_apply_edit (w : World Core.Character) data user
    (char : Core.Character) idx txt :
  0 ≤ idx < Core.total_facts char →
  ∃ old char' w',
    Core.edit_fact_apply data user char idx txt w
    = (Ok (true, "Fato atualizado com sucesso."), w')
    ∧ w_file w' = <[Py.str user := char']> data
    ∧ Core.fact_texts char !! Z.to_nat idx = Some old
    ∧ Core.fact_texts char' = <[Z.to_nat idx := txt]> (Core.fact_texts char)
    ∧ (old ∈ Core.get_ruptured_facts char →
       txt ∈ Core.get_ruptured_facts char'
       ∧ (txt ≠ old → old ∉ Core.get_ruptured_facts char'))
    ∧ (old ∉ Core.get_ruptured_facts char →
       Core.get_ruptured_facts char' = Core.get_ruptured_facts char)
    ∧ (consistent (Core.get_ruptured_facts char) (Core.fact_texts char) →
       consistent (Core.get_ruptured_facts char') (Core.fact_texts char')).
Proof.
  intros Hidx.
  destruct (set_fact_in_range char idx txt Hidx)
    as (kind & old0 & m & Hold & Hset & Hall).
  cbv zeta in *.
  set (char1 := Core.with_bucket char kind (<[m := txt]> (Core.bucket char kind))) in *.
  assert (Hold' : Core.fact_texts char !! Z.to_nat idx = Some old0).
  { by rewrite fact_texts_all_facts, list_lookup_fmap, Hold. }
  assert (Hflat : Core.fact_texts char1
                  = <[Z.to_nat idx := txt]> (Core.fact_texts char)).
  { by rewrite !fact_texts_all_facts, Hall, list_fmap_insert. }
  assert (Hr1 : Core.get_ruptured_facts char1 = Core.get_ruptured_facts char)
    by done.
  unfold Core.edit_fact_apply. flow. rewrite Hset.
  unfold utc_now_iso, save_data. cbn [w_file].
  eexists old0, _, _. split; first reflexivity. split; first reflexivity.
  split; first done. rewrite Hr1.
  case_bool_decide as Hin.
  - change (Core.fact_texts (Core.with_updated_at
              (Core.with_ruptured_facts char1 ?r) ?n))
      with (Core.fact_texts char1).
    change (Core.get_ruptured_facts (Core.with_updated_at
              (Core.with_ruptured_facts char1 ?r) ?n)) with r.
    rewrite Hflat.
    destruct (remove_append_follows (Core.get_ruptured_facts char)
                (Core.fact_texts char) (Z.to_nat idx) old0 txt Hold' Hin)
      as (H1 & H2 & H3).
    split_and!; done.
  - change (Core.fact_texts (Core.with_updated_at char1 ?n))
      with (Core.fact_texts char1).
    change (Core.get_ruptured_facts (Core.with_updated_at char1 ?n))
      with (Core.get_ruptured_facts char1).
    rewrite Hflat, Hr1. split_and!; try done.
    by apply (untouched_stays_consistent _ _ _ old0).
Qed.

(** C5, as the code has it. When the text replaced by a fact edit was a
    ruptured one, the new text is in [ruptured_facts] afterwards, the old
    text is no longer there provided the new text differs from it, and if
    every ruptured text was the text of a fact before the edit, the same
    holds after it.  First for the form handler of [main.py], then for the
    end of [edit_fact_flow] in [rpg_core.py]. *)
Theorem rupture_follows_rename
    (w : World Main.Character) (requester_id : Z) (target_user_id : string)
    (fact_index : Z) (novo_texto : string) (interaction : Main.Interaction)
    (sheet : Main.Character) (old : string)
    (wc : World Core.Character) (data : gmap string Core.Character) (user : Z)
    (char : Core.Character) (idx : Z) (txt : string) (old_text : string) :
  Main.id (Main.user interaction) = requester_id →
  Py.strip novo_texto ≠ "" →
  w_file w !! target_user_id = Some sheet →
  0 ≤ fact_index →
  Main.flatten_facts sheet !! Z.to_nat fact_index = Some old →
  old ∈ Main.get_ruptured_facts sheet →
  0 ≤ idx →
  Core.fact_texts char !! Z.to_nat idx = Some old_text →
  old_text ∈ Core.get_ruptured_facts char →
  (∃ sheet' w',
     Main.EditarFatoModal_on_submit requester_id target_user_id fact_index
       novo_texto interaction w = (Ok tt, w')
     ∧ w_file w' = <[target_user_id := sheet']> (w_file w)
     ∧ Main.flatten_facts sheet'
       = <[Z.to_nat fact_index := Py.strip novo_texto]> (Main.flatten_facts sheet)
     ∧ Py.strip novo_texto ∈ Main.get_ruptured_facts sheet'
     ∧ (Py.strip novo_texto ≠ old → old ∉ Main.get_ruptured_facts sheet')
     ∧ (consistent (Main.get_ruptured_facts sheet) (Main.flatten_facts sheet) →
        consistent (Main.get_ruptured_facts sheet') (Main.flatten_facts sheet')))
  ∧ (∃ char' wc',
       Core.edit_fact_apply data user char idx txt wc
       = (Ok (true, "Fato atualizado com sucesso."), wc')
       ∧ w_file wc' = <[Py.str user := char']> data
       ∧ Core.fact_texts char' = <[Z.to_nat idx := txt]> (Core.fact_texts char)
       ∧ txt ∈ Core.get_ruptured_facts char'
       ∧ (txt ≠ old_text → old_text ∉ Core.get_ruptured_facts char')
       ∧ (consistent (Core.get_ruptured_facts char) (Core.fact_texts char) →
          consistent (Core.get_ruptured_facts char') (Core.fact_texts char'))).
Proof.
  intros Hreq Hnew Hfile Hpos Hold Hin Hcpos Hcold Hcin. split.
  - destruct (on_submit_edit w requester_id target_user_id fact_index novo_texto
                interaction sheet Hreq Hnew Hfile)
      as (old' & sheet' & w' & Hrun & Hsave & Hold' & Hflat & Hyes & _ & Hcons).
    { apply lookup_lt_Some in Hold. unfold Main.flatten_facts in Hold.
      rewrite !length_app in Hold. unfold Main.total_facts, len. lia. }
    assert (old' = old) as -> by congruence.
    destruct (Hyes Hin) as [H1 H2]. by exists sheet', w'.
  - destruct (edit_fact_apply_edit wc data user char idx txt)
      as (old' & char' & wc' & Hrun & Hsave & Hold' & Hflat & Hyes & _ & Hcons).
    { apply lookup_lt_Some in Hcold. unfold Core.fact_texts in Hcold.
      rewrite !length_app in Hcold. unfold Core.total_facts, len. lia. }
    assert (old' = old_text) as -> by congruence.
    destruct (Hyes Hcin) as [H1 H2]. by exists char', wc'.
Qed.

Lemma rupture_follows_rename_witness :
  (∃ sheet' w',
     Main.EditarFatoModal_on_submit 7 "7" 1 "B2" Samples.by_ana
       (Samples.old_world Samples.b_ruptured_old []) = (Ok tt, w')
     ∧ w_file w' = <["7" := sheet']> (w_file (Samples.old_world Samples.b_ruptured_old []))
     ∧ Main.flatten_facts sheet'
       = <[Z.to_nat 1 := Py.strip "B2"]> (Main.flatten_facts Samples.b_ruptured_old)
     ∧ Py.strip "B2" ∈ Main.get_ruptured_facts sheet'
     ∧ (Py.strip "B2" ≠ "B" → "B" ∉ Main.get_ruptured_facts sheet')
     ∧ (consistent (Main.get_ruptured_facts Samples.b_ruptured_old)
          (Main.flatten_facts Samples.b_ruptured_old) →
        consistent (Main.get_ruptured_facts sheet') (Main.flatten_facts sheet')))
  ∧ (∃ char' wc',
       Core.edit_fact_apply {[ "7" := Samples.b_ruptured ]} 7 Samples.b_ruptured 1 "B2"
         (Samples.world Samples.b_ruptured [] [])
       = (Ok (true, "Fato atualizado com sucesso."), wc')
       ∧ w_file wc' = <[Py.str 7 := char']> {[ "7" := Samples.b_ruptured ]}
       ∧ Core.fact_texts char'
         = <[Z.to_nat 1 := "B2"]> (Core.fact_texts Samples.b_ruptured)
       ∧ "B2" ∈ Core.get_ruptured_facts char'
       ∧ ("B2" ≠ "B" → "B" ∉ Core.get_ruptured_facts char')
       ∧ (consistent (Core.get_ruptured_facts Samples.b_ruptured)
            (Core.fact_texts Samples.b_ruptured) →
          consistent (Core.get_ruptured_facts char') (Core.fact_texts char'))).
Proof.
  apply (rupture_follows_rename (Samples.old_world Samples.b_ruptured_old [])
           7 "7" 1 "B2" Samples.by_ana Samples.b_ruptured_old "B"
           (Samples.world Samples.b_ruptured [] []) {[ "7" := Samples.b_ruptured ]}
           7 Samples.b_ruptured 1 "B2" "B").
  - reflexivity.
  - by vm_compute.
  - by vm_compute.
  - lia.
  - reflexivity.
  - vm_compute. apply list_elem_of_here.
  - lia.
  - reflexivity.
  - vm_compute. apply list_elem_of_here.
Defined.

(** When the new text is the old text the old text stays: the ruptured text
    "A" at index 0 is replaced by "A", and "A" is still in [ruptured_facts]
    afterwards, in [main.py] and in [rpg_core.py] alike. *)
Lemma rename_to_same_text_keeps_old :
  Main.flatten_facts Samples.a_ruptured_old !! 0%nat = Some "A"
  ∧ "A" ∈ Main.get_ruptured_facts Samples.a_ruptured_old
  ∧ (∃ sheet',
       w_file (Main.EditarFatoModal_on_submit 7 "7" 0 "A" Samples.by_ana
                 (Samples.old_world Samples.a_ruptured_old [])).2 !! "7"
       = Some sheet'
       ∧ ¬ ("A" ∉ Main.get_ruptured_facts sheet'))
  ∧ (∃ char',
       w_file (Core.edit_fact_apply {[ "7" := Samples.a_ruptured ]} 7
                 Samples.a_ruptured 0 "A"
                 (Samples.world Samples.a_ruptured [] [])).2 !! "7"
       = Some char'
       ∧ ¬ ("A" ∉ Core.get_ruptured_facts char')).
Proof.
  split_and!.
  - reflexivity.
  - vm_compute. apply list_elem_of_here.
  - eexists. split; first by vm_compute.
    intros Hnot. apply Hnot. vm_compute. apply list_elem_of_here.
  - eexists. split; first by vm_compute.
    intros Hnot. apply Hnot. vm_compute. apply list_elem_of_here.
Qed.

End EditFlow.

(** ** The single-choice prompt of [rpg_core.py] *)

Section SelectOne.
Import Core.

Lemma same_but_out_refl (w : World Character) : same_but_out w w.
Proof. by repeat split. Qed.

Lemma same_but_out_send o (w : World Character) : same_but_out w (send o w).2.
Proof. by repeat split. Qed.

Lemma same_but_out_trans (w1 w2 w3 : World Character) :
  same_but_out w1 w2 → same_but_out w2 w3 → same_but_out w1 w3.
Proof.
  intros (?&?&?&?&?&?) (?&?&?&?&?&?). repeat split; congruence.
Qed.

(** The callback resolves with the value of the entry the owner picks,
    whatever others clicked before. *)
Lemma select_callback_owner user confirm menu others c later o content w :
  Forall (λ c, by_user c ≠ user) others →
  by_user c = user →
  menu !! choice c = Some o →
  confirm (value o) = Ok content →
  ∃ w', select_callback user confirm menu (others ++ c :: later) w
        = (Ok (Some (value o)), w')
        ∧ same_but_out w w'.
Proof.
  intros Hothers Hc Ho Hconfirm. revert w.
  induction Hothers as [|c' others Hc' _ IH]; intros w; cbn [app select_callback].
  - rewrite bool_decide_eq_false_2 by (intros ?; congruence).
    rewrite Ho. flow. rewrite Hconfirm. eexists. split; first reflexivity.
    apply same_but_out_send.
  - rewrite bool_decide_eq_true_2 by done. flow. cbn [send].
    match goal with
    | |- context [select_callback _ _ _ _ ?w0] =>
        destruct (IH w0) as (w' & -> & Hsame)
    end.
    eexists. split; first reflexivity.
    eapply same_but_out_trans; [|done]. by repeat split.
Qed.

(** Whatever is clicked, the callback yields nothing or the value of an
    entry of the menu. *)
Lemma select_callback_result user confirm menu clicks w :
  (∀ o, o ∈ menu → ∃ content, confirm (value o) = Ok content) →
  ∃ r w', select_callback user confirm menu clicks w = (Ok r, w')
          ∧ same_but_out w w'
          ∧ (r = None ∨ ∃ o, o ∈ menu ∧ r = Some (value o)).
Proof.
  intros Hconfirm. revert w.
  induction clicks as [|c clicks IH]; intros w; cbn [select_callback].
  - exists None, w. split_and!; [done | apply same_but_out_refl | by left].
  - case_bool_decide.
    + flow. cbn [send].
      match goal with
      | |- context [select_callback _ _ _ _ ?w0] =>
          destruct (IH w0) as (r & w' & -> & Hsame & Hr)
      end.
      exists r, w'. split_and!; [done | | done].
      eapply same_but_out_trans; [|done]. by repeat split.
    + destruct (menu !! choice c) as [o|] eqn:Ho; last apply IH.
      assert (Hin : o ∈ menu) by (by eapply list_elem_of_lookup_2).
      destruct (Hconfirm o Hin) as [content Hcontent].
      flow. rewrite Hcontent. eexists (Some (value o)), _.
      split_and!; [reflexivity | apply same_but_out_send | right; eauto].
Qed.

Lemma select_options_lookup option_tuples (k : nat) label desc :
  option_tuples !! k = Some (label, desc) → (k < 25)%nat →
  ∃ o, select_options option_tuples !! k = Some o ∧ value o = label
       ∧ Sys.label o = label.
Proof.
  intros Hk Hlt. unfold select_options.
  rewrite list_lookup_fmap, lookup_take_lt, Hk by done. cbn. eauto.
Qed.

Lemma select_options_values option_tuples o :
  o ∈ select_options option_tuples →
  ∃ desc, (value o, desc) ∈ option_tuples.
Proof.
  unfold select_options. intros ([label desc] & -> & Hin)%list_elem_of_fmap.
  exists desc. cbn. by eapply subseteq_take.
Qed.

(** [dm_select_one] resolves with the label of the entry the owner picks,
    never with the second component paired with it. *)
Lemma dm_select_one_owner user title placeholder option_tuples
    others c later rest label desc w :
  w_clicks w = (others ++ c :: later) :: rest →
  Forall (λ c, by_user c ≠ user) others →
  by_user c = user →
  option_tuples !! choice c = Some (label, desc) → (choice c < 25)%nat →
  ∃ w', dm_select_one user title placeholder option_tuples w = (Ok (Some label), w')
        ∧ after_menu w w'.
Proof.
  intros Hclicks Hothers Hc Hk Hlt.
  destruct (select_options_lookup option_tuples (choice c) label desc Hk Hlt)
    as (o & Ho & Hv & _).
  unfold dm_select_one. flow. cbn [send].
  unfold wait_clicks at 1. cbn [w_clicks]. rewrite Hclicks.
  match goal with
  | |- context [select_callback _ ?cf _ _ ?w0] =>
      destruct (select_callback_owner user cf (select_options option_tuples)
                  others c later o _ w0 Hothers Hc Ho eq_refl)
        as (w' & -> & Hsame)
  end.
  rewrite Hv. exists w'. split; first done.
  destruct Hsame as (?&?&?&?&?&?). repeat split; try done.
  by rewrite Hclicks.
Qed.

Lemma dm_select_one_result user title placeholder option_tuples w :
  ∃ r w', dm_select_one user title placeholder option_tuples w = (Ok r, w')
          ∧ after_menu w w'
          ∧ (r = None ∨ ∃ label desc, (label, desc) ∈ option_tuples ∧ r = Some label).
Proof.
  unfold dm_select_one. flow. cbn [send].
  unfold wait_clicks at 1. cbn [w_clicks].
  destruct (w_clicks w) as [|cs rest] eqn:Hclicks.
  - cbn [select_callback]. flow. exists None. eexists.
    split_and!; [reflexivity | | by left].
    unfold after_menu. cbn. by rewrite Hclicks.
  - match goal with
    | |- context [select_callback _ ?cf ?menu ?cl ?w0] =>
        destruct (select_callback_result user cf menu cl w0)
          as (r & w' & -> & Hsame & Hr)
    end.
    { intros o _. eauto. }
    exists r, w'. split; first done. split.
    + destruct Hsame as (?&?&?&?&?&?). repeat split; try done.
      by rewrite Hclicks.
    + destruct Hr as [->|(o & Ho & ->)]; first by left.
      right. destruct (select_options_values _ _ Ho) as [desc Hin]. eauto.
Qed.

End SelectOne.

(** ** The workflows that read an index from a menu *)

Section ChoiceFlows.
Import Core.

(** The label of a fact option starts with the name of its timeline: it is
    not empty and [int] rejects it, while its token is an index written by
    [str]. *)
Lemma fact_option_label kind f idx :
  Py.int (fact_option (kind_label kind) f idx).1 = Raise ValueError
  ∧ Py.truthy (fact_option (kind_label kind) f idx).1 = true
  ∧ (fact_option (kind_label kind) f idx).2 = Py.str idx.
Proof. destruct kind; cbn; split_and!; try done; apply int_P || apply int_F. Qed.

Lemma options_all_facts_label char label tok :
  (label, tok) ∈ _options_all_facts char →
  Py.int label = Raise ValueError ∧ Py.truthy label = true
  ∧ ∃ idx, tok = Py.str idx.
Proof.
  rewrite options_all_facts_eq.
  intros ([[kind f] idx] & Heq & _)%list_elem_of_fmap.
  destruct (fact_option_label kind f idx) as (H1 & H2 & H3).
  rewrite <- Heq in *. cbn in *. eauto.
Qed.

Lemma options_non_ruptured_facts_label char label tok :
  (label, tok) ∈ _options_non_ruptured_facts char →
  Py.int label = Raise ValueError ∧ Py.truthy label = true
  ∧ ∃ idx, tok = Py.str idx.
Proof.
  rewrite options_non_ruptured_facts_eq.
  intros ([[kind f] idx] & Heq & _)%list_elem_of_fmap.
  destruct (fact_option_label kind f idx) as (H1 & H2 & H3).
  rewrite <- Heq in *. cbn in *. eauto.
Qed.

Lemma nonempty_truthy s : Py.truthy s = true → nonempty (Some s) = Some s.
Proof. intros H. unfold nonempty. cbn. by rewrite H. Qed.

(** C1. In [edit_fact_flow], when the owner picks a listed option
    [(label, token)], [dm_select_one] resolves with the label, not with the
    token; the label is no integer literal, so [int(chosen)] raises
    [ValueError] and the workflow ends there: no fact is edited and the file
    is left as it was. *)
Theorem edit_choice_resolves_with_label
    (w : World Character) (user : Z) (char : Character)
    (others later : list Click) (c : Click) (rest : list (list Click))
    (label tok : string) :
  w_file w !! Py.str user = Some char →
  w_clicks w = (others ++ c :: later) :: rest →
  Forall (λ c, by_user c ≠ user) others →
  by_user c = user →
  _options_all_facts char !! choice c = Some (label, tok) →
  (choice c < 25)%nat →
  (∃ w', dm_select_one user "Editar Fato" "Escolha o fato para editar"
           (_options_all_facts char) w = (Ok (Some label), w'))
  ∧ label ≠ tok
  ∧ Py.int label = Raise ValueError
  ∧ (∃ w', edit_fact_flow user w = (Raise ValueError, w')
           ∧ w_file w' = w_file w).
Proof.
  intros Hfile Hclicks Hothers Hc Hk Hlt.
  destruct (options_all_facts_label char label tok) as (Hint & Htruthy & idx & ->).
  { by eapply list_elem_of_lookup_2. }
  destruct (dm_select_one_owner user "Editar Fato" "Escolha o fato para editar"
              (_options_all_facts char) others c later rest label (Py.str idx) w
              Hclicks Hothers Hc Hk Hlt) as (w' & Hsel & Hafter).
  split_and!; [by exists w' | | done |].
  - intros Heq. rewrite Heq, int_str in Hint. discriminate.
  - unfold edit_fact_flow. flow. rewrite Hfile.
    destruct (_options_all_facts char) as [|p l] eqn:E; first done.
    rewrite Hsel, nonempty_truthy, Hint by done.
    exists w'. split; first done. apply Hafter.
Qed.

Lemma edit_choice_resolves_with_label_witness :
  (∃ w', dm_select_one 7 "Editar Fato" "Escolha o fato para editar"
           (_options_all_facts Samples.one_fact)
           (Samples.world Samples.one_fact [Some "A2"] [[Samples.pick 0]])
         = (Ok (Some "Passado: A"), w'))
  ∧ "Passado: A" ≠ "0"
  ∧ Py.int "Passado: A" = Raise ValueError
  ∧ (∃ w', edit_fact_flow 7
             (Samples.world Samples.one_fact [Some "A2"] [[Samples.pick 0]])
           = (Raise ValueError, w')
           ∧ w_file w'
             = w_file (Samples.world Samples.one_fact [Some "A2"] [[Samples.pick 0]])).
Proof.
  apply (edit_choice_resolves_with_label
           (Samples.world Samples.one_fact [Some "A2"] [[Samples.pick 0]]) 7
           Samples.one_fact [] [] (Samples.pick 0) [] "Passado: A" "0").
  - by vm_compute.
  - reflexivity.
  - constructor.
  - reflexivity.
  - by vm_compute.
  - cbn. lia.
Defined.

(** Whatever the user does, [edit_fact_flow] never reports success and never
    changes the file. *)
Lemma edit_fact_flow_never_edits (w : World Character) (user : Z) :
  ∃ r w', edit_fact_flow user w = (r, w')
          ∧ w_file w' = w_file w
          ∧ ∀ msg, r ≠ Ok (true, msg).
Proof.
  unfold edit_fact_flow. flow.
  destruct (w_file w !! Py.str user) as [char|]; last by eexists _, _.
  destruct (_options_all_facts char) as [|p l] eqn:E; first by eexists _, _.
  rewrite <- E.
  destruct (dm_select_one_result user "Editar Fato" "Escolha o fato para editar"
              (_options_all_facts char) w) as (r & w' & -> & Hafter & Hr).
  destruct Hr as [-> | (label & desc & Hin & ->)].
  - cbn. eexists _, _. split_and!; [done | apply Hafter | done].
  - destruct (options_all_facts_label char label desc Hin) as (Hint & Htruthy & _).
    rewrite nonempty_truthy, Hint by done.
    eexists _, _. split_and!; [done | apply Hafter | done].
Qed.

(** The same holds for [rupture_fact_flow]. *)
Lemma rupture_fact_flow_never_ruptures (w : World Character) (user : Z) :
  ∃ r w', rupture_fact_flow user w = (r, w')
          ∧ w_file w' = w_file w
          ∧ ∀ msg, r ≠ Ok (true, msg).
Proof.
  unfold rupture_fact_flow. flow.
  destruct (w_file w !! Py.str user) as [char|]; last by eexists _, _.
  destruct (_options_non_ruptured_facts char) as [|p l] eqn:E; first by eexists _, _.
  rewrite <- E.
  destruct (dm_select_one_result user "Ruptura de Fato" "Escolha um fato para romper"
              (_options_non_ruptured_facts char) w) as (r & w' & -> & Hafter & Hr).
  destruct Hr as [-> | (label & desc & Hin & ->)].
  - cbn. eexists _, _. split_and!; [done | apply Hafter | done].
  - destruct (options_non_ruptured_facts_label char label desc Hin)
      as (Hint & Htruthy & _).
    rewrite nonempty_truthy, Hint by done.
    eexists _, _. split_and!; [done | apply Hafter | done].
Qed.

(** C6. In [rupture_fact_flow], when the owner picks a listed option, the
    prompt resolves with its label and [int(chosen)] raises [ValueError]:
    the workflow does not complete, and the stored record is as before (the
    fact is not ruptured, no XP is granted, PV and PM are not restored). *)
Theorem rupture_choice_raises
    (w : World Character) (user : Z) (char : Character)
    (others later : list Click) (c : Click) (rest : list (list Click))
    (label tok : string) :
  w_file w !! Py.str user = Some char →
  w_clicks w = (others ++ c :: later) :: rest →
  Forall (λ c, by_user c ≠ user) others →
  by_user c = user →
  _options_non_ruptured_facts char !! choice c = Some (label, tok) →
  (choice c < 25)%nat →
  ∃ w', rupture_fact_flow user w = (Raise ValueError, w')
        ∧ w_file w' = w_file w
        ∧ w_file w' !! Py.str user = Some char.
Proof.
  intros Hfile Hclicks Hothers Hc Hk Hlt.
  destruct (options_non_ruptured_facts_label char label tok)
    as (Hint & Htruthy & idx & ->).
  { by eapply list_elem_of_lookup_2. }
  destruct (dm_select_one_owner user "Ruptura de Fato" "Escolha um fato para romper"
              (_options_non_ruptured_facts char) others c later rest label
              (Py.str idx) w Hclicks Hothers Hc Hk Hlt) as (w' & Hsel & Hafter).
  unfold rupture_fact_flow. flow. rewrite Hfile.
  destruct (_options_non_ruptured_facts char) as [|p l] eqn:E; first done.
  rewrite Hsel, nonempty_truthy, Hint by done.
  exists w'. destruct Hafter as (Hf & _). split_and!; [done..|].
  by rewrite Hf.
Qed.

Lemma rupture_choice_raises_witness :
  ∃ w', rupture_fact_flow 7 (Samples.world Samples.one_fact [] [[Samples.pick 0]])
        = (Raise ValueError, w')
        ∧ w_file w' = w_file (Samples.world Samples.one_fact [] [[Samples.pick 0]])
        ∧ w_file w' !! Py.str 7 = Some Samples.one_fact.
Proof.
  apply (rupture_choice_raises
           (Samples.world Samples.one_fact [] [[Samples.pick 0]]) 7
           Samples.one_fact [] [] (Samples.pick 0) [] "Passado: A" "0").
  - by vm_compute.
  - reflexivity.
  - constructor.
  - reflexivity.
  - by vm_compute.
  - cbn. lia.
Defined.

(** The end of [rupture_fact_flow] does what the rules ask, had it been given
    the index of the chosen fact: the text is ruptured once, one XP is
    granted, PV and PM are back at their maxima, destiny and the facts are
    untouched. *)
Lemma rupture_fact_apply_effects (w : World Character) data user
    (char : Character) idx :
  0 ≤ idx < total_facts char →
  ∃ fact_text char' w',
    fact_texts char !! Z.to_nat idx = Some fact_text
    ∧ rupture_fact_apply data user char idx w
      = (Ok (true, "Ruptura realizada: fato marcado como rompido, +1 XP e PV/PM restaurados."),
         w')
    ∧ w_file w' = <[Py.str user := char']> data
    ∧ fact_text ∈ get_ruptured_facts char'
    ∧ (NoDup (get_ruptured_facts char) → NoDup (get_ruptured_facts char'))
    ∧ get_xp char' = get_xp char + 1
    ∧ pv (reserves char')
      = {| current := vmax (pv (reserves char)); vmax := vmax (pv (reserves char)) |}
    ∧ pm (reserves char')
      = {| current := vmax (pm (reserves char)); vmax := vmax (pm (reserves char)) |}
    ∧ destiny (reserves char') = destiny (reserves char)
    ∧ facts char' = facts char.
Proof.
  intros Hidx.
  destruct (getitem_in_range (_all_facts_with_index char) idx)
    as ([[kind fact_text] i] & Hx & Hget).
  { by rewrite length_all_facts_with_index. }
  assert (Hfact : fact_texts char !! Z.to_nat idx = Some fact_text).
  { rewrite lookup_all_facts_with_index in Hx.
    rewrite fact_texts_all_facts, list_lookup_fmap.
    destruct (all_facts char !! Z.to_nat idx) as [[k f]|]; last done.
    cbn in *. congruence. }
  unfold rupture_fact_apply. flow. rewrite Hget.
  unfold utc_now_iso, save_data. cbn [w_file].
  exists fact_text. eexists _, _. split; first done.
  split; first reflexivity. split; first reflexivity.
  cbn. split_and!; try done.
  - case_bool_decide; first done. apply elem_of_app. right.
    by apply list_elem_of_singleton.
  - intros Hnd. case_bool_decide; first done.
    apply NoDup_app. split_and!; [done | | apply NoDup_singleton].
    intros x Hx1 ->%list_elem_of_singleton. done.
Qed.

End ChoiceFlows.

(** ** The creation wizard and [created_at] *)

Section Wizard.

(** C8. In [bot.py] and [rpg_core.py] a second run of the wizard stores a
    record whose [created_at] is the clock reading taken when the new record
    was built: the creation time of the record it replaces is lost. *)
Theorem wizard_resets_created_at :
  ∃ char',
    w_file (Bot.criar_personagem 7 Samples.wizard_again).2 !! "7" = Some char'
    ∧ Core.name char' = "Bia"
    ∧ Core.created_at Samples.scenario = "2024-06-01T12:00:00+00:00"
    ∧ Core.created_at char' = "2025-01-01T00:00:00"
    ∧ Core.created_at char' ≠ Core.created_at Samples.scenario.
Proof. eexists. by vm_compute. Qed.

Import Main.

Lemma ask_dm_answered {A} question answer rest (k : string → M Character A)
    (w : World Character) :
  w_replies w = Some answer :: rest →
  Py.strip answer ≠ "" →
  (ask_dm question ≫= k) w
  = k (Py.strip answer)
      {| w_file := w_file w; w_sessions := w_sessions w; w_clock := w_clock w;
         w_tick := w_tick w; w_replies := rest; w_clicks := w_clicks w;
         w_out := w_out w ++ [DmSend question None] |}.
Proof.
  intros Hreplies Hanswer. unfold ask_dm. flow.
  unfold send, wait_message. cbn [w_replies]. rewrite Hreplies.
  cbn [first_accepted].
  destruct (String.eqb_spec (Py.strip answer) "") as [|_]; done.
Qed.

(** The wizard of [main.py] keeps the creation time of the record it
    replaces. *)
Lemma personagem_criar_keeps_created_at (w : World Character)
    (interaction : Interaction) (a1 a2 a3 a4 a5 a6 a7 : string)
    (rest : list (option string)) (prior : Character) (stamp : string) :
  w_sessions w !! id (user interaction) = None →
  w_replies w
  = Some a1 :: Some a2 :: Some a3 :: Some a4 :: Some a5 :: Some a6 :: Some a7 :: rest →
  Forall (λ a, Py.strip a ≠ "") [a1; a2; a3; a4; a5; a6; a7] →
  w_file w !! Py.str (id (user interaction)) = Some prior →
  created_at prior = Some stamp →
  ∃ char' w',
    personagem_criar interaction w = (Ok tt, w')
    ∧ w_file w' = <[Py.str (id (user interaction)) := char']> (w_file w)
    ∧ created_at char' = Some stamp
    ∧ name char' = Some (Py.strip a1)
    ∧ flatten_facts char' = Py.strip <$> [a2; a3; a4; a5; a6]
    ∧ flaw char' = Some (Py.strip a7)
    ∧ xp char' = Some 0
    ∧ ruptured_facts char' = Some [].
Proof.
  intros Hsession Hreplies Hanswers Hfile Hstamp.
  repeat match goal with
         | H : Forall _ (_ :: _) |- _ => apply Forall_cons in H as [? H]
         end.
  destruct w as [file sessions clock tick replies clicks out].
  cbn [w_sessions w_replies w_file] in *. subst replies.
  unfold personagem_criar.
  unfold mbind at 1, M_bind at 1, Sys.bind at 1, session_get at 1.
  cbn [w_sessions]. rewrite Hsession. cbn [default].
  unfold mbind at 1, M_bind at 1, Sys.bind at 1, session_set at 1.
  unfold mbind at 1, M_bind at 1, Sys.bind at 1, respond at 1, send at 1.
  unfold try_finally, try_except.
  repeat match goal with
         | Ha : Py.strip ?a ≠ "" |- context [(ask_dm ?q ≫= ?k) ?w0] =>
             rewrite (ask_dm_answered q a _ k w0 eq_refl Ha); cbv beta;
             cbn [w_file w_sessions w_clock w_tick w_replies w_clicks w_out];
             clear Ha
         end.
  flow.
  cbn [w_file w_clock w_tick]. unfold utc_now_iso, save_data, send, session_pop.
  cbn [w_file w_clock w_tick]. rewrite Hfile. cbn [mbind option_bind].
  rewrite Hstamp. cbn [default].
  eexists _, _. split; first reflexivity. split; first reflexivity.
  by split_and!.
Qed.

Example old_wizard_keeps_created_at :
  ∃ char',
    w_file (personagem_criar Samples.by_ana Samples.old_wizard_again).2 !! "7"
    = Some char'
    ∧ name char' = Some "Bia"
    ∧ created_at char' = Some "2024-06-01T12:00:00+00:00".
Proof. eexists. by vm_compute. Qed.

End Wizard.

(** * Further properties *)

(** ** Archetypes *)

Section Archetypes.
Import Core.

(** X1. Applying an archetype of the catalogue fills PV and PM to the
    catalogue values, puts destiny back at 2/2, sets the base damage, leaves
    facts, XP and ruptures alone, and applying the same key again changes
    nothing more. *)
Theorem apply_archetype_resets (character : Character) (key : string)
    (arch : Archetype) :
  ARCHETYPES !! key = Some arch →
  ∃ c',
    apply_archetype character key = Ok c'
    ∧ archetype c' = key
    ∧ pv (reserves c') = {| current := a_pv arch; vmax := a_pv arch |}
    ∧ pm (reserves c') = {| current := a_pm arch; vmax := a_pm arch |}
    ∧ destiny (reserves c') = {| current := 2; vmax := 2 |}
    ∧ damage_base c'
      = {| physical := dano_fisico_base arch; magic_bonus := bonus_magico arch |}
    ∧ facts c' = facts character
    ∧ xp c' = xp character
    ∧ ruptured_facts c' = ruptured_facts character
    ∧ apply_archetype c' key = Ok c'.
Proof.
  intros Hkey. unfold apply_archetype, archetype_of. rewrite Hkey.
  cbn [res_bind]. eexists. split; first reflexivity.
  by split_and!.
Qed.

Lemma apply_archetype_resets_witness :
  ∃ c',
    apply_archetype Samples.scenario "conjurador" = Ok c'
    ∧ archetype c' = "conjurador"
    ∧ pv (reserves c') = {| current := 4; vmax := 4 |}
    ∧ pm (reserves c') = {| current := 5; vmax := 5 |}
    ∧ destiny (reserves c') = {| current := 2; vmax := 2 |}
    ∧ damage_base c' = {| physical := 1; magic_bonus := 1 |}
    ∧ facts c' = facts Samples.scenario
    ∧ xp c' = xp Samples.scenario
    ∧ ruptured_facts c' = ruptured_facts Samples.scenario
    ∧ apply_archetype c' "conjurador" = Ok c'.
Proof.
  apply (apply_archetype_resets Samples.scenario "conjurador"
           {| a_label := "Conjurador"; a_pv := 4; a_pm := 5;
              dano_fisico_base := 1; bonus_magico := 1 |}).
  by vm_compute.
Defined.

(** X2. A key outside the catalogue makes [apply_archetype] raise
    [KeyError]; the keys of [ARCHETYPE_ORDER] are all in the catalogue. *)
Theorem apply_archetype_unknown (character : Character) (key : string) :
  key ∉ ARCHETYPE_ORDER →
  apply_archetype character key = Raise KeyError
  ∧ ∀ known, known ∈ ARCHETYPE_ORDER →
      ∃ c', apply_archetype character known = Ok c'.
Proof.
  intros Hkey. split.
  - unfold apply_archetype, archetype_of.
    destruct (ARCHETYPES !! key) as [a|] eqn:Ha; last done.
    exfalso. apply Hkey.
    apply (elem_of_dom_2 (D := gset string)) in Ha.
    revert Ha. unfold ARCHETYPES, ARCHETYPE_ORDER.
    rewrite dom_list_to_map_L. cbn [fmap list_fmap fst].
    rewrite elem_of_list_to_set. done.
  - intros known Hknown. unfold ARCHETYPE_ORDER in Hknown.
    repeat (apply elem_of_cons in Hknown as [-> | Hknown]; first by eexists).
    by apply elem_of_nil in Hknown.
Qed.

Lemma apply_archetype_unknown_witness :
  apply_archetype Samples.scenario "bardo" = Raise KeyError
  ∧ ∀ known, known ∈ ARCHETYPE_ORDER →
      ∃ c', apply_archetype Samples.scenario known = Ok c'.
Proof.
  apply (apply_archetype_unknown Samples.scenario "bardo").
  unfold ARCHETYPE_ORDER. intros H.
  repeat (apply elem_of_cons in H as [H | H]; first discriminate H).
  by apply elem_of_nil in H.
Defined.

End Archetypes.

(** ** Edges of the fact helpers of [rpg_core.py]; labels *)

Section CoreEdges.
Import Core.

(** X3. A negative index never gets [None] from
    [_set_fact_by_global_index]: the first bucket is always taken, where
    the index counts from the end of the past facts; beyond their number
    the call raises [IndexError]. *)
Theorem set_fact_negative_index (char : Character) (i : Z) (t : string) :
  i < 0 →
  let past_ := past (facts char) in
  (- Py.len past_ ≤ i →
   ∃ old, past_ !! Z.to_nat (Py.len past_ + i) = Some old
          ∧ _set_fact_by_global_index char i t
            = Ok (Some old,
                  with_bucket char Past (<[Z.to_nat (Py.len past_ + i) := t]> past_)))
  ∧ (i < - Py.len past_ → _set_fact_by_global_index char i t = Raise IndexError).
Proof.
  intros Hi past_. subst past_.
  pose proof (len_nonneg (past (facts char))) as Hp.
  unfold _set_fact_by_global_index, KINDS. cbn [set_fact_loop bucket].
  rewrite bool_decide_eq_true_2 by lia.
  replace (i - 0) with i by lia.
  unfold getitem, setitem, norm_index.
  rewrite bool_decide_eq_false_2 by lia.
  split; intros Hrange.
  - rewrite bool_decide_eq_true_2 by lia. cbn [mbind option_bind].
    destruct (lookup_lt_is_Some_2 (past (facts char))
                (Z.to_nat (len (past (facts char)) + i))) as [old Hold].
    { unfold len in *. lia. }
    exists old. by rewrite Hold.
  - by rewrite bool_decide_eq_false_2 by lia.
Qed.

Lemma set_fact_negative_index_witness :
  (- Py.len (past (facts Samples.scenario)) ≤ -1 →
   ∃ old, past (facts Samples.scenario)
            !! Z.to_nat (Py.len (past (facts Samples.scenario)) + -1) = Some old
          ∧ _set_fact_by_global_index Samples.scenario (-1) "X"
            = Ok (Some old,
                  with_bucket Samples.scenario Past
                    (<[Z.to_nat (Py.len (past (facts Samples.scenario)) + -1) := "X"]>
                       (past (facts Samples.scenario)))))
  ∧ (-1 < - Py.len (past (facts Samples.scenario)) →
     _set_fact_by_global_index Samples.scenario (-1) "X" = Raise IndexError).
Proof. apply (set_fact_negative_index Samples.scenario (-1) "X"). lia. Defined.


End CoreEdges.

Section Labels.







End Labels.

(** ** Reserves, missing sheets and the file in [rpg_core.py] *)

Section Reserves.
Import Core.

(** X6. [set_reserve] reads the gauge name without regard to case or
    surrounding blanks, and stores the new value clamped between 0 and the
    maximum of the gauge; the maximum, the other two gauges, the facts, the
    ruptures and the XP stay as they were. *)
Theorem set_reserve_clamps (w : World Character) (owner_id : Z)
    (reserve_key : string) (key : ReserveKey) (new_current_value : Z)
    (char : Character) :
  reserve_of_key (Py.lower (Py.strip reserve_key)) = Some key →
  w_file w !! Py.str owner_id = Some char →
  ∃ msg w' char',
    set_reserve owner_id reserve_key new_current_value w = (Ok (true, msg), w')
    ∧ w_file w' = <[Py.str owner_id := char']> (w_file w)
    ∧ current (get_reserve char' key)
      = 0 `max` (vmax (get_reserve char key) `min` new_current_value)
    ∧ vmax (get_reserve char' key) = vmax (get_reserve char key)
    ∧ (0 ≤ vmax (get_reserve char key) →
       0 ≤ current (get_reserve char' key) ≤ vmax (get_reserve char' key))
    ∧ (∀ k, k ≠ key → get_reserve char' k = get_reserve char k)
    ∧ facts char' = facts char
    ∧ ruptured_facts char' = ruptured_facts char
    ∧ xp char' = xp char.
Proof.
  intros Hkey Hfile. unfold set_reserve. cbv zeta. rewrite Hkey. flow.
  rewrite Hfile. unfold utc_now_iso, save_data. cbn [w_file].
  eexists _, _, _. split; first reflexivity. split; first reflexivity.
  destruct key; cbn; split_and!; try done; try lia;
    intros k Hk; by destruct k.
Qed.

Lemma set_reserve_clamps_witness :
  ∃ msg w' char',
    set_reserve 7 " PV " 9 (Samples.world Samples.scenario [] [])
    = (Ok (true, msg), w')
    ∧ w_file w' = <[Py.str 7 := char']> (w_file (Samples.world Samples.scenario [] []))
    ∧ current (get_reserve char' PV)
      = 0 `max` (vmax (get_reserve Samples.scenario PV) `min` 9)
    ∧ vmax (get_reserve char' PV) = vmax (get_reserve Samples.scenario PV)
    ∧ (0 ≤ vmax (get_reserve Samples.scenario PV) →
       0 ≤ current (get_reserve char' PV) ≤ vmax (get_reserve char' PV))
    ∧ (∀ k, k ≠ PV → get_reserve char' k = get_reserve Samples.scenario k)
    ∧ facts char' = facts Samples.scenario
    ∧ ruptured_facts char' = ruptured_facts Samples.scenario
    ∧ xp char' = xp Samples.scenario.
Proof.
  apply (set_reserve_clamps (Samples.world Samples.scenario [] []) 7 " PV " PV 9
           Samples.scenario); by vm_compute.
Defined.






(** X10. A sheet saved for a user is the sheet read back for that user, and
    saving it does not change what is read for any other user. *)
Theorem save_then_get (w : World Character) (owner_id other : Z)
    (char : Character) :
  other ≠ owner_id →
  (get_character owner_id (save_character owner_id char w).2).1 = Ok (Some char)
  ∧ (get_character other (save_character owner_id char w).2).1
    = (get_character other w).1.
Proof.
  intros Hother. unfold get_character, save_character. flow.
  unfold save_data. cbn [w_file fst snd]. split.
  - by rewrite lookup_insert_eq.
  - rewrite lookup_insert_ne; first done.
    intros Heq. apply Hother. symmetry. by apply str_inj.
Qed.

Lemma save_then_get_witness :
  (get_character 7 (save_character 7 Samples.one_fact
                      (Samples.world Samples.scenario [] [])).2).1
  = Ok (Some Samples.one_fact)
  ∧ (get_character 8 (save_character 7 Samples.one_fact
                        (Samples.world Samples.scenario [] [])).2).1
    = (get_character 8 (Samples.world Samples.scenario [] [])).1.
Proof.
  apply (save_then_get (Samples.world Samples.scenario [] []) 7 8 Samples.one_fact).
  lia.
Defined.

End Reserves.

(** ** The prompts of [rpg_core.py] *)

Section Prompts.
Import Core.

Lemma select_callback_others user confirm menu clicks (w : World Character) :
  Forall (λ c, by_user c ≠ user) clicks →
  ∃ w', select_callback user confirm menu clicks w = (Ok None, w')
        ∧ same_but_out w w'
        ∧ w_out w' = w_out w
                     ++ replicate (length clicks) (Respond "Esse menu não é seu." None).
Proof.
  intros Hothers. revert w.
  induction Hothers as [|c clicks Hc _ IH]; intros w; cbn [select_callback].
  - exists w. split_and!; [done | apply same_but_out_refl |].
    cbn. by rewrite app_nil_r.
  - rewrite bool_decide_eq_true_2 by done. flow. cbn [send].
    match goal with
    | |- context [select_callback _ _ _ _ ?w0] =>
        destruct (IH w0) as (w' & -> & Hsame & Hout)
    end.
    exists w'. split_and!; first done.
    + eapply same_but_out_trans; [|done]. by repeat split.
    + rewrite Hout. cbn [w_out length replicate]. by rewrite <- app_assoc.
Qed.

(** X11. A single-choice prompt that only other users click, or nobody,
    resolves with no answer when it times out; every such click is answered
    with the notice that the menu is not theirs, and apart from the messages
    sent the world is as before. *)
Theorem prompt_ignores_other_users (w : World Character) (user : Z)
    (title placeholder : string) (option_tuples : list (string * string))
    (clicks : list Click) (rest : list (list Click)) :
  w_clicks w = clicks :: rest →
  Forall (λ c, by_user c ≠ user) clicks →
  ∃ w',
    dm_select_one user title placeholder option_tuples w = (Ok None, w')
    ∧ after_menu w w'
    ∧ w_out w'
      = w_out w
        ++ DmSend ("**" +:+ title +:+ "**")
             (Some {| placeholder := placeholder;
                      options := select_options option_tuples |})
        :: replicate (length clicks) (Respond "Esse menu não é seu." None).
Proof.
  intros Hclicks Hothers. unfold dm_select_one. flow. cbn [send].
  unfold wait_clicks at 1. cbn [w_clicks]. rewrite Hclicks.
  match goal with
  | |- context [select_callback _ ?cf ?menu _ ?w0] =>
      destruct (select_callback_others user cf menu clicks w0 Hothers)
        as (w' & -> & Hsame & Hout)
  end.
  exists w'. split; first done. split.
  - destruct Hsame as (?&?&?&?&?&?). repeat split; try done. by rewrite Hclicks.
  - rewrite Hout. cbn [w_out]. by rewrite <- app_assoc.
Qed.

Lemma prompt_ignores_other_users_witness :
  ∃ w',
    dm_select_one 7 "Editar Fato" "Escolha o fato para editar"
      (_options_all_facts Samples.one_fact)
      (Samples.world Samples.one_fact [] [[{| by_user := 9; choice := 0 |}]])
    = (Ok None, w')
    ∧ after_menu
        (Samples.world Samples.one_fact [] [[{| by_user := 9; choice := 0 |}]]) w'
    ∧ w_out w'
      = w_out (Samples.world Samples.one_fact [] [[{| by_user := 9; choice := 0 |}]])
        ++ DmSend ("**" +:+ "Editar Fato" +:+ "**")
             (Some {| placeholder := "Escolha o fato para editar";
                      options := select_options (_options_all_facts Samples.one_fact) |})
        :: replicate (length [{| by_user := 9; choice := 0 |}])
             (Respond "Esse menu não é seu." None).
Proof.
  apply (prompt_ignores_other_users
           (Samples.world Samples.one_fact [] [[{| by_user := 9; choice := 0 |}]])
           7 "Editar Fato" "Escolha o fato para editar"
           (_options_all_facts Samples.one_fact)
           [{| by_user := 9; choice := 0 |}] []).
  - reflexivity.
  - constructor; [cbn; lia | constructor].
Defined.

(** The menu of [dm_select_archetype]: its entries carry the keys of
    [ARCHETYPE_ORDER] as values. *)
Lemma archetype_menu :
  ∃ menu,
    value <$> menu = ARCHETYPE_ORDER
    ∧ ∀ user (w : World Character),
        dm_select_archetype user w
        = (send (DmSend "**Selecione seu Arquétipo**"
                   (Some {| placeholder := "Escolha seu Arquétipo"; options := menu |}));;
           clicks ← wait_clicks;
           select_callback user
             (λ v, Py.res_bind (archetype_of v)
                     (λ a, Ok ("✅ Arquétipo: **" +:+ a_label a +:+ "**")))
             menu clicks) w.
Proof.
  eexists. split; last first.
  - intros user w. unfold dm_select_archetype. flow.
    match goal with
    | |- context [foldr ?f (Ok []) ARCHETYPE_ORDER] =>
        let v := eval vm_compute in (foldr f (Ok []) ARCHETYPE_ORDER) in
        change (foldr f (Ok []) ARCHETYPE_ORDER) with v
    end.
    reflexivity.
  - reflexivity.
Qed.

(** X12. The archetype prompt never raises and resolves with no answer or
    with a key of [ARCHETYPE_ORDER]; [apply_archetype] accepts every key it
    can resolve with. *)
Theorem archetype_prompt_gives_catalogue_key (w : World Character) (user : Z) :
  ∃ r w',
    dm_select_archetype user w = (Ok r, w')
    ∧ after_menu w w'
    ∧ (r = None
       ∨ ∃ key, r = Some key ∧ key ∈ ARCHETYPE_ORDER
                ∧ ∀ character, ∃ c', apply_archetype character key = Ok c').
Proof.
  destruct archetype_menu as (menu & Hvalues & Hmenu).
  rewrite Hmenu. flow. cbn [send].
  unfold wait_clicks at 1. cbn [w_clicks].
  assert (Hkeys : ∀ o, o ∈ menu → value o ∈ ARCHETYPE_ORDER).
  { intros o Ho. rewrite <- Hvalues. by apply list_elem_of_fmap_2. }
  assert (Hknown : ∀ key, key ∈ ARCHETYPE_ORDER →
            ∃ a, archetype_of key = Ok a).
  { intros key Hkey. unfold ARCHETYPE_ORDER in Hkey.
    repeat (apply elem_of_cons in Hkey as [-> | Hkey]; first by eexists).
    by apply elem_of_nil in Hkey. }
  destruct (w_clicks w) as [|cs rest] eqn:Hclicks.
  - cbn [select_callback]. flow. exists None. eexists.
    split_and!; [reflexivity | | by left].
    unfold after_menu. cbn. by rewrite Hclicks.
  - match goal with
    | |- context [select_callback _ ?cf ?mn ?cl ?w0] =>
        destruct (select_callback_result user cf mn cl w0)
          as (r & w' & -> & Hsame & Hr)
    end.
    { intros o Ho. destruct (Hknown _ (Hkeys o Ho)) as [a ->]. cbn. eauto. }
    exists r, w'. split; first done. split.
    + destruct Hsame as (?&?&?&?&?&?). repeat split; try done. by rewrite Hclicks.
    + destruct Hr as [-> | (o & Ho & ->)]; first by left.
      right. exists (value o). split_and!; [done | by apply Hkeys |].
      intros character. unfold apply_archetype.
      destruct (Hknown _ (Hkeys o Ho)) as [a ->]. cbn. eauto.
Qed.

(** X13. When the owner picks entry k of the archetype menu, the prompt
    resolves with the k-th key of [ARCHETYPE_ORDER] (the value of the entry,
    not its label). *)
Theorem archetype_prompt_owner (w : World Character) (user : Z)
    (others later : list Click) (c : Click) (rest : list (list Click))
    (key : string) :
  w_clicks w = (others ++ c :: later) :: rest →
  Forall (λ c, by_user c ≠ user) others →
  by_user c = user →
  ARCHETYPE_ORDER !! choice c = Some key →
  ∃ w', dm_select_archetype user w = (Ok (Some key), w') ∧ after_menu w w'.
Proof.
  intros Hclicks Hothers Hc Hkey.
  destruct archetype_menu as (menu & Hvalues & Hmenu).
  rewrite Hmenu. flow. cbn [send].
  unfold wait_clicks at 1. cbn [w_clicks]. rewrite Hclicks.
  assert (Ho : ∃ o, menu !! choice c = Some o ∧ value o = key).
  { rewrite <- Hvalues, list_lookup_fmap in Hkey.
    destruct (menu !! choice c) as [o|]; last done.
    exists o. split; first done. cbn in Hkey. congruence. }
  destruct Ho as (o & Ho & Hv).
  assert (Hconfirm : ∃ content,
            Py.res_bind (archetype_of (value o))
              (λ a, Ok ("✅ Arquétipo: **" +:+ a_label a +:+ "**")) = Ok content).
  { rewrite Hv. apply list_elem_of_lookup_2 in Hkey. unfold ARCHETYPE_ORDER in Hkey.
    repeat (apply elem_of_cons in Hkey as [-> | Hkey]; first by eexists).
    by apply elem_of_nil in Hkey. }
  destruct Hconfirm as [content Hconfirm].
  match goal with
  | |- context [select_callback _ ?cf ?mn _ ?w0] =>
      destruct (select_callback_owner user cf mn others c later o content w0
                  Hothers Hc Ho Hconfirm) as (w' & -> & Hsame)
  end.
  rewrite Hv. exists w'. split; first done.
  destruct Hsame as (?&?&?&?&?&?). repeat split; try done. by rewrite Hclicks.
Qed.

Lemma archetype_prompt_owner_witness :
  ∃ w', dm_select_archetype 7 (Samples.world Samples.scenario [] [[Samples.pick 4]])
        = (Ok (Some "conjurador"), w')
        ∧ after_menu (Samples.world Samples.scenario [] [[Samples.pick 4]]) w'.
Proof.
  apply (archetype_prompt_owner (Samples.world Samples.scenario [] [[Samples.pick 4]])
           7 [] [] (Samples.pick 4) [] "conjurador").
  - reflexivity.
  - constructor.
  - reflexivity.
  - reflexivity.
Defined.

End Prompts.

(** ** Buying a new fact in [rpg_core.py] *)

Section NewFact.
Import Core.


(** A text prompt never raises and touches neither the file, the sessions,
    the clock nor the pending clicks. *)
Lemma dm_ask_text_result prompt (w : World Character) :
  ∃ r w', dm_ask_text prompt w = (Ok r, w')
          ∧ w_file w' = w_file w ∧ w_sessions w' = w_sessions w
          ∧ w_clock w' = w_clock w ∧ w_tick w' = w_tick w
          ∧ w_clicks w' = w_clicks w.
Proof.
  unfold dm_ask_text. flow. unfold send, wait_message. cbn [w_replies].
  destruct (first_accepted (λ _, true) (w_replies w)) as [r rest].
  by eexists _, _.
Qed.

Lemma kind_of_label_kind_label kind : kind_of_label (kind_label kind) = Ok kind.
Proof. by destruct kind. Qed.



(** X15. [add_fact_with_xp] never raises, and whenever it does not report
    success (no sheet, too little XP, no timeline picked, no text given)
    the file is left as it was: no XP is spent without a fact being added. *)
Theorem add_fact_with_xp_all_or_nothing (w : World Character) (user : Z) :
  ∃ ok msg w',
    add_fact_with_xp user w = (Ok (ok, msg), w')
    ∧ (ok = false → w_file w' = w_file w)
    ∧ (ok = true →
       ∃ char char' kind txt,
         w_file w !! Py.str user = Some char
         ∧ w_file w' = <[Py.str user := char']> (w_file w)
         ∧ txt ≠ ""
         ∧ bucket char' kind = bucket char kind ++ [txt]
         ∧ get_xp char' = get_xp char - XP_COST_NEW_FACT
         ∧ 0 ≤ get_xp char').
Proof.
  unfold add_fact_with_xp. flow.
  destruct (w_file w !! Py.str user) as [char|] eqn:Hfile;
    last by eexists _, _, _.
  case_bool_decide as Hxp; first by eexists _, _, _.
  match goal with
  | |- context [dm_select_one user ?t ?p ?opts w] =>
      destruct (dm_select_one_result user t p opts w)
        as (r & w1 & -> & Hafter & Hr)
  end.
  destruct Hafter as (Hf1 & _).
  destruct Hr as [-> | (label & desc & Hin & ->)].
  { cbn. by eexists _, _, _. }
  assert (Hkind : ∃ kind, label = kind_label kind).
  { repeat (apply elem_of_cons in Hin as [Hin | Hin];
            first (injection Hin as -> _;
                   first [by exists Past | by exists Present | by exists Future])).
    by apply elem_of_nil in Hin. }
  destruct Hkind as [kind ->].
  rewrite nonempty_truthy by (by destruct kind).
  rewrite kind_of_label_kind_label.
  match goal with
  | |- context [dm_ask_text ?p w1] =>
      destruct (dm_ask_text_result p w1) as (r2 & w2 & -> & Hf2 & _)
  end.
  destruct (nonempty r2) as [txt|] eqn:Hr2.
  - unfold utc_now_iso, save_data. cbn [w_file w_clock w_tick].
    eexists true, _, _. split; first reflexivity. split; first done.
    intros _. eexists char, _, kind, txt. split; first done.
    split; first reflexivity.
    unfold nonempty in Hr2. destruct r2 as [s|]; last done. cbn in Hr2.
    destruct (Py.truthy s) eqn:Hs; last done. injection Hr2 as ->.
    apply truthy_nonempty in Hs.
    unfold XP_COST_NEW_FACT in *.
    destruct kind; cbn; split_and!; try done; lia.
  - eexists false, _, _. split; first reflexivity. split; last done.
    intros _. congruence.
Qed.

End NewFact.

(** ** What the wizard touches and what it returns *)

Section Frames.
Context {C : Type}.

Lemma keeps_ret {X A} (f : World C → X) (a : A) : Keeps f (mret a).
Proof. by intros w. Qed.

Lemma keeps_bind {X A B} (f : World C → X) (m : M C A) (k : A → M C B) :
  Keeps f m → (∀ a, Keeps f (k a)) → Keeps f (m ≫= k).
Proof.
  intros Hm Hk w. unfold mbind, M_bind, Sys.bind.
  specialize (Hm w). destruct (m w) as [[a|e] w1]; cbn [snd] in *.
  - by rewrite Hk.
  - done.
Qed.

Lemma keeps_lift {X A} (f : World C → X) (r : Res A) : Keeps f (lift r).
Proof. by intros w. Qed.

Lemma keeps_raise {X A} (f : World C → X) (e : Exn) : Keeps f (raise (A := A) e).
Proof. by intros w. Qed.

Lemma keeps_send (o : Output) : Keeps (C := C) stored (send o).
Proof. by intros w. Qed.

Lemma keeps_utc_now_iso : Keeps (C := C) stored utc_now_iso.
Proof. by intros w. Qed.

Lemma keeps_wait_message check : Keeps (C := C) stored (wait_message check).
Proof.
  intros w. unfold wait_message.
  by destruct (first_accepted check (w_replies w)).
Qed.

Lemma keeps_wait_clicks : Keeps (C := C) stored wait_clicks.
Proof. intros w. unfold wait_clicks. by destruct (w_clicks w). Qed.

Lemma keeps_load_data {X} (f : World C → X) : Keeps f load_data.
Proof. by intros w. Qed.

Lemma keeps_try_except {X A} (f : World C → X) (body handler : M C A) exn :
  Keeps f body → Keeps f handler → Keeps f (try_except body exn handler).
Proof.
  intros Hb Hh w. unfold try_except. specialize (Hb w).
  destruct (body w) as [[a|e] w1]; cbn [snd] in *; first done.
  case_bool_decide; last done. by rewrite Hh.
Qed.

Lemma post_ret {A} (a : A) (Q : A → Prop) : Q a → Post (C := C) (mret a) Q.
Proof. intros H w a' w' [= <- _]. done. Qed.

Lemma post_bind {A B} (m : M C A) (k : A → M C B) (Q1 : A → Prop) (Q : B → Prop) :
  Post m Q1 → (∀ a, Q1 a → Post (k a) Q) → Post (m ≫= k) Q.
Proof.
  intros Hm Hk w b w'. unfold mbind, M_bind, Sys.bind.
  destruct (m w) as [[a|e] w1] eqn:E; last done.
  intros Hrun. eapply Hk; last done. by eapply Hm.
Qed.

Lemma post_any {A} (m : M C A) : Post m (λ _, True).
Proof. by intros w a w' _. Qed.

Lemma post_lift {A} (r : Res A) (Q : A → Prop) :
  (∀ a, r = Ok a → Q a) → Post (C := C) (lift r) Q.
Proof. intros H w a w' [= -> _]. by apply H. Qed.

Lemma post_try_finally {A} (body : M C A) (cleanup : M C unit) (Q : A → Prop) :
  Post body Q → Post (try_finally body cleanup) Q.
Proof.
  intros Hb w a w'. unfold try_finally.
  destruct (body w) as [r w1] eqn:E.
  destruct (cleanup w1) as [[[]|e] w2]; last done.
  intros [= -> _]. by eapply Hb.
Qed.

End Frames.

Section WizardFrames.
Import Core.

(** Applies the framing lemmas down a handler. *)
Ltac keeps :=
  repeat first
    [ apply keeps_ret | apply keeps_lift | apply keeps_raise | apply keeps_send
    | apply keeps_utc_now_iso | apply keeps_wait_message | apply keeps_wait_clicks
    | apply keeps_load_data
    | apply keeps_bind; [| intros ?]
    | match goal with
      | |- Keeps _ (match ?x with _ => _ end) => destruct x
      | |- Keeps _ (let '(_, _) := ?x in _) => destruct x
      end ].

Lemma keeps_dm_ask_text prompt : Keeps stored (dm_ask_text prompt).
Proof. unfold dm_ask_text. keeps. Qed.

Lemma keeps_select_callback user confirm menu clicks :
  Keeps stored (select_callback user confirm menu clicks).
Proof.
  induction clicks as [|c clicks IH]; cbn [select_callback]; first keeps.
  case_bool_decide; [keeps; apply IH|].
  destruct (menu !! choice c); [keeps | apply IH].
Qed.

Lemma keeps_dm_select_one user title placeholder option_tuples :
  Keeps stored (dm_select_one user title placeholder option_tuples).
Proof. unfold dm_select_one. keeps. apply keeps_select_callback. Qed.

Lemma keeps_dm_select_archetype user : Keeps stored (dm_select_archetype user).
Proof.
  destruct archetype_menu as (menu & _ & Hmenu). intros w. rewrite Hmenu.
  revert w. change (Keeps stored
    (send (DmSend "**Selecione seu Arquétipo**"
             (Some {| placeholder := "Escolha seu Arquétipo"; options := menu |}));;
     clicks ← wait_clicks;
     select_callback user
       (λ v, Py.res_bind (archetype_of v)
               (λ a, Ok ("✅ Arquétipo: **" +:+ a_label a +:+ "**")))
       menu clicks)).
  keeps. apply keeps_select_callback.
Qed.

Lemma keeps_ask_facts kind prompts char : Keeps stored (ask_facts kind prompts char).
Proof.
  revert char. induction prompts as [|p prompts IH]; intros char; cbn [ask_facts].
  - keeps.
  - apply keeps_bind; [apply keeps_dm_ask_text | intros txt].
    destruct (nonempty txt); [apply IH | keeps].
Qed.

Lemma keeps_wizard_body user : Keeps stored (wizard_body user).
Proof.
  unfold wizard_body, make_new_character_schema.
  repeat first
    [ apply keeps_dm_ask_text | apply keeps_dm_select_one
    | apply keeps_dm_select_archetype | apply keeps_ask_facts
    | apply keeps_ret | apply keeps_lift | apply keeps_send | apply keeps_utc_now_iso
    | apply keeps_bind; [| intros ?]
    | match goal with
      | |- Keeps _ (match ?x with _ => _ end) => destruct x
      end ].
Qed.

Lemma run_character_wizard_keeps_file (w : World Character) (user : Z) :
  w_file (run_character_wizard user w).2 = w_file w.
Proof.
  unfold run_character_wizard, session_get. flow.
  destruct (default false (w_sessions w !! user)); first done.
  unfold session_set, try_finally, session_pop.
  match goal with
  | |- context [wizard_body user ?w0] =>
      pose proof (keeps_wizard_body user w0) as Hkeeps;
      destruct (wizard_body user w0) as [r w1]
  end.
  unfold stored in Hkeeps. cbn [snd w_file w_sessions] in *. congruence.
Qed.

(** X16. The wizard of [rpg_core.py] writes nothing to the file, and however
    it ends (sheet returned, cancelled, timed out, or an exception) the
    session flag of the user is cleared afterwards; while a session of the
    user is active a second wizard returns at once with nothing, sends
    nothing and leaves the flag set. *)
Theorem wizard_releases_session (w : World Character) (user : Z) :
  w_file (run_character_wizard user w).2 = w_file w
  ∧ (default false (w_sessions w !! user) = false →
     w_sessions (run_character_wizard user w).2 = delete user (w_sessions w))
  ∧ (default false (w_sessions w !! user) = true →
     run_character_wizard user w = (Ok None, w)).
Proof.
  unfold run_character_wizard, session_get. flow.
  destruct (default false (w_sessions w !! user)) eqn:Hactive.
  { by split_and!. }
  unfold session_set, try_finally, session_pop.
  match goal with
  | |- context [wizard_body user ?w0] =>
      pose proof (keeps_wizard_body user w0) as Hkeeps;
      destruct (wizard_body user w0) as [r w1]
  end.
  unfold stored in Hkeeps. cbn [snd w_file w_sessions] in *.
  injection Hkeeps as Hf Hs. split_and!; [done | | done].
  intros _. rewrite Hs. apply map_eq. intros u.
  destruct (decide (u = user)) as [->|Hne].
  - by rewrite !lookup_delete_eq.
  - by rewrite !lookup_delete_ne, lookup_insert_ne.
Qed.

(** X17. [criar_personagem] changes the file only when the wizard returns a
    sheet, and then only the entry of the user, which becomes that sheet: a
    wizard that is cancelled or times out midway leaves no partial record. *)
Theorem criar_personagem_saves_only_complete (w : World Character) (user : Z) :
  ∃ r w1,
    run_character_wizard user
      (send (Respond "Te chamei na DM para criar sua ficha. 📩" None) w).2 = (r, w1)
    ∧ w_file (Bot.criar_personagem user w).2
      = match r with
        | Ok (Some char) => <[Py.str user := char]> (w_file w)
        | _ => w_file w
        end.
Proof.
  unfold Bot.criar_personagem. flow. cbn [send snd].
  match goal with
  | |- context [run_character_wizard user ?w0] =>
      pose proof (run_character_wizard_keeps_file w0 user) as Hf;
      destruct (run_character_wizard user w0) as [r w1]
  end.
  cbn [snd w_file] in Hf. exists r, w1. split; first done.
  destruct r as [[char|]|e]; cbn; try done.
  unfold save_character. flow. unfold save_data. cbn. by rewrite Hf.
Qed.

Lemma nonempty_Some r s : nonempty r = Some s → r = Some s ∧ s ≠ "".
Proof.
  unfold nonempty. destruct r as [t|]; last done. cbn.
  destruct (Py.truthy t) eqn:Ht; last done. intros [= ->].
  by apply truthy_nonempty in Ht.
Qed.

Lemma post_select_callback user confirm menu clicks :
  Post (select_callback user confirm menu clicks)
    (λ r, r = None ∨ ∃ o, o ∈ menu ∧ r = Some (value o)).
Proof.
  induction clicks as [|c clicks IH]; cbn [select_callback].
  - apply post_ret. by left.
  - case_bool_decide.
    + eapply post_bind; [apply post_any | intros _ _; apply IH].
    + destruct (menu !! choice c) as [o|] eqn:Ho; last apply IH.
      eapply post_bind; [apply post_any | intros content _].
      eapply post_bind; [apply post_any | intros _ _].
      apply post_ret. right. exists o. split; last done.
      by eapply list_elem_of_lookup_2.
Qed.

Lemma post_dm_select_one user title placeholder option_tuples :
  Post (dm_select_one user title placeholder option_tuples)
    (λ r, r = None ∨ ∃ label desc, (label, desc) ∈ option_tuples ∧ r = Some label).
Proof.
  unfold dm_select_one.
  eapply post_bind; [apply post_any | intros _ _].
  eapply post_bind; [apply post_any | intros clicks _].
  intros w r w' Hrun. apply post_select_callback in Hrun as [-> | (o & Ho & ->)];
    first by left.
  right. destruct (select_options_values _ _ Ho) as [desc Hin]. eauto.
Qed.

Lemma post_dm_select_archetype user :
  Post (dm_select_archetype user)
    (λ r, r = None ∨ ∃ key, key ∈ ARCHETYPE_ORDER ∧ r = Some key).
Proof.
  destruct archetype_menu as (menu & Hvalues & Hmenu).
  intros w r w'. rewrite Hmenu. revert w r w'.
  change (Post
    (send (DmSend "**Selecione seu Arquétipo**"
             (Some {| placeholder := "Escolha seu Arquétipo"; options := menu |}));;
     clicks ← wait_clicks;
     select_callback user
       (λ v, Py.res_bind (archetype_of v)
               (λ a, Ok ("✅ Arquétipo: **" +:+ a_label a +:+ "**")))
       menu clicks)
    (λ r, r = None ∨ ∃ key, key ∈ ARCHETYPE_ORDER ∧ r = Some key)).
  eapply post_bind; [apply post_any | intros _ _].
  eapply post_bind; [apply post_any | intros clicks _].
  intros w r w' Hrun. apply post_select_callback in Hrun as [-> | (o & Ho & ->)];
    first by left.
  right. exists (value o). split; last done.
  rewrite <- Hvalues. by apply list_elem_of_fmap_2.
Qed.

Lemma with_bucket_same char kind : with_bucket char kind (bucket char kind) = char.
Proof. by destruct char as [? ? ? ? ? ? ? ? [] ? ? ? ? ?], kind. Qed.

Lemma with_bucket_twice char kind arr arr' :
  with_bucket (with_bucket char kind arr) kind arr' = with_bucket char kind arr'.
Proof. by destruct kind. Qed.

Lemma bucket_with_bucket char kind arr : bucket (with_bucket char kind arr) kind = arr.
Proof. by destruct kind. Qed.

(** The facts loop returns the sheet with one non-empty answer per prompt
    appended to the bucket, in order. *)
Lemma post_ask_facts kind prompts char :
  Post (ask_facts kind prompts char)
    (λ r, ∀ c', r = Some c' →
       ∃ answers, length answers = length prompts
                  ∧ Forall (λ a, a ≠ "") answers
                  ∧ c' = with_bucket char kind (bucket char kind ++ answers)).
Proof.
  revert char. induction prompts as [|p prompts IH]; intros char; cbn [ask_facts].
  - apply post_ret. intros c' [= <-]. exists []. split_and!; [done..|].
    by rewrite app_nil_r, with_bucket_same.
  - eapply post_bind; [apply post_any | intros txt _].
    destruct (nonempty txt) as [t|] eqn:Ht; last by apply post_ret.
    apply nonempty_Some in Ht as [_ Ht].
    intros w r w' Hrun c' ->. apply IH in Hrun.
    destruct (Hrun c' eq_refl) as (answers & Hlen & Hne & ->).
    exists (t :: answers). split_and!; [cbn; lia | by constructor |].
    by rewrite bucket_with_bucket, with_bucket_twice, <- app_assoc.
Qed.

Lemma apply_archetype_inv char key c' :
  apply_archetype char key = Ok c' →
  ∃ arch,
    ARCHETYPES !! key = Some arch
    ∧ c' = with_damage_base
             (with_reserves (with_archetype char key)
                {| pv := {| current := a_pv arch; vmax := a_pv arch |};
                   pm := {| current := a_pm arch; vmax := a_pm arch |};
                   destiny := {| current := DEFAULT_DESTINY_MAX;
                                 vmax := DEFAULT_DESTINY_MAX |} |})
             {| physical := dano_fisico_base arch; magic_bonus := bonus_magico arch |}.
Proof.
  unfold apply_archetype, archetype_of.
  destruct (ARCHETYPES !! key) as [arch|]; last done.
  cbn. intros [= <-]. by exists arch.
Qed.

Lemma post_make_new_character_schema user_id :
  Post (make_new_character_schema user_id)
    (λ c, ∃ created updated,
       c = {| schema_version := 2; owner_id := user_id; name := ""; race := "";
              class_ := ""; archetype := "";
              reserves :=
                {| pv := {| current := 0; vmax := 0 |};
                   pm := {| current := 0; vmax := 0 |};
                   destiny := {| current := DEFAULT_DESTINY_MAX;
                                 vmax := DEFAULT_DESTINY_MAX |} |};
              damage_base := {| physical := 0; magic_bonus := 0 |};
              facts := {| past := []; present := []; future := [] |};
              difficulty := ""; ruptured_facts := Some []; xp := Some 0;
              created_at := created; updated_at := updated |}).
Proof.
  unfold make_new_character_schema.
  eapply post_bind; [apply post_any | intros created _].
  eapply post_bind; [apply post_any | intros updated _].
  apply post_ret. eauto.
Qed.

Lemma post_wizard_body user :
  Post (wizard_body user)
    (λ r, ∀ char, r = Some char →
       owner_id char = user ∧ schema_version char = 2
       ∧ name char ≠ ""
       ∧ race char ∈ RACES.*1
       ∧ class_ char ∈ CLASSES.*1
       ∧ (∃ arch, ARCHETYPES !! archetype char = Some arch
                  ∧ pv (reserves char) = {| current := a_pv arch; vmax := a_pv arch |}
                  ∧ pm (reserves char) = {| current := a_pm arch; vmax := a_pm arch |}
                  ∧ damage_base char
                    = {| physical := dano_fisico_base arch;
                         magic_bonus := bonus_magico arch |})
       ∧ destiny (reserves char) = {| current := 2; vmax := 2 |}
       ∧ length (past (facts char)) = 3%nat
       ∧ length (present (facts char)) = 3%nat
       ∧ length (future (facts char)) = 1%nat
       ∧ Forall (λ f, f ≠ "") (fact_texts char)
       ∧ difficulty char ≠ ""
       ∧ xp char = Some 0
       ∧ ruptured_facts char = Some []).
Proof.
  unfold wizard_body.
  eapply post_bind; [apply post_make_new_character_schema | intros char0 Hchar0].
  destruct Hchar0 as (created & updated & ->).
  eapply post_bind; [apply post_any | intros name0 _].
  destruct (nonempty name0) as [name1|] eqn:Hname; last by apply post_ret.
  apply nonempty_Some in Hname as [_ Hname].
  eapply post_bind; [apply post_dm_select_one | intros race0 Hrace].
  destruct (nonempty race0) as [race1|] eqn:Hrace1; last by apply post_ret.
  apply nonempty_Some in Hrace1 as [-> _].
  destruct Hrace as [? | (label & desc & Hrace & [= <-])]; first done.
  apply (list_elem_of_fmap_2 fst) in Hrace.
  eapply post_bind; [apply post_dm_select_one | intros class0 Hclass].
  destruct (nonempty class0) as [class1|] eqn:Hclass1; last by apply post_ret.
  apply nonempty_Some in Hclass1 as [-> _].
  destruct Hclass as [? | (clabel & cdesc & Hclass & [= <-])]; first done.
  apply (list_elem_of_fmap_2 fst) in Hclass.
  eapply post_bind; [apply post_dm_select_archetype | intros key0 Hkey].
  destruct (nonempty key0) as [key1|] eqn:Hkey1; last by apply post_ret.
  eapply post_bind; [apply post_lift; intros c1 Hc1; exact Hc1 | intros c1 Hc1].
  apply apply_archetype_inv in Hc1 as (arch & Harch & ->).
  eapply post_bind; [apply post_any | intros _ _].
  eapply post_bind; [apply post_ask_facts | intros r2 H2].
  destruct r2 as [c2|]; last by apply post_ret.
  destruct (H2 c2 eq_refl) as (ans1 & Hl1 & Hn1 & ->).
  eapply post_bind; [apply post_ask_facts | intros r3 H3].
  destruct r3 as [c3|]; last by apply post_ret.
  destruct (H3 c3 eq_refl) as (ans2 & Hl2 & Hn2 & ->).
  eapply post_bind; [apply post_any | intros fut0 _].
  destruct (nonempty fut0) as [fut1|] eqn:Hfut; last by apply post_ret.
  apply nonempty_Some in Hfut as [_ Hfut].
  eapply post_bind; [apply post_any | intros diff0 _].
  destruct (nonempty diff0) as [diff1|] eqn:Hdiff; last by apply post_ret.
  apply nonempty_Some in Hdiff as [_ Hdiff].
  eapply post_bind; [apply post_any | intros now _].
  eapply post_bind; [apply post_any | intros _ _].
  apply post_ret. intros char [= <-].
  unfold fact_texts. cbn -[ARCHETYPES RACES CLASSES].
  split_and!; try done.
  - by exists arch.
  - rewrite !Forall_app. split_and!; [done | done | by constructor].
Qed.

Lemma post_run_character_wizard user (Q : option Character → Prop) :
  Post (wizard_body user) Q → Q None → Post (run_character_wizard user) Q.
Proof.
  intros Hbody Hnone. unfold run_character_wizard.
  eapply post_bind; [apply post_any | intros active _].
  destruct active; first by apply post_ret.
  eapply post_bind; [apply post_any | intros _ _].
  by apply post_try_finally.
Qed.

(** X18. Every sheet the wizard of [rpg_core.py] returns is complete: it
    belongs to the user, has a non-empty name, a race and a class of the
    lists, an archetype of the catalogue with PV, PM and damage set from it
    and destiny at 2/2, exactly three past, three present and one future
    fact, none of them empty, a non-empty difficulty, 0 XP and no ruptured
    fact. *)
Theorem wizard_sheet_is_complete (w : World Character) (user : Z)
    (char : Character) :
  (run_character_wizard user w).1 = Ok (Some char) →
  owner_id char = user ∧ schema_version char = 2
  ∧ name char ≠ ""
  ∧ race char ∈ RACES.*1
  ∧ class_ char ∈ CLASSES.*1
  ∧ (∃ arch, ARCHETYPES !! archetype char = Some arch
             ∧ pv (reserves char) = {| current := a_pv arch; vmax := a_pv arch |}
             ∧ pm (reserves char) = {| current := a_pm arch; vmax := a_pm arch |}
             ∧ damage_base char
               = {| physical := dano_fisico_base arch;
                    magic_bonus := bonus_magico arch |})
  ∧ destiny (reserves char) = {| current := 2; vmax := 2 |}
  ∧ length (past (facts char)) = 3%nat
  ∧ length (present (facts char)) = 3%nat
  ∧ length (future (facts char)) = 1%nat
  ∧ Forall (λ f, f ≠ "") (fact_texts char)
  ∧ difficulty char ≠ ""
  ∧ xp char = Some 0
  ∧ ruptured_facts char = Some [].
Proof.
  intros Hrun.
  destruct (run_character_wizard user w) as [r w'] eqn:E. cbn in Hrun. subst r.
  pose proof (post_run_character_wizard user _ (post_wizard_body user)) as HP.
  eapply HP; [done | exact E | done].
Qed.

Lemma wizard_sheet_is_complete_witness :
  owner_id Samples.bia = 7 ∧ schema_version Samples.bia = 2
  ∧ name Samples.bia ≠ ""
  ∧ race Samples.bia ∈ RACES.*1
  ∧ class_ Samples.bia ∈ CLASSES.*1
  ∧ (∃ arch, ARCHETYPES !! archetype Samples.bia = Some arch
             ∧ pv (reserves Samples.bia) = {| current := a_pv arch; vmax := a_pv arch |}
             ∧ pm (reserves Samples.bia) = {| current := a_pm arch; vmax := a_pm arch |}
             ∧ damage_base Samples.bia
               = {| physical := dano_fisico_base arch;
                    magic_bonus := bonus_magico arch |})
  ∧ destiny (reserves Samples.bia) = {| current := 2; vmax := 2 |}
  ∧ length (past (facts Samples.bia)) = 3%nat
  ∧ length (present (facts Samples.bia)) = 3%nat
  ∧ length (future (facts Samples.bia)) = 1%nat
  ∧ Forall (λ f, f ≠ "") (fact_texts Samples.bia)
  ∧ difficulty Samples.bia ≠ ""
  ∧ xp Samples.bia = Some 0
  ∧ ruptured_facts Samples.bia = Some [].
Proof.
  apply (wizard_sheet_is_complete Samples.wizard_again 7 Samples.bia).
  by vm_compute.
Defined.

End WizardFrames.

(** ** The commands of [bot.py] and who may run them *)

Section BotCommands.
Import Core.

Lemma is_master_spec (m : Member) :
  is_master m = true ↔ administrator m = true ∨ MASTER_ROLE_NAME ∈ roles m.
Proof.
  unfold is_master. destruct (administrator m); first by intuition.
  rewrite bool_decide_eq_true, Exists_exists. split.
  - intros (r & Hr & ->). by right.
  - intros [? | Hr]; first done. by exists MASTER_ROLE_NAME.
Qed.

(** X19. The command [personagem_xp] of [bot.py] changes a record of the
    file only when a delta is given, only the record of the target, and,
    when the target is not the caller, only for a caller who is a member of
    the server the command runs in and is administrator or holds the role
    "Mestre". *)
Theorem bot_xp_only_own_or_master (w : World Character) (interaction : Interaction)
    (usuario delta : option Z) (key : string) :
  w_file (Bot.personagem_xp interaction usuario delta w).2 !! key ≠ w_file w !! key →
  key = Py.str (default (caller_id (user interaction)) usuario)
  ∧ is_Some delta
  ∧ (default (caller_id (user interaction)) usuario = caller_id (user interaction)
     ∨ guild interaction = true
       ∧ ∃ m, member (user interaction) = Some m
              ∧ (administrator m = true ∨ "Mestre" ∈ roles m)).
Proof.
  unfold Bot.personagem_xp.
  set (target := default (caller_id (user interaction)) usuario).
  destruct delta as [delta|]; last first.
  { unfold get_character. flow.
    destruct (w_file w !! Py.str target); cbn; intros H; by destruct H. }
  destruct (bool_decide (target ≠ caller_id (user interaction))
            && negb (guild interaction
                     && match member (user interaction) with
                        | Some m => is_master m
                        | None => false
                        end)) eqn:Hguard.
  { cbn. intros H. by destruct H. }
  intros Hchanged. split_and!.
  - revert Hchanged. unfold xp_adjust, Bot.answer. flow.
    destruct (w_file w !! Py.str target) as [char|]; cbn; last by intros [].
    destruct (decide (key = Py.str target)) as [|Hne]; first done.
    rewrite lookup_insert_ne by done. by intros [].
  - by eexists.
  - apply andb_false_iff in Hguard as [Hown | Hmaster].
    + left. apply bool_decide_eq_false in Hown. by apply dec_stable.
    + right. apply negb_false_iff, andb_true_iff in Hmaster as [Hg Hm].
      split; first done.
      destruct (member (user interaction)) as [m|]; last done.
      exists m. split; first done. by apply is_master_spec.
Qed.

Lemma bot_xp_only_own_or_master_witness :
  "7" = Py.str (default 9 (Some 7))
  ∧ is_Some (Some 2)
  ∧ (default 9 (Some 7) = 9
     ∨ true = true
       ∧ ∃ m, Some {| administrator := false; roles := ["Jogador"; "Mestre"] |} = Some m
              ∧ (administrator m = true ∨ "Mestre" ∈ roles m)).
Proof.
  apply (bot_xp_only_own_or_master
           (Samples.world Samples.scenario [] [])
           {| user := {| caller_id := 9;
                         member := Some {| administrator := false;
                                           roles := ["Jogador"; "Mestre"] |} |};
              guild := true |}
           (Some 7) (Some 2) "7").
  vm_compute. intros [=].
Defined.

(** X20. The command [reset_sessao] of [bot.py] never touches the file.  It
    is refused, leaving the session table as it is, exactly for a caller who
    is a member of the server the command runs in and is neither
    administrator nor holder of the role "Mestre"; for every other caller,
    one outside a server included, it clears the session of the named user,
    so that the wizard's test of the session table is negative for that
    user. *)
Theorem reset_sessao_frees (w : World Character) (interaction : Interaction)
    (usuario : Z) :
  w_file (Bot.reset_sessao interaction usuario w).2 = w_file w
  ∧ ((Bot.reset_sessao interaction usuario w).1 = Ok tt)
  ∧ ((guild interaction = true
      ∧ ∃ m, member (user interaction) = Some m
             ∧ administrator m = false ∧ "Mestre" ∉ roles m)
     → w_sessions (Bot.reset_sessao interaction usuario w).2 = w_sessions w
       ∧ w_out (Bot.reset_sessao interaction usuario w).2
         = w_out w ++ [Respond "Sem permissão." None])
  ∧ (¬ (guild interaction = true
        ∧ ∃ m, member (user interaction) = Some m
               ∧ administrator m = false ∧ "Mestre" ∉ roles m)
     → w_sessions (Bot.reset_sessao interaction usuario w).2
       = delete usuario (w_sessions w)
       ∧ (session_get usuario (Bot.reset_sessao interaction usuario w).2).1 = Ok false).
Proof.
  unfold Bot.reset_sessao, Bot.member_not_master.
  assert (Hguard :
    guild interaction
    && match member (user interaction) with
       | Some m => negb (is_master m)
       | None => false
       end = true
    ↔ guild interaction = true
      ∧ ∃ m, member (user interaction) = Some m
             ∧ administrator m = false ∧ "Mestre" ∉ roles m).
  { rewrite andb_true_iff. apply and_iff_compat_l.
    destruct (member (user interaction)) as [m|].
    - rewrite negb_true_iff. split.
      + intros Hm. exists m. split; first done.
        destruct (administrator m) eqn:Ha.
        * unfold is_master in Hm. by rewrite Ha in Hm.
        * split; first done. intros Hin.
          assert (is_master m = true) by (apply is_master_spec; by right).
          congruence.
      + intros (m' & [= <-] & Ha & Hr).
        destruct (is_master m) eqn:Hm; last done.
        apply is_master_spec in Hm as [|]; [congruence | done].
    - split; first done. by intros (m & ? & _). }
  destruct (guild interaction
            && match member (user interaction) with
               | Some m => negb (is_master m)
               | None => false
               end) eqn:E.
  - split_and!; [done | done | done |].
    intros Hno. destruct Hno. by apply Hguard.
  - split_and!; [done | done | | ].
    + intros Hyes. apply Hguard in Hyes. congruence.
    + intros _. split; first done.
      unfold session_get, session_pop, send. flow. cbn [fst snd w_sessions].
      by rewrite lookup_delete_eq.
Qed.

End BotCommands.

(** ** Records, menus and commands of [main.py] *)

Section MainRecords.
Import Main.

(** X21. Filling in the defaults of a record of [main.py] changes none of
    what the record holds: its facts, XP, ruptures, condition, name, flaw and
    dates read the same; afterwards the three buckets, the XP, the rupture
    list and the condition (3/3 when it was missing) are all present, and
    filling in again changes nothing. *)
Theorem ensure_char_defaults_fills (char : Character) :
  ensure_char_defaults (ensure_char_defaults char) = ensure_char_defaults char
  ∧ get_past (ensure_char_defaults char) = get_past char
  ∧ get_present (ensure_char_defaults char) = get_present char
  ∧ get_future (ensure_char_defaults char) = get_future char
  ∧ get_xp (ensure_char_defaults char) = get_xp char
  ∧ get_ruptured_facts (ensure_char_defaults char) = get_ruptured_facts char
  ∧ facts (ensure_char_defaults char)
    = Some {| past := Some (get_past char); present := Some (get_present char);
              future := Some (get_future char) |}
  ∧ xp (ensure_char_defaults char) = Some (get_xp char)
  ∧ ruptured_facts (ensure_char_defaults char) = Some (get_ruptured_facts char)
  ∧ condition (ensure_char_defaults char)
    = Some (default {| current := 3; vmax := 3 |} (condition char))
  ∧ name (ensure_char_defaults char) = name char
  ∧ flaw (ensure_char_defaults char) = flaw char
  ∧ created_at (ensure_char_defaults char) = created_at char
  ∧ updated_at (ensure_char_defaults char) = updated_at char.
Proof.
  destruct char as [u n fs fl c x r ca ua].
  destruct fs as [[[p|] [q|] [s|]]|], c as [c|], x as [x|], r as [r|];
    by split_and!.
Qed.

(** X22. [set_fact_by_index] of [main.py] never raises.  It returns no old
    text exactly when the index is negative or not below the number of
    facts, and then leaves the record as it is; otherwise it returns the
    text at that position of past + present + future and replaces it, and
    nothing else, by the new text. *)
Theorem main_set_fact_by_index_total (char : Character) (index : Z)
    (new_text : string) :
  ∃ old char',
    set_fact_by_index char index new_text = Ok (old, char')
    ∧ (old = None ↔ index < 0 ∨ total_facts char ≤ index)
    ∧ (old = None → char' = char)
    ∧ (∀ t, old = Some t →
         flatten_facts char !! Z.to_nat index = Some t
         ∧ flatten_facts char'
           = <[Z.to_nat index := new_text]> (flatten_facts char)
         ∧ ruptured_facts char' = ruptured_facts char
         ∧ xp char' = xp char).
Proof.
  destruct (decide (index < 0 ∨ total_facts char ≤ index)) as [Hout | Hin].
  - exists None, char. rewrite set_fact_by_index_out_of_range by done.
    by split_and!.
  - destruct (main_set_fact_in_range char index new_text)
      as (old & char' & Hold & Hset & Hflat & Hr & Hx & _); first lia.
    exists (Some old), char'. split_and!; [done | | done |].
    + split; [done | by intros ?].
    + by intros t [= <-].
Qed.

End MainRecords.

Section MainMenus.
Import Main.

Lemma listing_keep_ext keep keep' label base arr :
  (∀ fact, fact ∈ arr → keep fact = keep' fact) →
  listing keep label base arr = listing keep' label base arr.
Proof.
  revert base. induction arr as [|f arr IH]; intros base Hext; first done.
  cbn [listing]. rewrite (IH (S base)).
  - rewrite (Hext f); [done | by left].
  - intros fact Hin. apply Hext. by right.
Qed.

(** X23. Every entry of the rupture menu of [main.py] does what it shows:
    when the requester picks it, the callback reads its token back as the
    position of a fact that is not ruptured, appends that fact to the
    ruptured list and saves; the facts and the XP stay as they are (no XP
    is granted), and the menu built from the saved record no longer offers
    that position. *)
Theorem ruptura_menu_choice_ruptures (w : World Character)
    (interaction : Interaction) (target_user_id : string) (char : Character)
    (label tok : string) :
  w_file w !! target_user_id = Some char →
  (label, tok) ∈ list_fact_options_not_ruptured (ensure_char_defaults char) →
  ∃ (i : nat) fact char' w',
    tok = Py.str (Z.of_nat i)
    ∧ flatten_facts char !! i = Some fact
    ∧ (fact ∉ get_ruptured_facts char)
    ∧ RupturaSelect_callback (id (user interaction)) target_user_id tok
        interaction w = (Ok tt, w')
    ∧ w_file w' = <[target_user_id := char']> (w_file w)
    ∧ w_out w'
      = w_out w ++ [Respond ("💥 **Ruptura aplicada!**" +:+ nl
                             +:+ "Fato rompido: **" +:+ fact +:+ "**") None]
    ∧ get_ruptured_facts char' = get_ruptured_facts char ++ [fact]
    ∧ flatten_facts char' = flatten_facts char
    ∧ get_xp char' = get_xp char
    ∧ (∀ label', (label', tok) ∉ list_fact_options_not_ruptured char').
Proof.
  intros Hfile Hin.
  rewrite list_fact_options_not_ruptured_listing, elem_of_listing in Hin.
  destruct Hin as (i & fact & Hi & Hne & Hk & -> & ->). cbn [Nat.add] in *.
  rewrite ruptured_facts_defaults in Hk.
  apply negb_true_iff, bool_decide_eq_false in Hk.
  assert (Hlen : 0 ≤ Z.of_nat i < len (flatten_facts (ensure_char_defaults char))).
  { apply lookup_lt_Some in Hi. unfold len. lia. }
  destruct (getitem_in_range _ _ Hlen) as (fact' & Hi' & Hget).
  rewrite Nat2Z.id in Hi'. rewrite Hi in Hi'. injection Hi' as <-.
  rewrite flatten_facts_defaults in Hi.
  unfold RupturaSelect_callback.
  rewrite bool_decide_eq_false_2 by (intros H; by apply H).
  flow. rewrite int_str, Hfile.
  rewrite bool_decide_eq_false_2 by lia. rewrite Hget.
  rewrite ruptured_facts_defaults.
  rewrite bool_decide_eq_false_2 by done.
  unfold utc_now_iso, save_data, respond, send. cbn [w_file w_out w_clock w_tick].
  exists i, fact. eexists _, _. split; first done. split; first done.
  split; first done. split; first reflexivity. split; first reflexivity.
  split; first reflexivity.
  split; first reflexivity.
  split; first apply flatten_facts_defaults.
  split; first done.
  intros label' Hin'.
  rewrite list_fact_options_not_ruptured_listing, elem_of_listing in Hin'.
  destruct Hin' as (j & fact' & Hj & _ & Hk' & Htok & _). cbn [Nat.add] in *.
  apply str_inj, Nat2Z.inj in Htok. subst j.
  change (flatten_facts (with_updated_at (with_ruptured_facts ?c ?r) ?n))
    with (flatten_facts c) in Hj.
  rewrite flatten_facts_defaults, Hi in Hj. injection Hj as <-.
  apply negb_true_iff, bool_decide_eq_false in Hk'. apply Hk'.
  cbn. apply elem_of_app. right. by apply list_elem_of_singleton.
Qed.

Lemma ruptura_menu_choice_ruptures_witness :
  ∃ (i : nat) fact char' w',
    "2" = Py.str (Z.of_nat i)
    ∧ flatten_facts Samples.b_ruptured_old !! i = Some fact
    ∧ (fact ∉ get_ruptured_facts Samples.b_ruptured_old)
    ∧ RupturaSelect_callback (id (user Samples.by_ana)) "7" "2" Samples.by_ana
        (Samples.old_world Samples.b_ruptured_old []) = (Ok tt, w')
    ∧ w_file w' = <["7" := char']> (w_file (Samples.old_world Samples.b_ruptured_old []))
    ∧ w_out w'
      = w_out (Samples.old_world Samples.b_ruptured_old [])
        ++ [Respond ("💥 **Ruptura aplicada!**" +:+ nl
                     +:+ "Fato rompido: **" +:+ fact +:+ "**") None]
    ∧ get_ruptured_facts char' = get_ruptured_facts Samples.b_ruptured_old ++ [fact]
    ∧ flatten_facts char' = flatten_facts Samples.b_ruptured_old
    ∧ get_xp char' = get_xp Samples.b_ruptured_old
    ∧ (∀ label', (label', "2") ∉ list_fact_options_not_ruptured char').
Proof.
  apply (ruptura_menu_choice_ruptures
           (Samples.old_world Samples.b_ruptured_old []) Samples.by_ana "7"
           Samples.b_ruptured_old "Presente: C" "2").
  - by vm_compute.
  - vm_compute. apply elem_of_cons. right. by left.
Defined.

(** The opening shared by the commands lets through a caller in a server
    who names nobody, or who is a master. *)
Lemma command_target_passes (w : World Character) (interaction : Interaction)
    (usuario : option Member) (denied : string) :
  guild interaction = true →
  (is_Some usuario → master (user interaction) = true) →
  command_target interaction usuario denied w
  = (Ok (Some (default (user interaction) usuario)), w).
Proof.
  intros Hg Hm. unfold command_target. rewrite Hg. cbn [negb].
  case_bool_decide as Hu; last done. by rewrite Hm.
Qed.

Lemma command_target_refuses (w : World Character) (interaction : Interaction)
    (usuario : option Member) (denied : string) :
  guild interaction = false
  ∨ (is_Some usuario ∧ master (user interaction) = false) →
  ∃ msg, command_target interaction usuario denied w
         = (Ok None, (respond msg w).2).
Proof.
  intros Hno. unfold command_target.
  destruct (guild interaction); cbn [negb]; last by eexists.
  destruct Hno as [? | [Hu Hm]]; first done.
  rewrite bool_decide_eq_true_2 by done. rewrite Hm. by eexists.
Qed.

(** X24. Outside a server, or when a caller who is no master names another
    user, each of the seven commands of [main.py] that take a target only
    answers with one message: nothing is read from or written to the file,
    no menu is shown. *)
Theorem commands_turned_down (w : World Character) (interaction : Interaction)
    (usuario : option Member) (delta : Z) :
  guild interaction = false
  ∨ (is_Some usuario ∧ master (user interaction) = false) →
  Forall (λ command : M Character unit,
            ∃ msg, command w = (Ok tt, (respond msg w).2))
    [ personagem_ver interaction usuario;
      personagem_xp interaction delta usuario;
      personagem_condicao interaction delta usuario;
      personagem_ruptura interaction usuario;
      personagem_descansar interaction usuario;
      personagem_novo_fato interaction usuario;
      personagem_editar_fato interaction usuario ].
Proof.
  intros Hno.
  repeat constructor;
    [ unfold personagem_ver | unfold personagem_xp | unfold personagem_condicao
    | unfold personagem_ruptura | unfold personagem_descansar
    | unfold personagem_novo_fato | unfold personagem_editar_fato ];
    match goal with
    | |- context [command_target interaction usuario ?denied] =>
        destruct (command_target_refuses w interaction usuario denied Hno)
          as [msg Hmsg]
    end;
    exists msg; unfold mbind at 1, M_bind at 1, Sys.bind at 1; by rewrite Hmsg.
Qed.

Lemma commands_turned_down_witness :
  Forall (λ command : M Character unit,
            ∃ msg, command (Samples.old_world Samples.b_ruptured_old [])
                   = (Ok tt, (respond msg (Samples.old_world Samples.b_ruptured_old [])).2))
    [ personagem_ver Samples.by_ana (Some Samples.ana);
      personagem_xp Samples.by_ana 5 (Some Samples.ana);
      personagem_condicao Samples.by_ana 5 (Some Samples.ana);
      personagem_ruptura Samples.by_ana (Some Samples.ana);
      personagem_descansar Samples.by_ana (Some Samples.ana);
      personagem_novo_fato Samples.by_ana (Some Samples.ana);
      personagem_editar_fato Samples.by_ana (Some Samples.ana) ].
Proof.
  apply (commands_turned_down (Samples.old_world Samples.b_ruptured_old [])
           Samples.by_ana (Some Samples.ana) 5).
  right. split; [by eexists | reflexivity].
Defined.

(** X25. A rest in [main.py] empties the ruptured list and keeps the facts
    and the XP, so that the rupture menu offers again every fact the edit
    menu offers; when nothing was ruptured the file is left as it is. *)
Theorem descansar_reopens_every_fact (w : World Character)
    (interaction : Interaction) (usuario : option Member) (char : Character) :
  guild interaction = true →
  (is_Some usuario → master (user interaction) = true) →
  w_file w !! Py.str (id (default (user interaction) usuario)) = Some char →
  ∃ w',
    personagem_descansar interaction usuario w = (Ok tt, w')
    ∧ (get_ruptured_facts char = [] → w_file w' = w_file w)
    ∧ (get_ruptured_facts char ≠ [] →
       ∃ char',
         w_file w'
         = <[Py.str (id (default (user interaction) usuario)) := char']> (w_file w)
         ∧ get_ruptured_facts char' = []
         ∧ flatten_facts char' = flatten_facts char
         ∧ get_xp char' = get_xp char
         ∧ list_fact_options_not_ruptured char' = list_all_fact_options char').
Proof.
  intros Hg Hm Hfile. unfold personagem_descansar.
  unfold mbind at 1, M_bind at 1, Sys.bind at 1.
  rewrite command_target_passes by done. flow. rewrite Hfile.
  rewrite ruptured_facts_defaults.
  destruct (get_ruptured_facts char) as [|r rs] eqn:Hr.
  - eexists. split; first reflexivity. by split.
  - unfold utc_now_iso, save_data, respond, send. cbn [w_file w_clock w_tick].
    eexists. split; first reflexivity. split; first done. intros _.
    eexists. split; first reflexivity. split; first reflexivity.
    split; first apply flatten_facts_defaults. split; first done.
    rewrite list_fact_options_not_ruptured_listing, list_all_fact_options_listing.
    apply listing_keep_ext. intros fact _. cbn.
    rewrite bool_decide_eq_false_2; [done | apply not_elem_of_nil].
Qed.

Lemma descansar_reopens_every_fact_witness :
  ∃ w',
    personagem_descansar Samples.by_ana None
      (Samples.old_world Samples.b_ruptured_old []) = (Ok tt, w')
    ∧ (get_ruptured_facts Samples.b_ruptured_old = [] →
       w_file w' = w_file (Samples.old_world Samples.b_ruptured_old []))
    ∧ (get_ruptured_facts Samples.b_ruptured_old ≠ [] →
       ∃ char',
         w_file w'
         = <[Py.str (id (default (user Samples.by_ana) None)) := char']>
             (w_file (Samples.old_world Samples.b_ruptured_old []))
         ∧ get_ruptured_facts char' = []
         ∧ flatten_facts char' = flatten_facts Samples.b_ruptured_old
         ∧ get_xp char' = get_xp Samples.b_ruptured_old
         ∧ list_fact_options_not_ruptured char' = list_all_fact_options char').
Proof.
  apply (descansar_reopens_every_fact
           (Samples.old_world Samples.b_ruptured_old []) Samples.by_ana None
           Samples.b_ruptured_old).
  - reflexivity.
  - intros [m Hm]. discriminate Hm.
  - by vm_compute.
Defined.

(** X26. The command [personagem_condicao] of [main.py] adds the delta to
    the current condition and clamps the sum between 0 and the maximum,
    which it keeps (3/3 is the gauge of a record without one); with a
    maximum that is not negative the stored value lies between 0 and the
    maximum.  Facts, XP and ruptures are untouched. *)
Theorem condicao_stays_in_range (w : World Character) (interaction : Interaction)
    (delta : Z) (usuario : option Member) (char : Character) :
  guild interaction = true →
  (is_Some usuario → master (user interaction) = true) →
  w_file w !! Py.str (id (default (user interaction) usuario)) = Some char →
  ∃ char' cond' w',
    personagem_condicao interaction delta usuario w = (Ok tt, w')
    ∧ w_file w'
      = <[Py.str (id (default (user interaction) usuario)) := char']> (w_file w)
    ∧ condition char' = Some cond'
    ∧ vmax cond' = vmax (default {| current := 3; vmax := 3 |} (condition char))
    ∧ current cond'
      = 0 `max` (vmax cond'
                 `min` (current (default {| current := 3; vmax := 3 |}
                                   (condition char)) + delta))
    ∧ (0 ≤ vmax cond' → 0 ≤ current cond' ≤ vmax cond')
    ∧ flatten_facts char' = flatten_facts char
    ∧ get_xp char' = get_xp char
    ∧ get_ruptured_facts char' = get_ruptured_facts char.
Proof.
  intros Hg Hm Hfile. unfold personagem_condicao.
  unfold mbind at 1, M_bind at 1, Sys.bind at 1.
  rewrite command_target_passes by done. flow. rewrite Hfile.
  unfold utc_now_iso, save_data, respond, send. cbn [w_file w_clock w_tick].
  eexists _, _, _. split; first reflexivity. split; first reflexivity.
  split; first reflexivity. cbn [vmax current default condition ensure_char_defaults].
  split; first done. split; first done. split; first lia.
  split; first apply flatten_facts_defaults.
  split; first done. apply ruptured_facts_defaults.
Qed.

Lemma condicao_stays_in_range_witness :
  ∃ char' cond' w',
    personagem_condicao Samples.by_ana (-5) None
      (Samples.old_world Samples.b_ruptured_old []) = (Ok tt, w')
    ∧ w_file w'
      = <[Py.str (id (default (user Samples.by_ana) None)) := char']>
          (w_file (Samples.old_world Samples.b_ruptured_old []))
    ∧ condition char' = Some cond'
    ∧ vmax cond'
      = vmax (default {| current := 3; vmax := 3 |}
                (condition Samples.b_ruptured_old))
    ∧ current cond'
      = 0 `max` (vmax cond'
                 `min` (current (default {| current := 3; vmax := 3 |}
                                   (condition Samples.b_ruptured_old)) + -5))
    ∧ (0 ≤ vmax cond' → 0 ≤ current cond' ≤ vmax cond')
    ∧ flatten_facts char' = flatten_facts Samples.b_ruptured_old
    ∧ get_xp char' = get_xp Samples.b_ruptured_old
    ∧ get_ruptured_facts char' = get_ruptured_facts Samples.b_ruptured_old.
Proof.
  apply (condicao_stays_in_range
           (Samples.old_world Samples.b_ruptured_old []) Samples.by_ana (-5) None
           Samples.b_ruptured_old).
  - reflexivity.
  - intros [m Hm]. discriminate Hm.
  - by vm_compute.
Defined.

End MainMenus.

(** ** Forms and the wizard of [main.py] *)

Section MainForms.
Import Main.








End MainForms.

Section MainWizard.
Import Main.





End MainWizard.
